(** * FloraLens: provider selection and request orchestration

    A shallow embedding of the service layer ([services/geminiService.ts],
    [services/mediaPipeService.ts]) and of the two event handlers that
    orchestrate it ([handleFileSelect] in [App.tsx], [handleSend] in
    [components/ChatBot.tsx]), followed by the properties the specification
    states about them.

    JavaScript strings are sequences of UTF-16 code units; they are modelled
    as [list N].  Promises that reject and statements that throw are the
    [Throw] outcome of a small state-and-exception monad; the host
    environment (browser APIs and the two AI providers) is a record of
    world-passing functions, and every call that crosses that boundary is
    written to a trace. *)

From Stdlib Require Import Ascii String.
From Stdlib Require Import List Bool Arith NArith Lia.
Import ListNotations.

Local Open Scope N_scope.
Local Open Scope list_scope.

(* ===================================================================== *)
(** * JavaScript strings *)
(* ===================================================================== *)

Module JsString.

(** A UTF-16 code unit. *)
Definition char := N.

Definition jsstring := list char.

(** An ASCII source literal as a JavaScript string. *)
Definition str (s : string) : jsstring :=
  map N_of_ascii (list_ascii_of_string s).

(** The double-quote, backtick and line-feed characters, which the source
    literals below are assembled from. *)
Definition dquote : char := 34.
Definition backtick : char := 96.
Definition LF : char := 10.

Fixpoint eqb (a b : jsstring) : bool :=
  match a, b with
  | [], [] => true
  | x :: a', y :: b' => (x =? y) && eqb a' b'
  | _, _ => false
  end.

(** [startsWith pat s]: [pat] is a prefix of [s]. *)
Fixpoint startsWith (pat s : jsstring) : bool :=
  match pat, s with
  | [], _ => true
  | p :: pat', c :: s' => (p =? c) && startsWith pat' s'
  | _ :: _, [] => false
  end.

(** [String.prototype.endsWith]. *)
Definition endsWith (s pat : jsstring) : bool :=
  startsWith (rev pat) (rev s).

(** [includes pat s]: [pat] occurs somewhere in [s]. *)
Fixpoint includes (pat s : jsstring) : bool :=
  startsWith pat s ||
  match s with
  | [] => false
  | _ :: s' => includes pat s'
  end.

(** [s.replace(/pat/g, '')] for a pattern that is a literal string:
    the matches are found left to right and do not overlap; each one is
    deleted.  [skip] counts the characters of the current match that are
    still to be dropped. *)
Fixpoint removeAll_from (pat s : jsstring) (skip : nat) : jsstring :=
  match s with
  | [] => []
  | c :: s' =>
      match skip with
      | S k => removeAll_from pat s' k
      | O =>
          if startsWith pat s
          then removeAll_from pat s' (pred (length pat))
          else c :: removeAll_from pat s' O
      end
  end.

Definition removeAll (pat s : jsstring) : jsstring :=
  match pat with
  | [] => s
  | _ :: _ => removeAll_from pat s O
  end.

(** The code units ECMAScript's [trim] removes: WhiteSpace (TAB, VT, FF,
    SP, NBSP, ZWNBSP and the category Zs) and LineTerminator (LF, CR, LS,
    PS). *)
Definition whiteSpace : list char :=
  [ 9; 10; 11; 12; 13; 32; 160; 5760;
    8192; 8193; 8194; 8195; 8196; 8197; 8198; 8199; 8200; 8201; 8202;
    8232; 8233; 8239; 8287; 12288; 65279 ].

Definition isWhiteSpace (c : char) : bool := existsb (N.eqb c) whiteSpace.

Fixpoint trimStart (s : jsstring) : jsstring :=
  match s with
  | [] => []
  | c :: s' => if isWhiteSpace c then trimStart s' else s
  end.

Definition trimEnd (s : jsstring) : jsstring := rev (trimStart (rev s)).

(** [String.prototype.trim]. *)
Definition trim (s : jsstring) : jsstring := trimEnd (trimStart s).

(** [Array.prototype.join] on an array of strings. *)
Fixpoint join (sep : jsstring) (l : list jsstring) : jsstring :=
  match l with
  | [] => []
  | [x] => x
  | x :: l' => x ++ sep ++ join sep l'
  end.

(** [s.split(sep)] for a one-character separator; [cur] is the piece
    being read, reversed. *)
Fixpoint split_from (sep : char) (s : jsstring) (cur : jsstring)
  : list jsstring :=
  match s with
  | [] => [rev cur]
  | c :: s' =>
      if c =? sep then rev cur :: split_from sep s' []
      else split_from sep s' (c :: cur)
  end.

Definition split (sep : char) (s : jsstring) : list jsstring :=
  split_from sep s [].

(** ASCII case folding, as the [i] flag of a non-unicode regular
    expression applies to a pattern of ASCII letters. *)
Definition asciiLower (c : char) : char :=
  if (65 <=? c) && (c <=? 90) then c + 32 else c.

End JsString.

Import JsString.

(* ===================================================================== *)
(** * JSON values and [JSON.parse] *)
(* ===================================================================== *)

Module Json.

(** A value [JSON.parse] can return.  A number is kept as the lexeme it
    was read from (its conversion to a double is not modelled); an object
    lists its members in insertion order, a repeated key overwriting the
    earlier value in place. *)
#[warnings="-register-all"]
Inductive json : Type :=
| JNull
| JBool (b : bool)
| JNumber (lexeme : jsstring)
| JString (s : jsstring)
| JArray (elems : list json)
| JObject (members : list (jsstring * json)).

Inductive token : Type :=
| TLBrace | TRBrace | TLBracket | TRBracket | TColon | TComma
| TString (s : jsstring)
| TNumber (lexeme : jsstring)
| TTrue | TFalse | TNull.

(** ** Lexer: one step per code unit *)

Inductive lstate : Type :=
| LDefault
| LString (acc : jsstring)                     (* inside a string literal *)
| LEscape (acc : jsstring)                     (* after a backslash *)
| LUnicode (acc : jsstring) (hex : list N)     (* after \u *)
| LNumber (acc : jsstring)                     (* inside a number *)
| LWord (acc : jsstring)                       (* inside true/false/null *)
| LError.

Definition isJsonSpace (c : char) : bool :=
  (c =? 32) || (c =? 9) || (c =? 10) || (c =? 13).

Definition isDigit (c : char) : bool := (48 <=? c) && (c <=? 57).

Definition isLower (c : char) : bool := (97 <=? c) && (c <=? 122).

(** Characters a number lexeme is made of. *)
Definition isNumberChar (c : char) : bool :=
  isDigit c || (c =? 43) || (c =? 45) || (c =? 46) || (c =? 101) || (c =? 69).

Definition hexValue (c : char) : option N :=
  if isDigit c then Some (c - 48)
  else if (97 <=? c) && (c <=? 102) then Some (c - 87)
  else if (65 <=? c) && (c <=? 70) then Some (c - 55)
  else None.

Fixpoint dropDigits (s : jsstring) : jsstring :=
  match s with
  | c :: s' => if isDigit c then dropDigits s' else s
  | [] => []
  end.

(** One or more digits, then the rest. *)
Definition digits1 (s : jsstring) : option jsstring :=
  match s with
  | c :: s' => if isDigit c then Some (dropDigits s') else None
  | [] => None
  end.

(** The JSON number grammar: an optional minus sign; an integer part
    that is 0 or a digit 1-9 followed by any digits; an optional fraction
    (a dot and one or more digits); an optional exponent (e or E, an
    optional sign, one or more digits). *)
Definition validNumber (s : jsstring) : bool :=
  let s1 := match s with 45 :: r => r | _ => s end in
  let afterInt :=
    match s1 with
    | 48 :: r => Some r
    | c :: r => if isDigit c then Some (dropDigits r) else None
    | [] => None
    end in
  let afterFrac :=
    match afterInt with
    | Some (46 :: r) => digits1 r
    | other => other
    end in
  let afterExp :=
    match afterFrac with
    | Some (c :: r) =>
        if (c =? 101) || (c =? 69) then
          match r with
          | 43 :: r' => digits1 r'
          | 45 :: r' => digits1 r'
          | _ => digits1 r
          end
        else Some (c :: r)
    | other => other
    end in
  match afterExp with
  | Some [] => true
  | _ => false
  end.

Definition lexer : Type := lstate * list token.

Definition flushNumber (acc : jsstring) (toks : list token) : option (list token) :=
  if validNumber (rev acc) then Some (TNumber (rev acc) :: toks) else None.

Definition flushWord (acc : jsstring) (toks : list token) : option (list token) :=
  let w := rev acc in
  if JsString.eqb w (str "true") then Some (TTrue :: toks)
  else if JsString.eqb w (str "false") then Some (TFalse :: toks)
  else if JsString.eqb w (str "null") then Some (TNull :: toks)
  else None.

Definition stepDefault (c : char) (toks : list token) : lexer :=
  if isJsonSpace c then (LDefault, toks)
  else if c =? 123 then (LDefault, TLBrace :: toks)
  else if c =? 125 then (LDefault, TRBrace :: toks)
  else if c =? 91 then (LDefault, TLBracket :: toks)
  else if c =? 93 then (LDefault, TRBracket :: toks)
  else if c =? 58 then (LDefault, TColon :: toks)
  else if c =? 44 then (LDefault, TComma :: toks)
  else if c =? 34 then (LString [], toks)
  else if (c =? 45) || isDigit c then (LNumber [c], toks)
  else if isLower c then (LWord [c], toks)
  else (LError, toks).

Definition stepEscape (c : char) (acc : jsstring) : lstate :=
  if c =? 34 then LString (34 :: acc)           (* escaped quote *)
  else if c =? 92 then LString (92 :: acc)      (* \\ *)
  else if c =? 47 then LString (47 :: acc)      (* \/ *)
  else if c =? 98 then LString (8 :: acc)       (* \b *)
  else if c =? 102 then LString (12 :: acc)     (* \f *)
  else if c =? 110 then LString (10 :: acc)     (* \n *)
  else if c =? 114 then LString (13 :: acc)     (* \r *)
  else if c =? 116 then LString (9 :: acc)      (* \t *)
  else if c =? 117 then LUnicode acc []         (* \u *)
  else LError.

Definition stepUnicode (c : char) (acc : jsstring) (hex : list N) : lstate :=
  match hexValue c with
  | None => LError
  | Some d =>
      match hex with
      | [h3; h2; h1] => LString (((h1 * 16 + h2) * 16 + h3) * 16 + d :: acc)
      | _ => LUnicode acc (d :: hex)
      end
  end.

Definition step (l : lexer) (c : char) : lexer :=
  let (st, toks) := l in
  match st with
  | LDefault => stepDefault c toks
  | LString acc =>
      if c =? 34 then (LDefault, TString (rev acc) :: toks)
      else if c =? 92 then (LEscape acc, toks)
      else if c <? 32 then (LError, toks)
      else (LString (c :: acc), toks)
  | LEscape acc => (stepEscape c acc, toks)
  | LUnicode acc hex => (stepUnicode c acc hex, toks)
  | LNumber acc =>
      if isNumberChar c then (LNumber (c :: acc), toks)
      else match flushNumber acc toks with
           | Some toks' => stepDefault c toks'
           | None => (LError, toks)
           end
  | LWord acc =>
      if isLower c then (LWord (c :: acc), toks)
      else match flushWord acc toks with
           | Some toks' => stepDefault c toks'
           | None => (LError, toks)
           end
  | LError => (LError, toks)
  end.

Definition run (l : lexer) (s : jsstring) : lexer := fold_left step s l.

(** End of input: a pending number or word is emitted; an open string is
    an error. *)
Definition finish (l : lexer) : option (list token) :=
  let (st, toks) := l in
  match st with
  | LDefault => Some (rev toks)
  | LNumber acc => option_map (@rev token) (flushNumber acc toks)
  | LWord acc => option_map (@rev token) (flushWord acc toks)
  | _ => None
  end.

Definition tokenize (s : jsstring) : option (list token) :=
  finish (run (LDefault, []) s).

(** ** Parser over tokens *)

Fixpoint hasKey (k : jsstring) (ms : list (jsstring * json)) : bool :=
  match ms with
  | [] => false
  | (k', _) :: ms' => JsString.eqb k k' || hasKey k ms'
  end.

Fixpoint replaceKey (k : jsstring) (v : json) (ms : list (jsstring * json))
  : list (jsstring * json) :=
  match ms with
  | [] => []
  | (k', v') :: ms' =>
      if JsString.eqb k k' then (k', v) :: ms'
      else (k', v') :: replaceKey k v ms'
  end.

(** Defining property [k] on an object under construction. *)
Definition setMember (ms : list (jsstring * json)) (k : jsstring) (v : json)
  : list (jsstring * json) :=
  if hasKey k ms then replaceKey k v ms else ms ++ [(k, v)].

Fixpoint parseValue (fuel : nat) (ts : list token) : option (json * list token) :=
  match fuel with
  | O => None
  | S f =>
      match ts with
      | TNull :: r => Some (JNull, r)
      | TTrue :: r => Some (JBool true, r)
      | TFalse :: r => Some (JBool false, r)
      | TNumber n :: r => Some (JNumber n, r)
      | TString s :: r => Some (JString s, r)
      | TLBracket :: TRBracket :: r => Some (JArray [], r)
      | TLBracket :: r => parseElements f r []
      | TLBrace :: TRBrace :: r => Some (JObject [], r)
      | TLBrace :: r => parseMembers f r []
      | _ => None
      end
  end
with parseElements (fuel : nat) (ts : list token) (acc : list json)
  : option (json * list token) :=
  match fuel with
  | O => None
  | S f =>
      match parseValue f ts with
      | Some (v, TComma :: r) => parseElements f r (v :: acc)
      | Some (v, TRBracket :: r) => Some (JArray (rev (v :: acc)), r)
      | _ => None
      end
  end
with parseMembers (fuel : nat) (ts : list token) (acc : list (jsstring * json))
  : option (json * list token) :=
  match fuel with
  | O => None
  | S f =>
      match ts with
      | TString k :: TColon :: r =>
          match parseValue f r with
          | Some (v, TComma :: r') => parseMembers f r' (setMember acc k v)
          | Some (v, TRBrace :: r') => Some (JObject (setMember acc k v), r')
          | _ => None
          end
      | _ => None
      end
  end.

(** [JSON.parse]: [None] stands for the [SyntaxError] it throws. *)
Definition JSON_parse (s : jsstring) : option json :=
  match tokenize s with
  | Some ts =>
      match parseValue (S (length ts)) ts with
      | Some (v, []) => Some v
      | _ => None
      end
  | None => None
  end.

(** Property read [o.k] for the property names the program reads, none
    of which a prototype defines: [None] is [undefined], also on a value
    that is not an object. *)
Fixpoint lookup (k : jsstring) (ms : list (jsstring * json)) : option json :=
  match ms with
  | [] => None
  | (k', v) :: ms' => if JsString.eqb k k' then Some v else lookup k ms'
  end.

Definition get (v : json) (k : jsstring) : option json :=
  match v with
  | JObject ms => lookup k ms
  | _ => None
  end.

End Json.

Import Json.

(* ===================================================================== *)
(** * Exceptions, the host environment and the trace *)
(* ===================================================================== *)

(** A thrown value.  [Error m] is [new Error(m)]; [Rejected n] stands for
    whatever a provider or browser API throws or rejects with. *)
Inductive exn : Type :=
| Error (message : jsstring)
| SyntaxError
| TypeError
| ReferenceError
| Rejected (code : N).

(** A host call settles: it resolves or it rejects. *)
Inductive result (A : Type) : Type :=
| Ok (a : A)
| Fail (e : exn).
Arguments Ok {A} a.
Arguments Fail {A} e.

(** [types.ts]: the availability tiers of [capabilities()]. *)
Inductive Availability : Type := readily | after_download | no.

(** What the global scope holds: no [window] at all, a [window] without
    [ai], or [window.ai]. *)
Inductive AiGlobal : Type := NoWindow | NoAi | HasAi.

(** Handles of host objects. *)
Definition Session := nat.      (* an AILanguageModel *)
Definition Chat := nat.         (* a cloud chat session *)
Definition Classifier := nat.   (* a MediaPipe ImageClassifier *)
Definition Fileset := nat.
Definition Blob := nat.

Record File : Type := mkFile {
  fileName : jsstring;
  fileType : jsstring;
  fileData : option Blob
}.

Inductive HeicOutput : Type :=
| OneBlob (b : Blob)
| BlobArray (bs : list Blob).

Record Category : Type := mkCategory {
  categoryName : jsstring;
  categoryIndex : N
}.

(** [types.ts]: [ChatMessage]. *)
Inductive Role : Type := user | model.

Record ChatMessage : Type := mkChatMessage {
  role : Role;
  text : jsstring;
  timestamp : N
}.

(** [types.ts]: [PlantInfo] is a compile-time type only; at run time a
    plant record is whatever value [JSON.parse] returned. *)
Definition PlantInfo := json.

(** The response schema sent with a cloud identification request. *)
#[warnings="-register-all"]
Inductive Schema : Type :=
| SString
| SBoolean
| SObject (properties : list (jsstring * Schema)) (required : list jsstring).

Record GenerateRequest : Type := mkGenerateRequest {
  reqModel : jsstring;
  reqData : option jsstring;
  reqMimeType : jsstring;
  reqText : jsstring;
  reqResponseMimeType : jsstring;
  reqResponseSchema : Schema
}.

Record ChatRequest : Type := mkChatRequest {
  chatModel : jsstring;
  chatSystemInstruction : jsstring;
  chatHistory : list (Role * jsstring)
}.

Inductive Level : Type := Log | Warn | Err.

(** A call that crosses the boundary of the application. *)
Inductive event : Type :=
| EConsole (l : Level) (label : jsstring)
| ECapabilities
| ECreate (systemPrompt : jsstring)
| EPrompt (s : Session) (input : jsstring)
| EDestroy (s : Session)
| EGenerateContent (r : GenerateRequest)
| EChatsCreate (r : ChatRequest)
| ESendMessage (c : Chat) (message : jsstring)
| EForVisionTasks (url : jsstring)
| ECreateFromOptions (modelAssetPath : jsstring) (maxResults : N)
| EClassify (c : Classifier) (img : jsstring)
| EHeic2any (f : File)
| ECreateObjectURL (f : File)
| EReadAsDataURL (f : File)
| EImageLoad (src : jsstring).

(** The host environment over a state [World] of its own.  The pure
    fields are built-ins whose definition depends on Unicode tables or on
    floating point. *)
Record Host (World : Type) : Type := mkHost {
  (* built-ins *)
  toLowerCase : jsstring -> jsstring;
  JSON_stringify : json -> jsstring;
  Number_toString : jsstring -> jsstring;
  Number_truthy : jsstring -> bool;
  Date_now : World -> N * World;
  (* globals *)
  window_ai : World -> AiGlobal;
  API_KEY : World -> option jsstring;
  (* window.ai.languageModel and its sessions *)
  languageModel_capabilities : World -> result Availability * World;
  languageModel_create : jsstring -> World -> result Session * World;
  session_prompt : Session -> jsstring -> World -> result jsstring * World;
  session_destroy : Session -> World -> World;
  (* the cloud provider *)
  models_generateContent : GenerateRequest -> World -> result (option jsstring) * World;
  chats_create : ChatRequest -> World -> Chat * World;
  chat_sendMessage : Chat -> jsstring -> World -> result (option jsstring) * World;
  (* MediaPipe *)
  FilesetResolver_forVisionTasks : jsstring -> World -> result Fileset * World;
  ImageClassifier_createFromOptions :
    Fileset -> jsstring -> N -> World -> result Classifier * World;
  classifier_classify :
    Classifier -> jsstring -> World -> result (list (list Category)) * World;
  (* browser *)
  heic2any : File -> World -> result HeicOutput * World;
  URL_createObjectURL : File -> World -> jsstring * World;
  FileReader_readAsDataURL : File -> World -> result jsstring * World;
  Image_onload : jsstring -> World -> bool * World
}.

Arguments toLowerCase {World} _ _.
Arguments JSON_stringify {World} _ _.
Arguments Number_toString {World} _ _.
Arguments Number_truthy {World} _ _.
Arguments Date_now {World} _ _.
Arguments window_ai {World} _ _.
Arguments API_KEY {World} _ _.
Arguments languageModel_capabilities {World} _ _.
Arguments languageModel_create {World} _ _ _.
Arguments session_prompt {World} _ _ _ _.
Arguments session_destroy {World} _ _ _.
Arguments models_generateContent {World} _ _ _.
Arguments chats_create {World} _ _ _.
Arguments chat_sendMessage {World} _ _ _ _.
Arguments FilesetResolver_forVisionTasks {World} _ _ _.
Arguments ImageClassifier_createFromOptions {World} _ _ _ _ _.
Arguments classifier_classify {World} _ _ _ _.
Arguments heic2any {World} _ _ _.
Arguments URL_createObjectURL {World} _ _ _.
Arguments FileReader_readAsDataURL {World} _ _ _.
Arguments Image_onload {World} _ _ _.

(* ===================================================================== *)
(** * Component state *)
(* ===================================================================== *)

(** [types.ts]: [AppView]. *)
Inductive AppView : Type := ANALYZE | CHAT.

(** The state hooks of [App]. *)
Record AppState : Type := mkAppState {
  view : AppView;
  plantData : option PlantInfo;
  selectedImage : option jsstring;
  isAnalyzing : bool;
  error : option jsstring;
  isOnline : bool;
  isOfflineAnalysis : bool
}.

(** The state hooks of [ChatBot]. *)
Record ChatState : Type := mkChatState {
  history : list ChatMessage;
  input : jsstring;
  isLoading : bool;
  isLocalAI : bool;
  localSession : option Session
}.

(* ===================================================================== *)
(** * The monad of asynchronous handlers *)
(* ===================================================================== *)

(** How a computation ends: it returns, it throws (or its promise
    rejects), or it awaits a promise that never settles. *)
Inductive outcome (A : Type) : Type :=
| Return (a : A)
| Throw (e : exn)
| Pending.
Arguments Return {A} a.
Arguments Throw {A} e.
Arguments Pending {A}.

Section Program.

Context {World : Type}.
Variable H : Host World.

(** Everything a handler can read or change: the host's state, the trace
    of boundary calls so far, the module variable [imageClassifier] of
    [mediaPipeService.ts], and the state of the two components. *)
Record Machine : Type := mkMachine {
  world : World;
  trace : list event;
  imageClassifier : option Classifier;
  app : AppState;
  chat : ChatState
}.

Definition M (A : Type) : Type := Machine -> outcome A * Machine.

Definition ret {A} (a : A) : M A := fun m => (Return a, m).

Definition bind {A B} (c : M A) (k : A -> M B) : M B :=
  fun m =>
    match c m with
    | (Return a, m') => k a m'
    | (Throw e, m') => (Throw e, m')
    | (Pending, m') => (Pending, m')
    end.

Definition throw {A} (e : exn) : M A := fun m => (Throw e, m).

(** [try { c } catch (e) { handler e }] *)
Definition tryCatch {A} (c : M A) (handler : exn -> M A) : M A :=
  fun m =>
    match c m with
    | (Throw e, m') => handler e m'
    | other => other
    end.

(** [try { c } finally { fin }]: [fin] runs once [c] has returned or
    thrown, and the outcome of [c] stands unless [fin] itself fails. *)
Definition tryFinally {A} (c : M A) (fin : M unit) : M A :=
  fun m =>
    match c m with
    | (Pending, m') => (Pending, m')
    | (o, m') =>
        match fin m' with
        | (Return _, m'') => (o, m'')
        | (Throw e, m'') => (Throw e, m'')
        | (Pending, m'') => (Pending, m'')
        end
    end.

Notation "x <- c ;; k" := (bind c (fun x => k))
  (at level 61, c at next level, right associativity).
Notation "c ;; k" := (bind c (fun _ => k))
  (at level 61, right associativity).

Definition emit (e : event) (m : Machine) : Machine :=
  mkMachine (world m) (trace m ++ [e]) (imageClassifier m) (app m) (chat m).

Definition setWorld (w : World) (m : Machine) : Machine :=
  mkMachine w (trace m) (imageClassifier m) (app m) (chat m).

(** A host call that settles: the event is recorded, the host's state
    advances, a rejection becomes [Throw]. *)
Definition call {A} (e : event) (op : World -> result A * World) : M A :=
  fun m =>
    let (r, w) := op (world m) in
    let m' := setWorld w (emit e m) in
    match r with
    | Ok a => (Return a, m')
    | Fail x => (Throw x, m')
    end.

(** A host call that cannot fail: a synchronous constructor or a browser
    call that has no failure path in the code. *)
Definition call_total {A} (e : event) (op : World -> A * World) : M A :=
  fun m =>
    let (a, w) := op (world m) in
    (Return a, setWorld w (emit e m)).

(** [console.log], [console.warn] and [console.error]: the trace keeps
    the level and the leading string literal of the call (empty when the
    call has none); the values logged with it are not recorded. *)
Definition console (l : Level) (label : jsstring) : M unit :=
  fun m => (Return tt, emit (EConsole l label) m).

Definition Date_now_ : M N :=
  fun m => let (t, w) := Date_now H (world m) in (Return t, setWorld w m).

(** [JSON.parse], throwing [SyntaxError]. *)
Definition JSON_parse_ (s : jsstring) : M json :=
  match JSON_parse s with
  | Some v => ret v
  | None => throw SyntaxError
  end.

(** ** JavaScript coercions on parsed values *)

(** ToBoolean. *)
Definition truthy (v : json) : bool :=
  match v with
  | JNull => false
  | JBool b => b
  | JNumber n => Number_truthy H n
  | JString s => negb (JsString.eqb s [])
  | JArray _ => true
  | JObject _ => true
  end.

(** [null] is the empty value of a state hook. *)
Definition nullable (v : json) : option json :=
  match v with
  | JNull => None
  | _ => Some v
  end.

(** All of the parts, when every one of them is there. *)
Fixpoint sequence {A} (l : list (option A)) : option (list A) :=
  match l with
  | [] => Some []
  | None :: _ => None
  | Some a :: l' =>
      match sequence l' with
      | Some r => Some (a :: r)
      | None => None
      end
  end.

(** ToString, as a template literal applies it; [None] is the
    [TypeError] of a value that has no primitive.  A parsed object
    inherits [Object.prototype.toString] unless it has a member named
    [toString] of its own; that member is never callable, and neither
    [valueOf] of its own nor the inherited one gives a primitive.  An
    array is joined, its [null] elements as empty strings. *)
Fixpoint ToString (v : json) : option jsstring :=
  match v with
  | JNull => Some (str "null")
  | JBool true => Some (str "true")
  | JBool false => Some (str "false")
  | JNumber n => Some (Number_toString H n)
  | JString s => Some s
  | JArray l =>
      match sequence
              (map (fun x => match x with JNull => Some [] | _ => ToString x end) l)
      with
      | Some parts => Some (join (str ",") parts)
      | None => None
      end
  | JObject ms =>
      if hasKey (str "toString") ms then None else Some (str "[object Object]")
  end.

(** [`${x}`] for a property read [x] that may be [undefined]. *)
Definition interpolate (x : option json) : option jsstring :=
  match x with
  | Some v => ToString v
  | None => Some (str "undefined")
  end.

Definition read {A} (f : World -> A) : M A :=
  fun m => (Return (f (world m)), m).

(** A source literal between double quotes. *)
Definition quoted (s : string) : jsstring := [dquote] ++ str s ++ [dquote].

(** A template literal that spans several source lines. *)
Definition lines (l : list jsstring) : jsstring := join [LF] l.

(** The substitutions of a template literal are coerced from left to
    right; the first that has no string ends the evaluation. *)
Definition andThen {A B} (o : option A) (k : A -> option B) : option B :=
  match o with
  | Some a => k a
  | None => None
  end.

(** The value of a template literal, or the [TypeError] of a
    substitution. *)
Definition evalTemplate (t : option jsstring) : M jsstring :=
  match t with
  | Some s => ret s
  | None => throw TypeError
  end.

(* =================================================================== *)
(** * services/geminiService.ts *)
(* =================================================================== *)

Definition MODEL_NAME : jsstring := str "gemini-3-pro-preview".

(** [!apiKey] holds for [undefined] and for the empty string. *)
Definition getAiClient : M unit :=
  apiKey <- read (API_KEY H) ;;
  match apiKey with
  | Some (_ :: _) => ret tt
  | _ => throw (Error (str "API_KEY is not defined in the environment"))
  end.

Definition careSchema : Schema :=
  SObject
    [ (str "water", SString); (str "light", SString); (str "soil", SString);
      (str "humidity", SString); (str "temperature", SString) ]
    [ str "water"; str "light"; str "soil"; str "humidity"; str "temperature" ].

Definition plantSchema : Schema :=
  SObject
    [ (str "commonName", SString); (str "scientificName", SString);
      (str "description", SString); (str "petFriendly", SBoolean);
      (str "funFact", SString); (str "careInstructions", careSchema) ]
    [ str "commonName"; str "scientificName"; str "description";
      str "careInstructions"; str "petFriendly"; str "funFact" ].

Definition identifyPrompt : jsstring :=
  lines
    [ str "Identify this plant from the image. Provide detailed care instructions. ";
      str "  Return the result as a structured JSON object exactly matching the schema provided. ";
      str "  Ensure 'petFriendly' is a boolean indicating if it is safe for cats and dogs." ].

Definition identifyRequest (base64Image : option jsstring) (mimeType : jsstring)
  : GenerateRequest :=
  mkGenerateRequest MODEL_NAME base64Image mimeType identifyPrompt
    (str "application/json") plantSchema.

(** [base64Image] is [undefined] when the caller's data URL had no
    comma. *)
Definition identifyPlant (base64Image : option jsstring) (mimeType : jsstring)
  : M PlantInfo :=
  getAiClient ;;
  tryCatch
    (let req := identifyRequest base64Image mimeType in
     response <- call (EGenerateContent req) (models_generateContent H req) ;;
     match response with
     | Some (c :: t) => JSON_parse_ (c :: t)
     | _ => throw (Error (str "No response text from API"))
     end)
    (fun error =>
       console Err (str "Error identifying plant:") ;;
       throw error).

(** ** Local AI (Edge) capabilities *)

Definition checkLocalAICapability : M bool :=
  g <- read (window_ai H) ;;
  match g with
  | HasAi =>
      tryCatch
        (capabilities <- call ECapabilities (languageModel_capabilities H) ;;
         ret (match capabilities with readily => true | _ => false end))
        (fun e => ret false)
  | _ => ret false
  end.

Definition persona : jsstring :=
  str "You are FloraLens, an expert botanist and gardening assistant. You are helpful, friendly, and concise.".

(** The block [createLocalSession] appends for a plant context, [None]
    when the template literal throws its [TypeError]: a substitution has
    no string, or [context.careInstructions.water] is read while
    [careInstructions] is [undefined] or [null]. *)
Definition localContextBlock (context : PlantInfo) : option jsstring :=
  andThen (interpolate (get context (str "commonName"))) (fun commonName =>
  andThen (interpolate (get context (str "scientificName"))) (fun scientificName =>
  andThen (interpolate (get context (str "description"))) (fun description =>
  match get context (str "careInstructions") with
  | None | Some JNull => None
  | Some care =>
      andThen (interpolate (get care (str "water"))) (fun water =>
      andThen (interpolate (get care (str "light"))) (fun light =>
      andThen (interpolate (get context (str "petFriendly"))) (fun petFriendly =>
      Some (lines
        [ str " The user is currently looking at a plant identified as "
            ++ commonName ++ str " (" ++ scientificName ++ str "). ";
          str "    Here are its details: Description: " ++ description ++ str ". ";
          str "    Care: Water - " ++ water
            ++ str ", Light - " ++ light ++ str ". ";
          str "    Pet Friendly: " ++ petFriendly ++ str ".";
          str "    Use this context to answer specific questions about this plant." ]))))
  end))).

Definition createLocalSession (context : option PlantInfo) : M Session :=
  g <- read (window_ai H) ;;
  match g with
  | NoWindow => throw ReferenceError
  | NoAi => throw (Error (str "Local AI not supported"))
  | HasAi =>
      block <- evalTemplate
                 match context with
                 | Some ctx => if truthy ctx then localContextBlock ctx else Some []
                 | None => Some []
                 end ;;
      let systemInstruction := persona ++ block in
      call (ECreate systemInstruction) (languageModel_create H systemInstruction)
  end.

(** ** Offline identification flow (MediaPipe vision, then local LLM) *)

Definition botanistPrompt : jsstring :=
  str "You are a botanist. You receive a list of possible plant image labels. Identify the most likely plant and generate a detailed JSON response.".

Definition localPrompt (labelsStr : jsstring) : jsstring :=
  lines
    [ str "The image classifier detected these objects: " ++ [dquote]
        ++ labelsStr ++ [dquote] ++ str ". ";
      str "  Based on this, assume the most likely plant.";
      str "  Provide a strictly valid JSON object with the following fields:";
      str "  {";
      str "    " ++ quoted "commonName" ++ str ": " ++ quoted "string" ++ str ",";
      str "    " ++ quoted "scientificName" ++ str ": " ++ quoted "string" ++ str ",";
      str "    " ++ quoted "description" ++ str ": " ++ quoted "short description" ++ str ",";
      str "    " ++ quoted "petFriendly" ++ str ": boolean,";
      str "    " ++ quoted "funFact" ++ str ": " ++ quoted "string" ++ str ",";
      str "    " ++ quoted "careInstructions" ++ str ": {";
      str "      " ++ quoted "water" ++ str ": " ++ quoted "string" ++ str ",";
      str "      " ++ quoted "light" ++ str ": " ++ quoted "string" ++ str ",";
      str "      " ++ quoted "soil" ++ str ": " ++ quoted "string" ++ str ",";
      str "      " ++ quoted "humidity" ++ str ": " ++ quoted "string" ++ str ",";
      str "      " ++ quoted "temperature" ++ str ": " ++ quoted "string";
      str "    }";
      str "  }";
      str "  Do not include markdown formatting. Return only the JSON." ].

Definition fence : jsstring := [backtick; backtick; backtick].

(** [result.replace(/```json/g, '').replace(/```/g, '').trim()] *)
Definition cleanResponse (result : jsstring) : jsstring :=
  trim (removeAll fence (removeAll (fence ++ str "json") result)).

Definition destroy (session : Session) : M unit :=
  fun m =>
    (Return tt,
     setWorld (session_destroy H session (world m)) (emit (EDestroy session) m)).

Definition identifyPlantLocal (detectedLabels : list jsstring) : M PlantInfo :=
  g <- read (window_ai H) ;;
  match g with
  | NoWindow => throw ReferenceError
  | NoAi =>
      throw (Error (str "Local AI is required for offline mode to generate plant details."))
  | HasAi =>
      let labelsStr := join (str ", ") detectedLabels in
      console Log (str "Offline identified labels:") ;;
      session <- call (ECreate botanistPrompt) (languageModel_create H botanistPrompt) ;;
      let prompt := localPrompt labelsStr in
      tryCatch
        (result <- call (EPrompt session prompt) (session_prompt H session prompt) ;;
         let jsonStr := cleanResponse result in
         data <- JSON_parse_ jsonStr ;;
         destroy session ;;
         ret data)
        (fun e =>
           destroy session ;;
           console Err (str "Local AI generation failed:") ;;
           throw (Error (str "Could not generate plant details offline.")))
  end.

(** ** Cloud chat *)

(** The block [sendChatMessage] appends for a plant context, [None]
    when the template literal throws its [TypeError]. *)
Definition cloudContextBlock (context : PlantInfo) : option jsstring :=
  andThen (interpolate (get context (str "commonName"))) (fun commonName =>
  andThen (interpolate (get context (str "scientificName"))) (fun scientificName =>
  Some (lines
    [ str " The user is currently looking at a plant identified as "
        ++ commonName ++ str " (" ++ scientificName ++ str "). ";
      str "    Here are its details: " ++ JSON_stringify H context
        ++ str ". Use this context to answer specific questions about this plant." ]))).

Definition chatFallback : jsstring :=
  str "I'm sorry, I couldn't generate a response.".

Definition sendChatMessage (history : list ChatMessage) (newMessage : jsstring)
    (context : option PlantInfo) : M jsstring :=
  getAiClient ;;
  block <- evalTemplate
             match context with
             | Some ctx => if truthy ctx then cloudContextBlock ctx else Some []
             | None => Some []
             end ;;
  let systemInstruction := persona ++ block in
  tryCatch
    (let req := mkChatRequest MODEL_NAME systemInstruction
                  (map (fun msg => (role msg, text msg)) history) in
     chat <- call_total (EChatsCreate req) (chats_create H req) ;;
     result <- call (ESendMessage chat newMessage)
                 (chat_sendMessage H chat newMessage) ;;
     ret (match result with
          | Some (c :: t) => c :: t
          | _ => chatFallback
          end))
    (fun error =>
       console Err (str "Chat error:") ;;
       throw error).

(* =================================================================== *)
(** * services/mediaPipeService.ts *)
(* =================================================================== *)

Definition setImageClassifier (c : option Classifier) : M unit :=
  fun m => (Return tt, mkMachine (world m) (trace m) c (app m) (chat m)).

Definition wasmUrl : jsstring :=
  str "https://cdn.jsdelivr.net/npm/@mediapipe/tasks-vision@0.10.14/wasm".

Definition modelAssetPath : jsstring :=
  str "https://storage.googleapis.com/mediapipe-models/image_classifier/efficientnet_lite0/float32/1/efficientnet_lite0.tflite".

Definition initMediaPipe : M unit :=
  loaded <- (fun m => (Return (imageClassifier m), m)) ;;
  match loaded with
  | Some _ => ret tt
  | None =>
      tryCatch
        (vision <- call (EForVisionTasks wasmUrl)
                     (FilesetResolver_forVisionTasks H wasmUrl) ;;
         c <- call (ECreateFromOptions modelAssetPath 3)
                (ImageClassifier_createFromOptions H vision modelAssetPath 3) ;;
         setImageClassifier (Some c) ;;
         console Log (str "MediaPipe Image Classifier loaded"))
        (fun e => console Err (str "Failed to load MediaPipe:"))
  end.

(** The category names of the first classification, when there is one
    and it has a category; the empty array otherwise. *)
Definition categoryNames (result : list (list Category)) : list jsstring :=
  match result with
  | (cat :: cats) :: _ => map categoryName (cat :: cats)
  | _ => []
  end.

Definition classifyImageOffline (imageElement : jsstring) : M (list jsstring) :=
  loaded <- (fun m => (Return (imageClassifier m), m)) ;;
  match loaded with
  | None => throw (Error (str "Offline recognition model not loaded yet"))
  | Some c =>
      result <- call (EClassify c imageElement)
                  (classifier_classify H c imageElement) ;;
      ret (categoryNames result)
  end.

(* =================================================================== *)
(** * components/ChatBot.tsx *)
(* =================================================================== *)

Definition modifyChat (f : ChatState -> ChatState) : M unit :=
  fun m =>
    (Return tt,
     mkMachine (world m) (trace m) (imageClassifier m) (app m) (f (chat m))).

(** [setHistory(prev => [...prev, msg])] *)
Definition appendHistory (msg : ChatMessage) : M unit :=
  modifyChat (fun s =>
    mkChatState (history s ++ [msg]) (input s) (isLoading s) (isLocalAI s)
      (localSession s)).

Definition setHistory (h : list ChatMessage) : M unit :=
  modifyChat (fun s =>
    mkChatState h (input s) (isLoading s) (isLocalAI s) (localSession s)).

Definition setInput (i : jsstring) : M unit :=
  modifyChat (fun s =>
    mkChatState (history s) i (isLoading s) (isLocalAI s) (localSession s)).

Definition setIsLoading (b : bool) : M unit :=
  modifyChat (fun s =>
    mkChatState (history s) (input s) b (isLocalAI s) (localSession s)).

Definition setIsLocalAI (b : bool) : M unit :=
  modifyChat (fun s =>
    mkChatState (history s) (input s) (isLoading s) b (localSession s)).

Definition setLocalSession (o : option Session) : M unit :=
  modifyChat (fun s =>
    mkChatState (history s) (input s) (isLoading s) (isLocalAI s) o).

Definition genericGreeting : jsstring :=
  str "Hello! I'm your personal gardening expert. Ask me anything about plants, pests, or garden planning!".

(** The greeting, [None] when its template literal throws. *)
Definition greeting (plantContext : option PlantInfo) : option jsstring :=
  match plantContext with
  | Some ctx =>
      if truthy ctx then
        andThen (interpolate (get ctx (str "commonName"))) (fun commonName =>
        Some (str "Hi! I see you're interested in the " ++ commonName
                ++ str ". What would you like to know about it?"))
      else Some genericGreeting
  | None => Some genericGreeting
  end.

(** [initChat], run by the effect on mount and whenever [plantContext]
    changes; [history] and [localSession] are the values of the render
    the effect belongs to. *)
Definition initChat (plantContext : option PlantInfo) : M unit :=
  fun m0 =>
    let s := chat m0 in
    (localAvailable <- checkLocalAICapability ;;
     setIsLocalAI localAvailable ;;
     (match localAvailable, localSession s with
      | true, None =>
          tryCatch
            (session <- createLocalSession plantContext ;;
             setLocalSession (Some session))
            (fun err =>
               console Err (str "Failed to init local session") ;;
               setIsLocalAI false)
      | _, _ => ret tt
      end) ;;
     match history s with
     | [] =>
         text <- evalTemplate (greeting plantContext) ;;
         t <- Date_now_ ;;
         setHistory [mkChatMessage model text t]
     | _ :: _ => ret tt
     end) m0.

Definition localFailedOffline : jsstring :=
  str "I'm having trouble processing that offline. Please reconnect to the internet.".

Definition cloudUnavailable : jsstring :=
  str "I cannot connect to the cloud right now. Please check your internet connection.".

Definition lostConnection : jsstring :=
  str "Sorry, I seem to have lost my connection to the garden. Please try again shortly.".

(** [handleSend]; [plantContext] and [isOnline] are the component's
    props, and [input], [isLoading], [isLocalAI], [localSession] and
    [history] are read from the render the handler was created in. *)
Definition handleSend (plantContext : option PlantInfo) (isOnline : bool) : M unit :=
  fun m0 =>
    let s := chat m0 in
    (if JsString.eqb (trim (input s)) [] || isLoading s then ret tt
     else if negb isOnline && negb (isLocalAI s) then ret tt
     else
       t <- Date_now_ ;;
       let userMsg := mkChatMessage user (input s) t in
       appendHistory userMsg ;;
       setInput [] ;;
       setIsLoading true ;;
       tryFinally
         (tryCatch
            (responseText <-
               match isLocalAI s, localSession s with
               | true, Some session =>
                   tryCatch
                     (call (EPrompt session (input s))
                        (session_prompt H session (input s)))
                     (fun e =>
                        if isOnline then
                          console Warn (str "Local AI failed, falling back to cloud") ;;
                          sendChatMessage (history s) (input s) plantContext
                        else ret localFailedOffline)
               | _, _ =>
                   if isOnline
                   then sendChatMessage (history s) (input s) plantContext
                   else ret cloudUnavailable
               end ;;
             t' <- Date_now_ ;;
             appendHistory (mkChatMessage model responseText t'))
            (fun error =>
               t' <- Date_now_ ;;
               appendHistory (mkChatMessage model lostConnection t')))
         (setIsLoading false)) m0.

(* =================================================================== *)
(** * App.tsx *)
(* =================================================================== *)

Definition modifyApp (f : AppState -> AppState) : M unit :=
  fun m =>
    (Return tt,
     mkMachine (world m) (trace m) (imageClassifier m) (f (app m)) (chat m)).

Definition setPlantData (d : option PlantInfo) : M unit :=
  modifyApp (fun a =>
    mkAppState (view a) d (selectedImage a) (isAnalyzing a) (error a)
      (isOnline a) (isOfflineAnalysis a)).

Definition setSelectedImage (i : option jsstring) : M unit :=
  modifyApp (fun a =>
    mkAppState (view a) (plantData a) i (isAnalyzing a) (error a)
      (isOnline a) (isOfflineAnalysis a)).

Definition setIsAnalyzing (b : bool) : M unit :=
  modifyApp (fun a =>
    mkAppState (view a) (plantData a) (selectedImage a) b (error a)
      (isOnline a) (isOfflineAnalysis a)).

Definition setError (e : option jsstring) : M unit :=
  modifyApp (fun a =>
    mkAppState (view a) (plantData a) (selectedImage a) (isAnalyzing a) e
      (isOnline a) (isOfflineAnalysis a)).

Definition setIsOnline (b : bool) : M unit :=
  modifyApp (fun a =>
    mkAppState (view a) (plantData a) (selectedImage a) (isAnalyzing a)
      (error a) b (isOfflineAnalysis a)).

Definition setIsOfflineAnalysis (b : bool) : M unit :=
  modifyApp (fun a =>
    mkAppState (view a) (plantData a) (selectedImage a) (isAnalyzing a)
      (error a) (isOnline a) b).

(** [file.type === 'image/heic' || file.name.toLowerCase().endsWith('.heic')
    || file.type === 'image/heif'] *)
Definition isHeic (file : File) : bool :=
  JsString.eqb (fileType file) (str "image/heic")
  || endsWith (toLowerCase H (fileName file)) (str ".heic")
  || JsString.eqb (fileType file) (str "image/heif").

(** [name.replace(/\.heic$/i, ".jpg")] *)
Definition replaceHeicSuffix (name : jsstring) : jsstring :=
  let n := (List.length name - 5)%nat in
  if JsString.eqb (map asciiLower (skipn n name)) (str ".heic")
  then firstn n name ++ str ".jpg"
  else name.

(** The HEIC branch: the converted file, or [None] when the conversion
    failed and the handler returns. *)
Definition convertHeic (file : File) : M (option File) :=
  tryCatch
    (convertedBlob <- call (EHeic2any file) (heic2any H file) ;;
     let blob := match convertedBlob with
                 | OneBlob b => Some b
                 | BlobArray bs => hd_error bs
                 end in
     ret (Some (mkFile (replaceHeicSuffix (fileName file)) (str "image/jpeg") blob)))
    (fun err =>
       console Err (str "HEIC conversion error:") ;;
       setError (Some (str "Could not process HEIC image. Please try a JPEG or PNG.")) ;;
       setIsAnalyzing false ;;
       ret None).

(** [await new Promise((resolve) => { img.onload = resolve; })]: the
    promise has no rejection path, so an image that never loads leaves
    the handler pending. *)
Definition awaitImageLoad (src : jsstring) : M unit :=
  loaded <- call_total (EImageLoad src) (Image_onload H src) ;;
  if loaded : bool then ret tt else (fun m => (Pending, m)).

(** The online branch of the [try] block. *)
Definition analyzeOnline (processFile : File) : M unit :=
  base64Data <- call (EReadAsDataURL processFile)
                  (FileReader_readAsDataURL H processFile) ;;
  let base64Content := nth_error (split 44 base64Data) 1 in
  let mimeType := fileType processFile in
  data <- identifyPlant base64Content mimeType ;;
  setPlantData (nullable data).

(** The offline branch of the [try] block. *)
Definition analyzeOffline (objectUrl : jsstring) : M unit :=
  setIsOfflineAnalysis true ;;
  awaitImageLoad objectUrl ;;
  labels <- classifyImageOffline objectUrl ;;
  match labels with
  | [] => throw (Error (str "Could not identify object in offline mode."))
  | _ :: _ =>
      data <- identifyPlantLocal labels ;;
      setPlantData (nullable data)
  end.

(** [handleFileSelect]; [file] is [event.target.files?.[0]], and
    [isOnline] is read from the render the handler was created in. *)
Definition handleFileSelect (file : option File) : M unit :=
  fun m0 =>
    let online := isOnline (app m0) in
    match file with
    | None => ret tt m0
    | Some file =>
        (setError None ;;
         setPlantData None ;;
         setSelectedImage None ;;
         setIsAnalyzing true ;;
         setIsOfflineAnalysis false ;;
         converted <- (if isHeic file then convertHeic file else ret (Some file)) ;;
         match converted with
         | None => ret tt
         | Some processFile =>
             objectUrl <- call_total (ECreateObjectURL processFile)
                            (URL_createObjectURL H processFile) ;;
             setSelectedImage (Some objectUrl) ;;
             tryFinally
               (tryCatch
                  (if online then analyzeOnline processFile
                   else analyzeOffline objectUrl)
                  (fun err =>
                     console Err [] ;;
                     setError (Some
                       (if online
                        then str "Failed to identify the plant. Please try another clear photo."
                        else str "Offline identification failed. Try a clearer photo or reconnect to internet."))))
               (setIsAnalyzing false)
         end) m0
    end.

(** [<ChatBot plantContext={plantData || undefined} isOnline={isOnline} />] *)
Definition chatPlantContext (a : AppState) : option PlantInfo :=
  match plantData a with
  | Some v => if truthy v then Some v else None
  | None => None
  end.

Definition resetApp : M unit :=
  setSelectedImage None ;;
  setPlantData None ;;
  setError None ;;
  modifyApp (fun a =>
    mkAppState ANALYZE (plantData a) (selectedImage a) (isAnalyzing a)
      (error a) (isOnline a) (isOfflineAnalysis a)) ;;
  setIsOfflineAnalysis false.

(** The effect [App] runs on mount: [initMediaPipe] is started and its
    rejection, if any, is logged; [handleOnline] and [handleOffline] are
    the listeners it registers. *)
Definition mountEffect : M unit :=
  tryCatch initMediaPipe
    (fun e => console Err (str "Failed to load offline vision model")).

Definition handleOnline : M unit := setIsOnline true.

Definition handleOffline : M unit := setIsOnline false.

(* =================================================================== *)
(** * components/ChatBot.tsx: what the render derives from the state *)
(* =================================================================== *)

(** [isLoading || (!isOnline && !isLocalAI)] *)
Definition isInputDisabled (isOnline : bool) (s : ChatState) : bool :=
  isLoading s || (negb isOnline && negb (isLocalAI s)).

(** The [disabled] attribute of the send button:
    [isInputDisabled || !input.trim()]. *)
Definition sendButtonDisabled (isOnline : bool) (s : ChatState) : bool :=
  isInputDisabled isOnline s || JsString.eqb (trim (input s)) [].

(** The placeholder of the text area. *)
Definition placeholder (isOnline : bool) (s : ChatState) : jsstring :=
  if negb isOnline && negb (isLocalAI s)
  then str "Connect to internet to chat..."
  else if isLocalAI s then str "Ask quickly (On-Device)..."
       else str "Ask a question...".

(** The status line of the header. *)
Definition statusLine (isOnline : bool) (s : ChatState) : jsstring :=
  if negb isOnline
  then (if isLocalAI s then str "Offline Mode (Available)" else str "Offline")
  else (if isLocalAI s then str "On-Device AI" else str "Cloud Connected").

(** [handleKeyDown]: Enter without Shift sends. *)
Definition handleKeyDown (plantContext : option PlantInfo) (isOnline : bool)
    (key : jsstring) (shiftKey : bool) : M unit :=
  if JsString.eqb key (str "Enter") && negb shiftKey
  then handleSend plantContext isOnline
  else ret tt.

(* =================================================================== *)
(** * The cloud-only revision: App.tsx and ChatBot before offline mode *)
(* =================================================================== *)

(** [handleSend] of the cloud-only [ChatBot]; its state hooks are
    [history], [input] and [isLoading]. *)
Definition handleSendCloudOnly (plantContext : option PlantInfo) : M unit :=
  fun m0 =>
    let s := chat m0 in
    (if JsString.eqb (trim (input s)) [] || isLoading s then ret tt
     else
       t <- Date_now_ ;;
       let userMsg := mkChatMessage user (input s) t in
       appendHistory userMsg ;;
       setInput [] ;;
       setIsLoading true ;;
       tryFinally
         (tryCatch
            (responseText <- sendChatMessage (history s) (input s) plantContext ;;
             t' <- Date_now_ ;;
             appendHistory (mkChatMessage model responseText t'))
            (fun error =>
               t' <- Date_now_ ;;
               appendHistory (mkChatMessage model lostConnection t')))
         (setIsLoading false)) m0.

(** [handleFileSelect] of the cloud-only [App]; its state hooks are
    [view], [plantData], [selectedImage], [isAnalyzing] and [error]. *)
Definition handleFileSelectCloudOnly (file : option File) : M unit :=
  match file with
  | None => ret tt
  | Some file =>
      setError None ;;
      setPlantData None ;;
      setSelectedImage None ;;
      setIsAnalyzing true ;;
      converted <- (if isHeic file then convertHeic file else ret (Some file)) ;;
      match converted with
      | None => ret tt
      | Some processFile =>
          objectUrl <- call_total (ECreateObjectURL processFile)
                         (URL_createObjectURL H processFile) ;;
          setSelectedImage (Some objectUrl) ;;
          tryFinally
            (tryCatch
               (analyzeOnline processFile)
               (fun err =>
                  console Err [] ;;
                  setError (Some (str "Failed to identify the plant. Please try another clear photo."))))
            (setIsAnalyzing false)
      end
  end.

(* =================================================================== *)
(** * Vocabulary of the properties *)
(* =================================================================== *)

(** What [identifyPlantLocal] writes to the trace once its session
    exists, up to and including the release of the session. *)
Definition localTrace (labels : list jsstring) (s : Session) : list event :=
  [ EConsole Log (str "Offline identified labels:");
    ECreate botanistPrompt;
    EPrompt s (localPrompt (join (str ", ") labels));
    EDestroy s ].

(** The request [sendChatMessage] opens its chat session with, [None]
    when the context block cannot be built. *)
Definition cloudChatRequest (history : list ChatMessage)
    (context : option PlantInfo) : option ChatRequest :=
  match match context with
        | Some ctx => if truthy ctx then cloudContextBlock ctx else Some []
        | None => Some []
        end
  with
  | Some block =>
      Some (mkChatRequest MODEL_NAME (persona ++ block)
              (map (fun msg => (role msg, text msg)) history))
  | None => None
  end.

(** [process.env.API_KEY] is set to a non-empty string. *)
Definition hasApiKey (w : World) : bool :=
  match API_KEY H w with
  | Some (_ :: _) => true
  | _ => false
  end.

(** The text of the assistant turn after a cloud send: the provider's
    text, the fixed fallback when that text is missing or empty, and the
    lost-connection apology when the cloud call could not be made or
    rejected. *)
Definition cloudTurn (r : result (option jsstring)) : jsstring :=
  match r with
  | Ok (Some (c :: t)) => c :: t
  | Ok _ => chatFallback
  | Fail _ => lostConnection
  end.

(** The file the backends are given: a HEIC file is converted first,
    and a failed conversion ends the request. *)
Definition conversion (f : File) (w : World) : option (File * World) :=
  if isHeic f then
    match heic2any H f w with
    | (Ok out, w') =>
        Some (mkFile (replaceHeicSuffix (fileName f)) (str "image/jpeg")
                match out with
                | OneBlob b => Some b
                | BlobArray bs => hd_error bs
                end, w')
    | (Fail _, _) => None
    end
  else Some (f, w).

End Program.

(* ===================================================================== *)
(** * Reading traces *)
(* ===================================================================== *)

Definition countEvents (p : event -> bool) (tr : list event) : nat :=
  List.length (filter p tr).

Definition isDestroyOf (s : Session) (e : event) : bool :=
  match e with
  | EDestroy s' => Nat.eqb s s'
  | _ => false
  end.

(** Calls to the cloud provider. *)
Definition isCloud (e : event) : bool :=
  match e with
  | EGenerateContent _ | EChatsCreate _ | ESendMessage _ _ => true
  | _ => false
  end.

(** Calls to the on-device language model. *)
Definition isLocalModel (e : event) : bool :=
  match e with
  | ECapabilities | ECreate _ | EPrompt _ _ | EDestroy _ => true
  | _ => false
  end.

(** Calls to the on-device image classifier. *)
Definition isClassifier (e : event) : bool :=
  match e with
  | EForVisionTasks _ | ECreateFromOptions _ _ | EClassify _ _ => true
  | _ => false
  end.

Definition isSendMessage (e : event) : bool :=
  match e with
  | ESendMessage _ _ => true
  | _ => false
  end.

(** Calls to either on-device backend. *)
Definition isOfflineBackend (e : event) : bool :=
  isClassifier e || isLocalModel e.

Definition notCloud (e : event) : bool := negb (isCloud e).
Definition notOfflineBackend (e : event) : bool := negb (isOfflineBackend e).
Definition notClassifier (e : event) : bool := negb (isClassifier e).

Section TraceSpec.

Context {World : Type}.

(** [emits ok c]: whatever the state and however [c] ends, [c] only
    extends the trace, and only by events that satisfy [ok]. *)
Definition emits {A} (ok : event -> bool) (c : @M World A) : Prop :=
  forall m : @Machine World, exists added,
    trace (snd (c m)) = trace m ++ added /\ forallb ok added = true.

End TraceSpec.

(* ===================================================================== *)
(** * Vocabulary of the properties, continued *)
(* ===================================================================== *)

(** What [identifyPlantLocal] throws when the prompt or the parse fails. *)
Definition offlineFailure : exn :=
  Error (str "Could not generate plant details offline.").

(** [handleSend] goes past its first guard: the input is not blank and no
    send is in flight. *)
Definition sendable (s : ChatState) : bool :=
  negb (JsString.eqb (trim (input s)) []) && negb (isLoading s).

(** The chat state once a send has completed with the given two turns. *)
Definition afterSend (s : ChatState) (userMsg modelMsg : ChatMessage) : ChatState :=
  mkChatState (history s ++ [userMsg; modelMsg]) [] false (isLocalAI s)
    (localSession s).

(** What the offline branch of [handleFileSelect] throws when the
    classifier has no label for the image. *)
Definition noObjectDetected : exn :=
  Error (str "Could not identify object in offline mode.").

(** The local model's answer wrapped in a Markdown code fence. *)
Definition fenced (j : jsstring) : jsstring :=
  fence ++ str "json" ++ [LF] ++ j ++ [LF] ++ fence.

(** Property [k] of [v] is present and not [null]. *)
Definition present (v : json) (k : jsstring) : bool :=
  match get v k with
  | Some JNull | None => false
  | Some _ => true
  end.

(** All six top-level fields and all five [careInstructions] sub-fields
    are present and not [null]. *)
Definition complete (v : PlantInfo) : bool :=
  present v (str "commonName") && present v (str "scientificName")
  && present v (str "description") && present v (str "careInstructions")
  && present v (str "petFriendly") && present v (str "funFact")
  && match get v (str "careInstructions") with
     | Some care =>
         present care (str "water") && present care (str "light")
         && present care (str "soil") && present care (str "humidity")
         && present care (str "temperature")
     | None => false
     end.

(** A value satisfies a response schema: it has the schema's type, an
    object has every required property, and every declared property that
    is there satisfies its own schema. *)
Fixpoint conforms (sch : Schema) (v : json) : bool :=
  match sch, v with
  | SString, JString _ => true
  | SBoolean, JBool _ => true
  | SObject properties required, JObject ms =>
      forallb (fun k => hasKey k ms) required
      && forallb (fun p => match lookup (fst p) ms with
                           | Some x => conforms (snd p) x
                           | None => true
                           end) properties
  | _, _ => false
  end.

(** The label sequence of the fenced-output scenario. *)
Definition roseLabels : list jsstring := [str "rose"; str "flower"; str "plant"].

(* ===================================================================== *)
(** * Vocabulary of the further properties *)
(* ===================================================================== *)

(** What [getAiClient] throws. *)
Definition missingApiKey : exn :=
  Error (str "API_KEY is not defined in the environment").

(** What [identifyPlant] throws for a response without text. *)
Definition noResponseText : exn := Error (str "No response text from API").

(** What [classifyImageOffline] throws before the classifier is loaded. *)
Definition modelNotLoaded : exn :=
  Error (str "Offline recognition model not loaded yet").

(** How a cloud identification ends, given what [generateContent]
    settled with. *)
Definition cloudIdentification (r : result (option jsstring)) : outcome PlantInfo :=
  match r with
  | Ok (Some (c :: t)) =>
      match JSON_parse (c :: t) with
      | Some v => Return v
      | None => Throw SyntaxError
      end
  | Ok _ => Throw noResponseText
  | Fail e => Throw e
  end.

(** How a cloud chat send ends, given what [sendMessage] settled with. *)
Definition cloudChat (r : result (option jsstring)) : outcome jsstring :=
  match r with
  | Ok (Some (c :: t)) => Return (c :: t)
  | Ok _ => Return chatFallback
  | Fail e => Throw e
  end.

(** The console line a service writes when it fails, none when it
    returns. *)
Definition failureLog {A} (label : jsstring) (o : outcome A) : list event :=
  match o with
  | Return _ => []
  | _ => [EConsole Err label]
  end.

(** What [createLocalSession] throws without [window.ai]. *)
Definition localAiUnsupported : exn := Error (str "Local AI not supported").

(** What [identifyPlantLocal] throws without [window.ai]. *)
Definition localAiRequired : exn :=
  Error (str "Local AI is required for offline mode to generate plant details.").

(** [careInstructions] is [undefined] or [null] in the record. *)
Definition lacksCare (v : PlantInfo) : bool :=
  match get v (str "careInstructions") with
  | None | Some JNull => true
  | Some _ => false
  end.

(** What the two loading calls of [initMediaPipe] produce from the host
    state [w]: the classifier, or nothing when either call rejects. *)
Definition loadClassifier {World : Type} (H : Host World) (w : World)
  : option Classifier :=
  match FilesetResolver_forVisionTasks H wasmUrl w with
  | (Ok vision, w') =>
      match ImageClassifier_createFromOptions H vision modelAssetPath 3 w' with
      | (Ok c, _) => Some c
      | (Fail _, _) => None
      end
  | (Fail _, _) => None
  end.

(** The console line of a failed model load. *)
Definition loadFailureLog : event :=
  EConsole Err (str "Failed to load MediaPipe:").

(** The session calls [ChatBot] never makes while sending: a session is
    created, probed or destroyed only by the effect. *)
Definition isSessionLifecycle (e : event) : bool :=
  match e with
  | ECapabilities | ECreate _ | EDestroy _ => true
  | _ => false
  end.

Definition notSessionLifecycle (e : event) : bool := negb (isSessionLifecycle e).

(** The greeting for a plant whose common name is the string [name]. *)
Definition plantGreeting (name : jsstring) : jsstring :=
  str "Hi! I see you're interested in the " ++ name
    ++ str ". What would you like to know about it?".

(** [settles c]: [c] returns or throws; it is never left waiting. *)
Definition settles {World : Type} {A} (c : @M World A) : Prop :=
  forall m, fst (c m) <> Pending.

(** The strategy [handleSend] asks for the reply, once the user turn is
    in the history. *)
Definition replyStrategy {World : Type} (H : Host World)
    (plantContext : option PlantInfo) (isOnline : bool) (s : ChatState)
  : @M World jsstring :=
  match isLocalAI s, localSession s with
  | true, Some session =>
      tryCatch
        (call (EPrompt session (input s)) (session_prompt H session (input s)))
        (fun e =>
           if isOnline then
             bind (console Warn (str "Local AI failed, falling back to cloud"))
               (fun _ => sendChatMessage H (history s) (input s) plantContext)
           else ret localFailedOffline)
  | _, _ =>
      if isOnline
      then sendChatMessage H (history s) (input s) plantContext
      else ret cloudUnavailable
  end.

(** The rest of [handleSend] around a strategy: the assistant turn is
    appended, a failure becomes the lost-connection turn, and the loading
    flag is cleared. *)
Definition completeSend {World : Type} (H : Host World)
    (strategy : @M World jsstring) : @M World unit :=
  tryFinally
    (tryCatch
       (bind strategy (fun responseText =>
          bind (Date_now_ H) (fun t' =>
            appendHistory (mkChatMessage model responseText t'))))
       (fun error =>
          bind (Date_now_ H) (fun t' =>
            appendHistory (mkChatMessage model lostConnection t'))))
    (setIsLoading false).

Section FrameSpec.

Context {World : Type}.

(** [keeps f c]: whatever the state and however [c] ends, [c] leaves the
    part [f] of the machine as it was. *)
Definition keeps {X A} (f : @Machine World -> X) (c : @M World A) : Prop :=
  forall m, f (snd (c m)) = f m.

End FrameSpec.

(* ===================================================================== *)
(** * Concrete hosts and runs *)
(* ===================================================================== *)

Module Demo.

(** What a scripted host answers.  Its state is a clock that [Date.now]
    reads and advances. *)
Record Script : Type := mkScript {
  s_ai : AiGlobal;
  s_key : option jsstring;
  s_tier : result Availability;
  s_create : result Session;
  s_prompt : result jsstring;
  s_generate : result (option jsstring);
  s_send : result (option jsstring);
  s_classify : result (list (list Category));
  s_dataUrl : result jsstring;
  s_imageLoads : bool
}.

Definition host (sc : Script) : Host N :=
  mkHost N
    (map asciiLower)
    (fun _ => str "{}")
    (fun n => n)
    (fun _ => true)
    (fun w => (w, w + 1))
    (fun _ => s_ai sc)
    (fun _ => s_key sc)
    (fun w => (s_tier sc, w))
    (fun _ w => (s_create sc, w))
    (fun _ _ w => (s_prompt sc, w))
    (fun _ w => w)
    (fun _ w => (s_generate sc, w))
    (fun _ w => (1%nat, w))
    (fun _ _ w => (s_send sc, w))
    (fun _ w => (Ok 1%nat, w))
    (fun _ _ _ w => (Ok 2%nat, w))
    (fun _ _ w => (s_classify sc, w))
    (fun _ w => (Ok (OneBlob 5%nat), w))
    (fun f w => (str "blob:" ++ fileName f, w))
    (fun _ w => (s_dataUrl sc, w))
    (fun _ w => (s_imageLoads sc, w)).

(** JSON text written with apostrophes for the double quotes. *)
Definition jsonText (s : string) : jsstring :=
  map (fun c => if c =? 39 then dquote else c) (str s).

Definition roseJson : jsstring :=
  jsonText "{ 'commonName': 'Rose', 'scientificName': 'Rosa', 'description': 'A woody perennial.', 'petFriendly': true, 'funFact': 'Roses are edible.', 'careInstructions': { 'water': 'Weekly', 'light': 'Full sun', 'soil': 'Loam', 'humidity': 'Moderate', 'temperature': '15-25 C' } }".

Definition roseRecord : PlantInfo :=
  JObject
    [ (str "commonName", JString (str "Rose"));
      (str "scientificName", JString (str "Rosa"));
      (str "description", JString (str "A woody perennial."));
      (str "petFriendly", JBool true);
      (str "funFact", JString (str "Roses are edible."));
      (str "careInstructions",
        JObject
          [ (str "water", JString (str "Weekly"));
            (str "light", JString (str "Full sun"));
            (str "soil", JString (str "Loam"));
            (str "humidity", JString (str "Moderate"));
            (str "temperature", JString (str "15-25 C")) ]) ].

(** A complete record whose fun fact quotes a code fence. *)
Definition fenceFactJson : jsstring :=
  jsonText "{ 'commonName': 'Rose', 'scientificName': 'Rosa', 'description': 'A woody perennial.', 'petFriendly': true, 'funFact': 'Markdown fences look like ```.', 'careInstructions': { 'water': 'Weekly', 'light': 'Full sun', 'soil': 'Loam', 'humidity': 'Moderate', 'temperature': '15-25 C' } }".

Definition fenceFactRecord : PlantInfo :=
  JObject
    [ (str "commonName", JString (str "Rose"));
      (str "scientificName", JString (str "Rosa"));
      (str "description", JString (str "A woody perennial."));
      (str "petFriendly", JBool true);
      (str "funFact", JString (str "Markdown fences look like ```."));
      (str "careInstructions",
        JObject
          [ (str "water", JString (str "Weekly"));
            (str "light", JString (str "Full sun"));
            (str "soil", JString (str "Loam"));
            (str "humidity", JString (str "Moderate"));
            (str "temperature", JString (str "15-25 C")) ]) ].

Definition roseCategories : list (list Category) :=
  [ [ mkCategory (str "rose") 1; mkCategory (str "flower") 2;
      mkCategory (str "plant") 3 ] ].

(** A device with the local model ready, the cloud reachable and
    configured, and a classifier that sees a rose. *)
Definition ready : Script :=
  mkScript HasAi (Some (str "key")) (Ok readily) (Ok 7%nat)
    (Ok (str "Water it weekly.")) (Ok (Some roseJson))
    (Ok (Some (str "About once a week."))) (Ok roseCategories)
    (Ok (str "data:image/png;base64,iVBORw0KGgo=")) true.

Definition withPrompt (r : result jsstring) (sc : Script) : Script :=
  mkScript (s_ai sc) (s_key sc) (s_tier sc) (s_create sc) r (s_generate sc)
    (s_send sc) (s_classify sc) (s_dataUrl sc) (s_imageLoads sc).

Definition withClassify (r : result (list (list Category))) (sc : Script) : Script :=
  mkScript (s_ai sc) (s_key sc) (s_tier sc) (s_create sc) (s_prompt sc)
    (s_generate sc) (s_send sc) r (s_dataUrl sc) (s_imageLoads sc).

Definition question : jsstring := str "How often should I water it?".

Definition appState (online : bool) : AppState :=
  mkAppState ANALYZE None None false None online false.

Definition chatState (localAI : bool) (session : option Session) : ChatState :=
  mkChatState
    [mkChatMessage model (str "Hello! I'm your personal gardening expert. Ask me anything about plants, pests, or garden planning!") 0]
    question false localAI session.

Definition machine (online localAI : bool) (session : option Session)
  : @Machine N :=
  mkMachine 100 [] (Some 2%nat) (appState online) (chatState localAI session).

Definition photo : File := mkFile (str "rose.png") (str "image/png") (Some 4%nat).

Definition photoData : option jsstring := Some (str "iVBORw0KGgo=").

Definition photoUrl : jsstring := str "blob:rose.png".

(** The hosts of the runs below. *)
Definition readyHost : Host N := host ready.
Definition emptyObjectHost : Host N := host (withPrompt (Ok (str "{}")) ready).
Definition plainJsonHost : Host N := host (withPrompt (Ok roseJson) ready).
Definition fencedHost : Host N := host (withPrompt (Ok (fenced roseJson)) ready).
Definition fenceFactHost : Host N :=
  host (withPrompt (Ok (fenced fenceFactJson)) ready).
Definition failingLocalHost : Host N :=
  host (withPrompt (Fail (Rejected 1)) ready).
Definition noLabelHost : Host N := host (withClassify (Ok []) ready).

(** What [fenceFactJson] becomes once every fence is deleted. *)
Definition strippedRecord : PlantInfo :=
  JObject
    [ (str "commonName", JString (str "Rose"));
      (str "scientificName", JString (str "Rosa"));
      (str "description", JString (str "A woody perennial."));
      (str "petFriendly", JBool true);
      (str "funFact", JString (str "Markdown fences look like ."));
      (str "careInstructions",
        JObject
          [ (str "water", JString (str "Weekly"));
            (str "light", JString (str "Full sun"));
            (str "soil", JString (str "Loam"));
            (str "humidity", JString (str "Moderate"));
            (str "temperature", JString (str "15-25 C")) ]) ].

Definition offlineNoLocal : @Machine N := machine false false None.
Definition offlineNoSession : @Machine N := machine false true None.
Definition onlineLocal : @Machine N := machine true true (Some 7%nat).
Definition onlineIdle : @Machine N := machine true false None.
Definition offlineIdle : @Machine N := machine false false None.

End Demo.

(** Further scripted hosts and states, for the runs of the further
    properties. *)
Module Scenario.

(** No API key in the environment. *)
Definition noKeyHost : Host N :=
  Demo.host
    (Demo.mkScript HasAi None (Ok readily) (Ok 7%nat) (Ok (str "Water it weekly."))
       (Ok (Some Demo.roseJson)) (Ok (Some (str "About once a week.")))
       (Ok Demo.roseCategories) (Ok (str "data:image/png;base64,iVBORw0KGgo="))
       true).

(** A browser without [window.ai]. *)
Definition noAiHost : Host N :=
  Demo.host
    (Demo.mkScript NoAi (Some (str "key")) (Ok readily) (Ok 7%nat)
       (Ok (str "Water it weekly.")) (Ok (Some Demo.roseJson))
       (Ok (Some (str "About once a week."))) (Ok Demo.roseCategories)
       (Ok (str "data:image/png;base64,iVBORw0KGgo=")) true).

(** A local model whose [create] rejects. *)
Definition createFailsHost : Host N :=
  Demo.host
    (Demo.mkScript HasAi (Some (str "key")) (Ok readily) (Fail (Rejected 2))
       (Ok (str "Water it weekly.")) (Ok (Some Demo.roseJson))
       (Ok (Some (str "About once a week."))) (Ok Demo.roseCategories)
       (Ok (str "data:image/png;base64,iVBORw0KGgo=")) true).

(** Images never fire their load event. *)
Definition neverLoadsHost : Host N :=
  Demo.host
    (Demo.mkScript HasAi (Some (str "key")) (Ok readily) (Ok 7%nat)
       (Ok (str "Water it weekly.")) (Ok (Some Demo.roseJson))
       (Ok (Some (str "About once a week."))) (Ok Demo.roseCategories)
       (Ok (str "data:image/png;base64,iVBORw0KGgo=")) false).

(** [h] with a HEIC converter that rejects. *)
Definition brokenConverter (h : Host N) : Host N :=
  mkHost N
    (toLowerCase h) (JSON_stringify h) (Number_toString h) (Number_truthy h)
    (Date_now h) (window_ai h) (API_KEY h)
    (languageModel_capabilities h) (languageModel_create h) (session_prompt h)
    (session_destroy h)
    (models_generateContent h) (chats_create h) (chat_sendMessage h)
    (FilesetResolver_forVisionTasks h) (ImageClassifier_createFromOptions h)
    (classifier_classify h)
    (fun _ w => (Fail (Rejected 3), w))
    (URL_createObjectURL h) (FileReader_readAsDataURL h) (Image_onload h).

Definition brokenConverterHost : Host N := brokenConverter Demo.readyHost.

(** A photo taken on a phone: the browser reports no type for it. *)
Definition heicPhoto : File := mkFile (str "IMG_0042.HEIC") [] (Some 4%nat).

(** A record with a name and nothing else. *)
Definition bareRecord : PlantInfo :=
  JObject [ (str "commonName", JString (str "Rose")) ].

(** A record whose name is an object with a [toString] member of its
    own, as [JSON.parse] builds it from the text
    [{ "commonName": { "toString": null } }]. *)
Definition shadowedRecord : PlantInfo :=
  JObject [ (str "commonName", JObject [ (str "toString", JNull) ]) ].

(** A provider that answers the JSON text [null]. *)
Definition nullAnswerHost : Host N :=
  Demo.host
    (Demo.mkScript HasAi (Some (str "key")) (Ok readily) (Ok 7%nat)
       (Ok (str "Water it weekly.")) (Ok (Some (str "null")))
       (Ok (Some (str "About once a week."))) (Ok Demo.roseCategories)
       (Ok (str "data:image/png;base64,iVBORw0KGgo=")) true).

(** Offline, before the classifier has been loaded. *)
Definition coldStart : @Machine N :=
  mkMachine 100 [] None (Demo.appState false) (Demo.chatState false None).

(** A chat that has just been mounted: no turn yet. *)
Definition freshChat : @Machine N :=
  mkMachine 100 [] (Some 2%nat) (Demo.appState true)
    (mkChatState [] [] false false None).

(** Offline with a live local session. *)
Definition offlineLocal : @Machine N := Demo.machine false true (Some 7%nat).

End Scenario.

(* ===================================================================== *)
(** * Proof tools *)
(* ===================================================================== *)

Arguments str : simpl never.

Ltac run_handler :=
  cbn [world trace imageClassifier app chat emit setWorld fst snd
       history input isLoading isLocalAI localSession negb andb orb].

Ltac run_app :=
  cbn [world trace imageClassifier app chat emit setWorld fst snd
       view plantData selectedImage isAnalyzing error isOnline
       isOfflineAnalysis].

Lemma countEvents_app (p : event -> bool) (a b : list event) :
  countEvents p (a ++ b) = (countEvents p a + countEvents p b)%nat.
Proof. unfold countEvents. now rewrite filter_app, length_app. Qed.

Lemma filter_none (p : event -> bool) (l : list event) :
  forallb (fun e => negb (p e)) l = true -> filter p l = [].
Proof.
  induction l as [|e l IH]; simpl; auto.
  rewrite andb_true_iff. intros [He Hl].
  destruct (p e); [discriminate | auto].
Qed.

Lemma countEvents_none (p : event -> bool) (l : list event) :
  forallb (fun e => negb (p e)) l = true -> countEvents p l = 0%nat.
Proof. intros F. unfold countEvents. now rewrite filter_none. Qed.

(** ** What a computation may write to the trace *)

Section Emits.

Context {World : Type}.
Variable H : Host World.

Variable ok : event -> bool.

Lemma emits_ret {A} (a : A) : emits ok (@ret World A a).
Proof. intros m; exists []; simpl; now rewrite app_nil_r. Qed.

Lemma emits_throw {A} (e : exn) : emits ok (@throw World A e).
Proof. intros m; exists []; simpl; now rewrite app_nil_r. Qed.

Lemma emits_pure {A} (f : @M World A) :
  (forall m, trace (snd (f m)) = trace m) -> emits ok f.
Proof. intros E m; exists []; rewrite E, app_nil_r; auto. Qed.

Lemma emits_bind {A B} (c : @M World A) (k : A -> @M World B) :
  emits ok c -> (forall a, emits ok (k a)) -> emits ok (bind c k).
Proof.
  intros Ec Ek m. unfold bind.
  destruct (Ec m) as (a1 & T1 & F1).
  destruct (c m) as [[a | e | ] m1]; simpl in *.
  - destruct (Ek a m1) as (a2 & T2 & F2).
    exists (a1 ++ a2). rewrite T2, T1, app_assoc, forallb_app, F1, F2. auto.
  - exists a1; auto.
  - exists a1; auto.
Qed.

Lemma emits_tryCatch {A} (c : @M World A) (h : exn -> @M World A) :
  emits ok c -> (forall e, emits ok (h e)) -> emits ok (tryCatch c h).
Proof.
  intros Ec Eh m. unfold tryCatch.
  destruct (Ec m) as (a1 & T1 & F1).
  destruct (c m) as [[a | e | ] m1]; simpl in *.
  - exists a1; auto.
  - destruct (Eh e m1) as (a2 & T2 & F2).
    exists (a1 ++ a2). rewrite T2, T1, app_assoc, forallb_app, F1, F2. auto.
  - exists a1; auto.
Qed.

Lemma emits_tryFinally {A} (c : @M World A) (fin : @M World unit) :
  emits ok c -> emits ok fin -> emits ok (tryFinally c fin).
Proof.
  intros Ec Ef m. unfold tryFinally.
  destruct (Ec m) as (a1 & T1 & F1).
  destruct (c m) as [[a | e | ] m1]; simpl in *.
  - destruct (Ef m1) as (a2 & T2 & F2).
    destruct (fin m1) as [[[] | e | ] m2]; simpl in *;
      exists (a1 ++ a2); rewrite T2, T1, app_assoc, forallb_app, F1, F2; auto.
  - destruct (Ef m1) as (a2 & T2 & F2).
    destruct (fin m1) as [[[] | e' | ] m2]; simpl in *;
      exists (a1 ++ a2); rewrite T2, T1, app_assoc, forallb_app, F1, F2; auto.
  - exists a1; auto.
Qed.

Lemma emits_call {A} (e : event) (op : World -> result A * World) :
  ok e = true -> emits ok (call e op).
Proof.
  intros Oe m. unfold call. destruct (op (world m)) as [[a | x] w];
    exists [e]; simpl; rewrite Oe; auto.
Qed.

Lemma emits_call_total {A} (e : event) (op : World -> A * World) :
  ok e = true -> emits ok (call_total e op).
Proof.
  intros Oe m. unfold call_total. destruct (op (world m)) as [a w].
  exists [e]; simpl; rewrite Oe; auto.
Qed.

Lemma emits_console (l : Level) (label : jsstring) :
  ok (EConsole l label) = true -> emits ok (@console World l label).
Proof. intros Oe m. exists [EConsole l label]; simpl; rewrite Oe; auto. Qed.

Lemma emits_destroy (s : Session) :
  ok (EDestroy s) = true -> emits ok (destroy H s).
Proof. intros Oe m. exists [EDestroy s]; simpl; rewrite Oe; auto. Qed.

Lemma emits_modifyApp (f : AppState -> AppState) : emits ok (@modifyApp World f).
Proof. apply emits_pure; reflexivity. Qed.

Lemma emits_modifyChat (f : ChatState -> ChatState) : emits ok (@modifyChat World f).
Proof. apply emits_pure; reflexivity. Qed.

Lemma emits_read {A} (f : World -> A) : emits ok (read f).
Proof. apply emits_pure; reflexivity. Qed.

Lemma emits_Date_now : emits ok (Date_now_ H).
Proof.
  apply emits_pure. intros m. unfold Date_now_.
  destruct (Date_now H (world m)); reflexivity.
Qed.

Lemma emits_JSON_parse (s : jsstring) : emits ok (@JSON_parse_ World s).
Proof.
  unfold JSON_parse_. destruct (JSON_parse s); [apply emits_ret | apply emits_throw].
Qed.

Lemma emits_evalTemplate (t : option jsstring) : emits ok (@evalTemplate World t).
Proof. destruct t; [apply emits_ret | apply emits_throw]. Qed.

End Emits.

Create HintDb emits.

#[export] Hint Resolve emits_ret emits_throw emits_bind emits_tryCatch
  emits_tryFinally emits_modifyApp emits_modifyChat emits_read emits_Date_now
  emits_JSON_parse emits_evalTemplate : emits.
#[export] Hint Extern 1 (emits _ (call _ _)) =>
  apply emits_call; reflexivity : emits.
#[export] Hint Extern 1 (emits _ (call_total _ _)) =>
  apply emits_call_total; reflexivity : emits.
#[export] Hint Extern 1 (emits _ (console _ _)) =>
  apply emits_console; reflexivity : emits.
#[export] Hint Extern 1 (emits _ (destroy _ _)) =>
  apply emits_destroy; reflexivity : emits.

Ltac emits_step :=
  match goal with
  | |- emits _ (bind _ _) => apply emits_bind; [ | intros ? ]
  | |- emits _ (tryCatch _ _) => apply emits_tryCatch; [ | intros ? ]
  | |- emits _ (tryFinally _ _) => apply emits_tryFinally
  | |- emits _ (match ?x with _ => _ end) => destruct x
  | |- emits _ _ => solve [auto with emits | apply emits_pure; reflexivity]
  end.

Ltac emits_auto := repeat emits_step.

Section ServiceTraces.

Context {World : Type}.
Variable H : Host World.

Lemma identifyPlant_emits (data : option jsstring) (mime : jsstring) :
  emits notOfflineBackend (identifyPlant H data mime).
Proof. unfold identifyPlant, getAiClient. emits_auto. Qed.

Lemma classifyImageOffline_emits (img : jsstring) :
  emits notCloud (classifyImageOffline H img).
Proof. unfold classifyImageOffline. emits_auto. Qed.

Lemma identifyPlantLocal_emits_notCloud (labels : list jsstring) :
  emits notCloud (identifyPlantLocal H labels).
Proof. unfold identifyPlantLocal. emits_auto. Qed.

Lemma identifyPlantLocal_emits_notClassifier (labels : list jsstring) :
  emits notClassifier (identifyPlantLocal H labels).
Proof. unfold identifyPlantLocal. emits_auto. Qed.

Lemma analyzeOnline_emits (f : File) :
  emits notOfflineBackend (analyzeOnline H f).
Proof.
  unfold analyzeOnline, setPlantData.
  emits_auto. apply identifyPlant_emits.
Qed.

Lemma analyzeOffline_emits (url : jsstring) :
  emits notCloud (analyzeOffline H url).
Proof.
  unfold analyzeOffline, awaitImageLoad, setPlantData, setIsOfflineAnalysis.
  emits_auto.
  - apply classifyImageOffline_emits.
  - apply identifyPlantLocal_emits_notCloud.
Qed.

Lemma convertHeic_emits (ok : event -> bool) (f : File) :
  ok (EHeic2any f) = true ->
  (forall l s, ok (EConsole l s) = true) ->
  emits ok (convertHeic H f).
Proof.
  intros O1 O2. unfold convertHeic, setError, setIsAnalyzing.
  apply emits_tryCatch.
  - apply emits_bind; [apply emits_call; exact O1 | intros; apply emits_ret].
  - intros e. apply emits_bind; [apply emits_console; apply O2 | intros ].
    emits_auto.
Qed.

End ServiceTraces.

(* ===================================================================== *)
(** * Facts about [trim], [replace] and [JSON.parse] *)
(* ===================================================================== *)

Section StringFacts.

Lemma startsWith_app (p q s : jsstring) :
  startsWith (p ++ q) s = true -> startsWith p s = true.
Proof.
  revert s; induction p as [|c p IH]; intros [|x s]; simpl; auto.
  rewrite !andb_true_iff. intros [E S]; auto.
Qed.

Lemma startsWith_fence_app (j t : jsstring) :
  startsWith fence j = false -> startsWith fence (j ++ LF :: t) = false.
Proof.
  unfold fence, backtick, LF.
  destruct j as [|c1 [|c2 [|c3 j]]]; simpl; auto;
    destruct (96 =? c1); simpl; auto; destruct (96 =? c2); simpl; auto.
Qed.

(** A text without a fence keeps all its characters when the fences (or
    the fences followed by more pattern) are deleted around it. *)
Lemma removeAll_from_keep (pat' j t : jsstring) :
  includes fence j = false ->
  removeAll_from (fence ++ pat') (j ++ LF :: t) O =
  j ++ removeAll_from (fence ++ pat') (LF :: t) O.
Proof.
  induction j as [|c j IH]; intros I; [reflexivity | ].
  cbn [includes] in I. apply orb_false_iff in I. destruct I as [S I].
  change ((c :: j) ++ LF :: t) with (c :: (j ++ LF :: t)).
  cbn [removeAll_from].
  destruct (startsWith (fence ++ pat') (c :: j ++ LF :: t)) eqn:E.
  - apply startsWith_app in E.
    change (c :: j ++ LF :: t) with ((c :: j) ++ LF :: t) in E.
    rewrite (startsWith_fence_app _ _ S) in E. discriminate.
  - rewrite (IH I). reflexivity.
Qed.

Lemma trimStart_LF (s : jsstring) : trimStart (LF :: s) = trimStart s.
Proof. reflexivity. Qed.

Lemma trimEnd_LF (s : jsstring) : trimEnd (s ++ [LF]) = trimEnd s.
Proof.
  unfold trimEnd. rewrite rev_app_distr. reflexivity.
Qed.

Lemma trim_snoc_LF (j : jsstring) : trim (j ++ [LF]) = trim j.
Proof.
  unfold trim. induction j as [|c j IH]; [reflexivity | ].
  change ((c :: j) ++ [LF]) with (c :: (j ++ [LF])). cbn [trimStart].
  destruct (isWhiteSpace c); [exact IH | ].
  change (c :: j ++ [LF]) with ((c :: j) ++ [LF]). apply trimEnd_LF.
Qed.

(** Stripping the fences of a fenced text that has no fence inside
    leaves the text, trimmed. *)
Lemma cleanResponse_fenced (j : jsstring) :
  includes fence j = false -> cleanResponse (fenced j) = trim j.
Proof.
  intros I. unfold cleanResponse, fenced.
  assert (E1 : removeAll (fence ++ str "json")
                 (fence ++ str "json" ++ [LF] ++ j ++ [LF] ++ fence)
               = LF :: j ++ LF :: fence).
  { transitivity (LF :: removeAll_from (fence ++ str "json") (j ++ LF :: fence) O).
    - reflexivity.
    - rewrite (removeAll_from_keep (str "json") j fence I). reflexivity. }
  rewrite E1.
  assert (E2 : removeAll fence (LF :: j ++ LF :: fence) = LF :: j ++ [LF]).
  { transitivity (LF :: removeAll_from (fence ++ []) (j ++ LF :: fence) O).
    - reflexivity.
    - rewrite (removeAll_from_keep [] j fence I). reflexivity. }
  rewrite E2.
  change (LF :: j ++ [LF]) with (LF :: (j ++ [LF])).
  unfold trim at 1. rewrite trimStart_LF. apply trim_snoc_LF.
Qed.

End StringFacts.

Section ParseFacts.

(** Case analysis on a character that [trim] removes. *)
Ltac each_whiteSpace W :=
  unfold isWhiteSpace, whiteSpace in W; cbn [existsb] in W;
  repeat (apply orb_true_iff in W; destruct W as [W | W]);
  try discriminate W; apply N.eqb_eq in W; subst.

(** Outside a string, white space is skipped when JSON allows it and is
    an error otherwise. *)
Lemma stepDefault_whiteSpace (c : char) (toks : list token) :
  isWhiteSpace c = true ->
  stepDefault c toks = (LDefault, toks) \/ stepDefault c toks = (LError, toks).
Proof. intros W. each_whiteSpace W; (left; reflexivity) || (right; reflexivity). Qed.

Lemma whiteSpace_not_token_char (c : char) :
  isWhiteSpace c = true ->
  isNumberChar c = false /\ isLower c = false /\ hexValue c = None
  /\ (c =? 34) = false /\ (c =? 92) = false
  /\ forall acc, stepEscape c acc = LError.
Proof. intros W. each_whiteSpace W; repeat split. Qed.

Lemma run_error (s : jsstring) (toks : list token) :
  run (LError, toks) s = (LError, toks).
Proof. induction s as [|c s IH]; [reflexivity | exact IH]. Qed.

Lemma run_app (l : lexer) (a b : jsstring) : run l (a ++ b) = run (run l a) b.
Proof. apply fold_left_app. Qed.

(** Reading one more white-space character never turns a failing end of
    input into a successful one, and never changes the tokens. *)
Lemma finish_step_whiteSpace (l : lexer) (c : char) (ts : list token) :
  isWhiteSpace c = true ->
  finish (step l c) = Some ts -> finish l = Some ts.
Proof.
  intros W. destruct (whiteSpace_not_token_char c W)
    as (NC & LC & HV & Q & B & ESC).
  destruct l as [st toks]. destruct st; cbn [step].
  - destruct (stepDefault_whiteSpace c toks W) as [-> | ->]; auto.
    discriminate.
  - rewrite Q, B. destruct (c <? 32); discriminate.
  - rewrite ESC. discriminate.
  - unfold stepUnicode. rewrite HV. discriminate.
  - rewrite NC. cbn [finish]. destruct (flushNumber acc toks) as [toks' | ].
    + destruct (stepDefault_whiteSpace c toks' W) as [-> | ->]; auto.
      discriminate.
    + discriminate.
  - rewrite LC. cbn [finish]. destruct (flushWord acc toks) as [toks' | ].
    + destruct (stepDefault_whiteSpace c toks' W) as [-> | ->]; auto.
      discriminate.
    + discriminate.
  - discriminate.
Qed.

Lemma finish_run_whiteSpace (w : jsstring) :
  forallb isWhiteSpace w = true ->
  forall l ts, finish (run l w) = Some ts -> finish l = Some ts.
Proof.
  induction w as [|c w IH]; intros W l ts F; [exact F | ].
  cbn [forallb] in W. apply andb_true_iff in W. destruct W as [Wc Ww].
  apply (finish_step_whiteSpace l c ts Wc). apply (IH Ww). exact F.
Qed.

Lemma tokenize_whiteSpace_cons (c : char) (s : jsstring) (ts : list token) :
  isWhiteSpace c = true ->
  tokenize (c :: s) = Some ts -> tokenize s = Some ts.
Proof.
  intros W. unfold tokenize. cbn [run fold_left step].
  destruct (stepDefault_whiteSpace c [] W) as [-> | ->]; auto.
  fold (run (LError, []) s). rewrite run_error. discriminate.
Qed.

Lemma tokenize_trimStart (s : jsstring) (ts : list token) :
  tokenize s = Some ts -> tokenize (trimStart s) = Some ts.
Proof.
  induction s as [|c s IH]; intros T; [exact T | ].
  cbn [trimStart]. destruct (isWhiteSpace c) eqn:W; [ | exact T].
  apply IH. exact (tokenize_whiteSpace_cons c s ts W T).
Qed.

Lemma trimStart_split (s : jsstring) :
  exists w, s = w ++ trimStart s /\ forallb isWhiteSpace w = true.
Proof.
  induction s as [|c s (w & E & W)]; [exists []; auto | ].
  cbn [trimStart]. destruct (isWhiteSpace c) eqn:Wc.
  - exists (c :: w). split; [simpl; congruence | simpl; now rewrite Wc].
  - exists []. auto.
Qed.

Lemma trimEnd_split (s : jsstring) :
  exists w, s = trimEnd s ++ w /\ forallb isWhiteSpace w = true.
Proof.
  destruct (trimStart_split (rev s)) as (w & E & W).
  exists (rev w). split.
  - unfold trimEnd. rewrite <- rev_app_distr, <- E. now rewrite rev_involutive.
  - rewrite forallb_forall in *. intros x I. apply W. now apply in_rev.
Qed.

Lemma tokenize_trimEnd (s : jsstring) (ts : list token) :
  tokenize s = Some ts -> tokenize (trimEnd s) = Some ts.
Proof.
  destruct (trimEnd_split s) as (w & E & W). intros T.
  rewrite E in T. unfold tokenize in *. rewrite run_app in T.
  exact (finish_run_whiteSpace w W _ ts T).
Qed.

(** [JSON.parse] reads a text it accepts the same way once the text is
    trimmed. *)
Lemma JSON_parse_trim (s : jsstring) (v : json) :
  JSON_parse s = Some v -> JSON_parse (trim s) = Some v.
Proof.
  unfold JSON_parse. destruct (tokenize s) as [ts | ] eqn:T; [ | discriminate].
  unfold trim. rewrite (tokenize_trimEnd _ ts (tokenize_trimStart _ ts T)). auto.
Qed.

End ParseFacts.

(* ===================================================================== *)
(** * The shape of a returned plant record: facts *)
(* ===================================================================== *)

Section RecordShape.

Lemma conforms_not_null (sch : Schema) : conforms sch JNull = false.
Proof. destruct sch; reflexivity. Qed.

Lemma hasKey_lookup (k : jsstring) (ms : list (jsstring * json)) :
  hasKey k ms = true -> exists x, lookup k ms = Some x.
Proof.
  induction ms as [|[k' x] ms IH]; simpl; [discriminate | ].
  destruct (JsString.eqb k k'); simpl; eauto.
Qed.

(** A required property whose value satisfies its schema is present and
    not [null]. *)
Lemma required_present (k : jsstring) (sch : Schema) (ms : list (jsstring * json)) :
  hasKey k ms = true ->
  match lookup k ms with Some x => conforms sch x | None => true end = true ->
  present (JObject ms) k = true.
Proof.
  intros K C. destruct (hasKey_lookup k ms K) as (x & L).
  unfold present; cbn [get]. rewrite L in *.
  destruct x; auto. rewrite conforms_not_null in C. discriminate.
Qed.

Ltac split_ands :=
  repeat match goal with
         | Hyp : (_ && _) = true |- _ =>
             apply andb_true_iff in Hyp; destruct Hyp
         end.

(** The response schema of the cloud request guarantees a complete
    record. *)
Lemma plantSchema_complete (v : json) :
  conforms plantSchema v = true -> complete v = true.
Proof.
  unfold plantSchema. destruct v as [ | | | | | ms]; try discriminate.
  cbn [conforms]. intros C. apply andb_true_iff in C. destruct C as [R P].
  cbn [forallb fst snd] in R, P. split_ands.
  unfold complete.
  repeat (erewrite required_present; [ | eassumption | eassumption]).
  cbn [andb get].
  match goal with
  | K : hasKey (str "careInstructions") ms = true |- _ =>
      destruct (hasKey_lookup _ ms K) as (care & L)
  end.
  rewrite L in *.
  match goal with
  | C : conforms careSchema care = true |- _ =>
      unfold careSchema in C; destruct care as [ | | | | | cs];
      try discriminate C; cbn [conforms] in C;
      apply andb_true_iff in C; destruct C as [R' P']
  end.
  cbn [forallb fst snd] in R', P'. split_ands.
  repeat (erewrite required_present; [ | eassumption | eassumption]).
  reflexivity.
Qed.

End RecordShape.

(* ===================================================================== *)
(** * The capability probe *)
(* ===================================================================== *)

Section Probe.

Context {World : Type}.
Variable H : Host World.

(** C9. The capability probe never throws and never stays pending: on
    every host and in every state it returns a boolean, and that boolean
    is [true] exactly when [window.ai] exists and [capabilities()]
    resolves with the tier [readily]; so it is [false] for the tiers
    [after-download] and [no], when [window] or [window.ai] is missing,
    and when the query rejects. *)
Theorem checkLocalAICapability_total (m : Machine) :
  exists b m',
    checkLocalAICapability H m = (Return b, m')
    /\ (b = true <->
        window_ai H (world m) = HasAi
        /\ fst (languageModel_capabilities H (world m)) = Ok readily).
Proof.
  unfold checkLocalAICapability, bind, read, tryCatch, call, ret.
  destruct (window_ai H (world m)) eqn:G.
  - exists false, m. split; [reflexivity | ].
    split; [discriminate | intros [? _]; discriminate].
  - exists false, m. split; [reflexivity | ].
    split; [discriminate | intros [? _]; discriminate].
  - destruct (languageModel_capabilities H (world m)) as [r w] eqn:C; simpl.
    destruct r as [[ | | ] | e]; eexists; eexists;
      (split; [reflexivity | ]);
      (split; [intros; try discriminate; auto | intros [_ ?]; congruence]).
Qed.

End Probe.

(* ===================================================================== *)
(** * Offline identification: the scoped local session *)
(* ===================================================================== *)

Section LocalIdentification.

Context {World : Type}.
Variable H : Host World.

(** The run of [identifyPlantLocal] after a successful [create], case
    by case on what the session answers. *)
Lemma identifyPlantLocal_run (labels : list jsstring) (m : Machine)
    (s : Session) (w1 : World) :
  window_ai H (world m) = HasAi ->
  languageModel_create H botanistPrompt (world m) = (Ok s, w1) ->
  exists m',
    identifyPlantLocal H labels m =
      (match fst (session_prompt H s (localPrompt (join (str ", ") labels)) w1) with
       | Ok raw =>
           match JSON_parse (cleanResponse raw) with
           | Some v => Return v
           | None => Throw offlineFailure
           end
       | Fail _ => Throw offlineFailure
       end, m')
    /\ trace m' =
         trace m ++ localTrace labels s ++
         match fst (session_prompt H s (localPrompt (join (str ", ") labels)) w1) with
         | Ok raw =>
             match JSON_parse (cleanResponse raw) with
             | Some v => []
             | None => [EConsole Err (str "Local AI generation failed:")]
             end
         | Fail _ => [EConsole Err (str "Local AI generation failed:")]
         end
    /\ app m' = app m /\ chat m' = chat m.
Proof.
  intros G C.
  unfold identifyPlantLocal, bind, read, tryCatch, call, console, destroy,
    JSON_parse_, ret, throw, localTrace.
  rewrite G. cbn [world emit setWorld]. rewrite C. cbn [world emit setWorld].
  destruct (session_prompt H s (localPrompt (join (str ", ") labels)) w1)
    as [[raw | e] w2]; cbn [fst world emit setWorld trace app chat].
  - destruct (JSON_parse (cleanResponse raw)) as [v | ];
      cbn [world emit setWorld trace app chat];
      eexists; (split; [reflexivity | ]);
      cbn [world emit setWorld trace app chat];
      rewrite <- ?app_assoc; auto.
  - eexists; (split; [reflexivity | ]);
      cbn [world emit setWorld trace app chat];
      rewrite <- ?app_assoc; auto.
Qed.

(** C8. Once [identifyPlantLocal] has created its session [s], every
    way out of the call releases it exactly once: the call returns the
    parsed record or throws, it is never left pending, and what it added
    to the trace holds exactly one [destroy] of [s], written before the
    failure is logged and thrown. *)
Theorem identifyPlantLocal_releases_session (labels : list jsstring)
    (m : Machine) (s : Session) (w1 : World) :
  window_ai H (world m) = HasAi ->
  languageModel_create H botanistPrompt (world m) = (Ok s, w1) ->
  exists o m' after,
    identifyPlantLocal H labels m = (o, m')
    /\ o <> Pending
    /\ trace m' = trace m ++ localTrace labels s ++ after
    /\ countEvents (isDestroyOf s) (localTrace labels s ++ after) = 1%nat
    /\ match o with
       | Return _ => after = []
       | Throw e =>
           e = offlineFailure
           /\ after = [EConsole Err (str "Local AI generation failed:")]
       | Pending => False
       end.
Proof.
  intros G C.
  destruct (identifyPlantLocal_run labels m s w1 G C) as (m' & R & T & _).
  destruct (fst (session_prompt H s (localPrompt (join (str ", ") labels)) w1))
    as [raw | e].
  - destruct (JSON_parse (cleanResponse raw)) as [v | ].
    + exists (Return v), m', []. repeat split; auto; try discriminate.
      unfold countEvents, localTrace; simpl. now rewrite Nat.eqb_refl.
    + exists (Throw offlineFailure), m', [EConsole Err (str "Local AI generation failed:")].
      repeat split; auto; try discriminate.
      unfold countEvents, localTrace; simpl. now rewrite Nat.eqb_refl.
  - exists (Throw offlineFailure), m', [EConsole Err (str "Local AI generation failed:")].
    repeat split; auto; try discriminate.
    unfold countEvents, localTrace; simpl. now rewrite Nat.eqb_refl.
Qed.

End LocalIdentification.

(* ===================================================================== *)
(** * Chat: which strategy answers a send *)
(* ===================================================================== *)

Lemma sendable_guard (s : ChatState) :
  sendable s = true ->
  JsString.eqb (trim (input s)) [] || isLoading s = false.
Proof.
  unfold sendable. destruct (JsString.eqb (trim (input s)) []), (isLoading s);
    simpl; congruence.
Qed.

Lemma some_eq {A} (a b : A) : Some a = Some b -> a = b.
Proof. congruence. Qed.

(** Closes the part of a goal about a completed send that does not
    depend on how the cloud answered. *)
Ltac exists_run :=
  eexists; eexists; eexists; eexists;
  split; [reflexivity | ]; run_handler; rewrite <- ?app_assoc;
  split; [reflexivity | ]; split; [reflexivity | ];
  split; [unfold countEvents; simpl; lia | ];
  split; [unfold afterSend; rewrite <- ?app_assoc; reflexivity | ].

Section Conversation.

Context {World : Type}.
Variable H : Host World.

(** C5. Online, with the local model ready and a live local session
    whose [prompt] resolves, a send is answered by the local session: the
    only boundary call is that one [prompt], so the cloud provider is
    called zero times, and the history grows by the user turn and by one
    assistant turn carrying the local answer. *)
Theorem handleSend_local_first (plantContext : option PlantInfo) (m : Machine)
    (session : Session) (t t' : N) (w0 w1 w2 : World) (answer : jsstring) :
  sendable (chat m) = true ->
  isLocalAI (chat m) = true ->
  localSession (chat m) = Some session ->
  Date_now H (world m) = (t, w0) ->
  session_prompt H session (input (chat m)) w0 = (Ok answer, w1) ->
  Date_now H w1 = (t', w2) ->
  exists m' added,
    handleSend H plantContext true m = (Return tt, m')
    /\ trace m' = trace m ++ added
    /\ added = [EPrompt session (input (chat m))]
    /\ countEvents isCloud added = 0%nat
    /\ chat m' =
         afterSend (chat m) (mkChatMessage user (input (chat m)) t)
           (mkChatMessage model answer t').
Proof.
  intros Hs Hl Hsess D0 P D1.
  unfold handleSend. rewrite (sendable_guard _ Hs), Hl, Hsess. run_handler.
  unfold bind, Date_now_, tryFinally, tryCatch, call, appendHistory, setInput,
    setIsLoading, modifyChat, ret.
  rewrite D0. run_handler. rewrite P. run_handler. rewrite D1. run_handler.
  eexists; eexists. split; [reflexivity | ]. run_handler.
  split; [reflexivity | ]. split; [reflexivity | ]. split; [reflexivity | ].
  unfold afterSend. rewrite Hl, Hsess, <- app_assoc. reflexivity.
Qed.

(** C4. Online, when the live local session's [prompt] rejects, the
    send falls back to the cloud for that message.  Whatever the cloud
    does, the handler returns normally, the failure is logged as a
    warning, the provider is sent at most one message, and the history
    grows by the user turn and by exactly one assistant turn.  With the
    API key configured and the context prompt built, the retry is one
    chat session and exactly one [sendMessage], and the assistant turn
    carries the cloud's reply when that call resolves (the fixed fallback
    text when the reply is empty) and the lost-connection apology when it
    rejects.  Without the key, or when the context prompt cannot be
    built, the provider is not called and the turn is that apology. *)
Theorem handleSend_cloud_fallback (plantContext : option PlantInfo)
    (m : Machine) (session : Session) (e : exn) (t : N) (w0 w1 : World) :
  sendable (chat m) = true ->
  isLocalAI (chat m) = true ->
  localSession (chat m) = Some session ->
  Date_now H (world m) = (t, w0) ->
  session_prompt H session (input (chat m)) w0 = (Fail e, w1) ->
  exists m' added reply t',
    handleSend H plantContext true m = (Return tt, m')
    /\ trace m' = trace m ++ added
    /\ firstn 2 added =
         [ EPrompt session (input (chat m));
           EConsole Warn (str "Local AI failed, falling back to cloud") ]
    /\ (countEvents isSendMessage added <= 1)%nat
    /\ chat m' =
         afterSend (chat m) (mkChatMessage user (input (chat m)) t)
           (mkChatMessage model reply t')
    /\ (forall req c w2 r w3,
          hasApiKey H w1 = true ->
          cloudChatRequest H (history (chat m)) plantContext = Some req ->
          chats_create H req w1 = (c, w2) ->
          chat_sendMessage H c (input (chat m)) w2 = (r, w3) ->
          filter isCloud added = [EChatsCreate req; ESendMessage c (input (chat m))]
          /\ countEvents isSendMessage added = 1%nat
          /\ reply = cloudTurn r)
    /\ (hasApiKey H w1 = false
        \/ cloudChatRequest H (history (chat m)) plantContext = None ->
        countEvents isCloud added = 0%nat /\ reply = lostConnection).
Proof.
  intros Hs Hl Hsess D0 P.
  unfold handleSend. rewrite (sendable_guard _ Hs), Hl, Hsess. run_handler.
  unfold sendChatMessage, getAiClient, cloudChatRequest, hasApiKey.
  unfold bind, Date_now_, tryFinally, tryCatch, call, appendHistory, setInput,
    setIsLoading, modifyChat, ret, console, read, call_total, throw.
  rewrite D0. run_handler. rewrite P. run_handler.
  destruct (API_KEY H w1) as [[ | k ks] | ]; run_handler.
  - destruct (Date_now H w1) as [t' w4]. run_handler.
    exists_run. split; [intros; discriminate | ]. intros _. split; reflexivity.
  - match goal with
    | |- context [evalTemplate ?o] => destruct o as [block | ] eqn:B
    end; unfold evalTemplate, ret, throw; run_handler.
    + destruct (chats_create H _ w1) as [c w2] eqn:CC. run_handler.
      destruct (chat_sendMessage H c (input (chat m)) w2) as [r w3] eqn:SM.
      destruct r as [[[ | c0 t0] | ] | e']; run_handler;
        destruct (Date_now H w3) as [t' w4]; run_handler;
        (exists_run; split;
         [ intros req c' w2' r' w3' _ E CC' SM';
           apply some_eq in E; subst req;
           rewrite CC in CC'; injection CC' as <- <-;
           rewrite SM in SM'; injection SM' as <- <-;
           repeat split; reflexivity
         | intros [K | K]; discriminate ]).
    + destruct (Date_now H w1) as [t' w4]. run_handler.
      exists_run. split; [intros; discriminate | ]. intros _. split; reflexivity.
  - destruct (Date_now H w1) as [t' w4]. run_handler.
    exists_run. split; [intros; discriminate | ]. intros _. split; reflexivity.
Qed.

(** C3, as amended.  Offline with the local-AI flag off, a send is
    stopped by the guard: nothing is appended, nothing is called, the
    machine is unchanged.  The static offline-unavailable message is the
    assistant reply only when the device is offline, the local-AI flag is
    on and no local session is live. *)
Theorem handleSend_offline (plantContext : option PlantInfo) (m : Machine)
    (t t' : N) (w0 w1 : World) :
  sendable (chat m) = true ->
  Date_now H (world m) = (t, w0) ->
  Date_now H w0 = (t', w1) ->
  (isLocalAI (chat m) = false ->
     handleSend H plantContext false m = (Return tt, m))
  /\ (isLocalAI (chat m) = true ->
      localSession (chat m) = None ->
      exists m',
        handleSend H plantContext false m = (Return tt, m')
        /\ trace m' = trace m
        /\ chat m' =
             afterSend (chat m) (mkChatMessage user (input (chat m)) t)
               (mkChatMessage model cloudUnavailable t')).
Proof.
  intros Hs D0 D1. split.
  - intros Hl. unfold handleSend.
    rewrite (sendable_guard _ Hs), Hl. reflexivity.
  - intros Hl Hsess. unfold handleSend.
    rewrite (sendable_guard _ Hs), Hl, Hsess. run_handler.
    unfold bind, Date_now_, tryFinally, tryCatch, appendHistory, setInput,
      setIsLoading, modifyChat, ret.
    rewrite D0. run_handler. rewrite D1. run_handler.
    eexists. split; [reflexivity | ]. run_handler. split; [reflexivity | ].
    unfold afterSend. rewrite Hl, Hsess, <- app_assoc. reflexivity.
Qed.

End Conversation.

(* ===================================================================== *)
(** * Identification: which backend serves a request *)
(* ===================================================================== *)

Section Orchestrator.

Context {World : Type}.
Variable H : Host World.

(** C2. When the classifier reports no label for the image, the
    offline identification throws the could-not-identify error right
    after the classification: the local language model is not touched
    (no session is created, no prompt is sent), and no plant record is
    stored. *)
Theorem analyzeOffline_no_labels (url : jsstring) (m : Machine)
    (c : Classifier) (result : list (list Category)) (w1 w2 : World) :
  imageClassifier m = Some c ->
  Image_onload H url (world m) = (true, w1) ->
  classifier_classify H c url w1 = (Ok result, w2) ->
  categoryNames result = [] ->
  exists m' added,
    analyzeOffline H url m = (Throw noObjectDetected, m')
    /\ trace m' = trace m ++ added
    /\ added = [EImageLoad url; EClassify c url]
    /\ countEvents isLocalModel added = 0%nat
    /\ plantData (app m') = plantData (app m).
Proof.
  intros IC L C E.
  unfold analyzeOffline, awaitImageLoad, classifyImageOffline, bind,
    setIsOfflineAnalysis, modifyApp, call_total, call, ret, throw.
  run_app. rewrite L. run_app. rewrite IC. run_app. rewrite C. run_app.
  rewrite E.
  eexists; eexists. split; [reflexivity | ]. run_app.
  rewrite <- app_assoc. repeat split; reflexivity.
Qed.

(** Online, a request never reaches an on-device backend. *)
Lemma handleFileSelect_online (file : option File) (m : Machine) :
  isOnline (app m) = true ->
  exists added,
    trace (snd (handleFileSelect H file m)) = trace m ++ added
    /\ forallb notOfflineBackend added = true.
Proof.
  intros On. unfold handleFileSelect. rewrite On.
  destruct file as [f | ]; [ | exists []; simpl; now rewrite app_nil_r].
  match goal with
  | |- exists added, trace (snd (?c m)) = _ /\ _ =>
      assert (E : emits notOfflineBackend c); [ | apply E ]
  end.
  unfold setError, setPlantData, setSelectedImage, setIsAnalyzing,
    setIsOfflineAnalysis.
  repeat (apply emits_bind; [solve [auto with emits] | intros ? ]).
  apply emits_bind.
  - destruct (isHeic H f); [ | apply emits_ret].
    apply convertHeic_emits; reflexivity.
  - intros [pf | ]; [ | apply emits_ret].
    repeat (apply emits_bind; [solve [auto with emits] | intros ? ]).
    apply emits_tryFinally; [ | auto with emits].
    apply emits_tryCatch; [apply analyzeOnline_emits | ].
    intros e. emits_auto.
Qed.

(** Offline, a request never reaches the cloud provider. *)
Lemma handleFileSelect_offline (file : option File) (m : Machine) :
  isOnline (app m) = false ->
  exists added,
    trace (snd (handleFileSelect H file m)) = trace m ++ added
    /\ forallb notCloud added = true.
Proof.
  intros Off. unfold handleFileSelect. rewrite Off.
  destruct file as [f | ]; [ | exists []; simpl; now rewrite app_nil_r].
  match goal with
  | |- exists added, trace (snd (?c m)) = _ /\ _ =>
      assert (E : emits notCloud c); [ | apply E ]
  end.
  unfold setError, setPlantData, setSelectedImage, setIsAnalyzing,
    setIsOfflineAnalysis.
  repeat (apply emits_bind; [solve [auto with emits] | intros ? ]).
  apply emits_bind.
  - destruct (isHeic H f); [ | apply emits_ret].
    apply convertHeic_emits; reflexivity.
  - intros [pf | ]; [ | apply emits_ret].
    repeat (apply emits_bind; [solve [auto with emits] | intros ? ]).
    apply emits_tryFinally; [ | auto with emits].
    apply emits_tryCatch; [apply analyzeOffline_emits | ].
    intros e. emits_auto.
Qed.

(** Online, a request whose file could be prepared and read calls the
    cloud provider's [generateContent] once, with the content and MIME
    type of the prepared file. *)
Lemma handleFileSelect_online_cloud (f pf : File) (m : Machine)
    (w1 w2 w3 : World) (url dataUrl : jsstring) :
  isOnline (app m) = true ->
  conversion H f (world m) = Some (pf, w1) ->
  URL_createObjectURL H pf w1 = (url, w2) ->
  FileReader_readAsDataURL H pf w2 = (Ok dataUrl, w3) ->
  hasApiKey H w3 = true ->
  filter isCloud
    (skipn (List.length (trace m)) (trace (snd (handleFileSelect H (Some f) m)))) =
  [EGenerateContent
     (identifyRequest (nth_error (split 44 dataUrl) 1) (fileType pf))].
Proof.
  intros On Cv U R K.
  unfold handleFileSelect. rewrite On.
  unfold analyzeOnline, identifyPlant, getAiClient, convertHeic, JSON_parse_.
  unfold bind, tryFinally, tryCatch, call, call_total, read, console, ret, throw,
    setError, setPlantData, setSelectedImage, setIsAnalyzing,
    setIsOfflineAnalysis, modifyApp, JSON_parse_.
  run_app. unfold conversion in Cv. unfold hasApiKey in K.
  destruct (isHeic H f); run_app.
  - destruct (heic2any H f (world m)) as [[out | e] w]; [ | discriminate].
    injection Cv as <- <-. run_app. rewrite U. run_app. rewrite R. run_app.
    destruct (API_KEY H w3) as [[ | k ks] | ]; try discriminate. run_app.
    destruct (models_generateContent H _ w3) as [[[[ | c0 t0] | ] | e] w4];
      run_app; try destruct (JSON_parse (c0 :: t0)); run_app;
      rewrite <- ?app_assoc, skipn_app, skipn_all, Nat.sub_diag; reflexivity.
  - injection Cv as <- <-. run_app. rewrite U. run_app. rewrite R. run_app.
    destruct (API_KEY H w3) as [[ | k ks] | ]; try discriminate. run_app.
    destruct (models_generateContent H _ w3) as [[[[ | c0 t0] | ] | e] w4];
      run_app; try destruct (JSON_parse (c0 :: t0)); run_app;
      rewrite <- ?app_assoc, skipn_app, skipn_all, Nat.sub_diag; reflexivity.
Qed.

Lemma filter_notClassifier (l : list event) :
  forallb notClassifier l = true -> filter isClassifier l = [].
Proof. apply filter_none. Qed.

(** Closes a goal about the classifier calls of a run that ends with
    [identifyPlantLocal]. *)
Ltac local_tail :=
  match goal with
  | |- context [identifyPlantLocal H ?l ?mm] =>
      let ad := fresh "ad" in
      let T := fresh "T" in
      let F := fresh "F" in
      destruct (identifyPlantLocal_emits_notClassifier H l mm) as (ad & T & F);
      destruct (identifyPlantLocal H l mm) as [[? | ? | ] ?];
      simpl in T; run_app; rewrite T;
      rewrite <- ?app_assoc, skipn_app, skipn_all, Nat.sub_diag; simpl;
      rewrite ?filter_app, (filter_notClassifier _ F); reflexivity
  end.

(** Offline, a request whose file could be prepared and whose image
    loads calls the loaded classifier once, on that image. *)
Lemma handleFileSelect_offline_classifier (f pf : File) (m : Machine)
    (w1 w2 w3 : World) (url : jsstring) (c : Classifier) :
  isOnline (app m) = false ->
  conversion H f (world m) = Some (pf, w1) ->
  URL_createObjectURL H pf w1 = (url, w2) ->
  imageClassifier m = Some c ->
  Image_onload H url w2 = (true, w3) ->
  filter isClassifier
    (skipn (List.length (trace m)) (trace (snd (handleFileSelect H (Some f) m)))) =
  [EClassify c url].
Proof.
  intros Off Cv U IC L.
  unfold handleFileSelect. rewrite Off.
  unfold analyzeOffline, awaitImageLoad, classifyImageOffline, convertHeic.
  unfold bind, tryFinally, tryCatch, call, call_total, read, console, ret, throw,
    setError, setPlantData, setSelectedImage, setIsAnalyzing,
    setIsOfflineAnalysis, modifyApp.
  run_app. unfold conversion in Cv.
  destruct (isHeic H f); run_app.
  - destruct (heic2any H f (world m)) as [[out | e] w]; [ | discriminate].
    injection Cv as <- <-. run_app. rewrite U. run_app. rewrite L. run_app.
    rewrite IC. run_app.
    destruct (classifier_classify H c url w3) as [[res | e] w4]; run_app;
      [destruct (categoryNames res) as [ | l ls]; run_app | ];
      try local_tail;
      rewrite <- ?app_assoc, skipn_app, skipn_all, Nat.sub_diag; reflexivity.
  - injection Cv as <- <-. run_app. rewrite U. run_app. rewrite L. run_app.
    rewrite IC. run_app.
    destruct (classifier_classify H c url w3) as [[res | e] w4]; run_app;
      [destruct (categoryNames res) as [ | l ls]; run_app | ];
      try local_tail;
      rewrite <- ?app_assoc, skipn_app, skipn_all, Nat.sub_diag; reflexivity.
Qed.

(** With [window.ai] in place, the first call [identifyPlantLocal] makes
    to the local model creates its session. *)
Lemma identifyPlantLocal_first_call (labels : list jsstring) (m : Machine) :
  window_ai H (world m) = HasAi ->
  exists rest,
    trace (snd (identifyPlantLocal H labels m)) =
    trace m ++ EConsole Log (str "Offline identified labels:")
            :: ECreate botanistPrompt :: rest.
Proof.
  intros G.
  unfold identifyPlantLocal, JSON_parse_.
  unfold bind, read, tryCatch, call, console, destroy, ret, throw.
  rewrite G. cbn [world emit setWorld].
  destruct (languageModel_create H botanistPrompt (world m)) as [[s | e] w1];
    cbn [world emit setWorld trace snd].
  - destruct (session_prompt H s _ w1) as [[raw | e] w2];
      cbn [world emit setWorld trace snd];
      [destruct (JSON_parse (cleanResponse raw)) | ];
      cbn [world emit setWorld trace snd];
      rewrite <- ?app_assoc; eexists; reflexivity.
  - rewrite <- ?app_assoc; eexists; reflexivity.
Qed.

(** Closes a goal about the first local-model call of a run that ends
    with [identifyPlantLocal]. *)
Ltac first_local_call :=
  match goal with
  | G : window_ai H ?w = HasAi |- context [identifyPlantLocal H ?l ?mm] =>
      let rest := fresh "rest" in
      let T := fresh "T" in
      destruct (identifyPlantLocal_first_call l mm G) as (rest & T);
      destruct (identifyPlantLocal H l mm) as [[? | ? | ] ?];
      simpl in T; run_app; rewrite T;
      rewrite <- ?app_assoc, skipn_app, skipn_all, Nat.sub_diag; reflexivity
  end.

(** Offline, when the classifier has labels for the image, the request
    goes on to the local language model, starting with the creation of
    the one-shot session. *)
Lemma handleFileSelect_offline_generates (f pf : File) (m : Machine)
    (w1 w2 w3 w4 : World) (url : jsstring) (c : Classifier)
    (result : list (list Category)) :
  isOnline (app m) = false ->
  conversion H f (world m) = Some (pf, w1) ->
  URL_createObjectURL H pf w1 = (url, w2) ->
  imageClassifier m = Some c ->
  Image_onload H url w2 = (true, w3) ->
  classifier_classify H c url w3 = (Ok result, w4) ->
  categoryNames result <> [] ->
  window_ai H w4 = HasAi ->
  hd_error
    (filter isLocalModel
       (skipn (List.length (trace m)) (trace (snd (handleFileSelect H (Some f) m))))) =
  Some (ECreate botanistPrompt).
Proof.
  intros Off Cv U IC L C E G.
  unfold handleFileSelect. rewrite Off.
  unfold analyzeOffline, awaitImageLoad, classifyImageOffline, convertHeic.
  unfold bind, tryFinally, tryCatch, call, call_total, read, console, ret, throw,
    setError, setPlantData, setSelectedImage, setIsAnalyzing,
    setIsOfflineAnalysis, modifyApp.
  run_app. unfold conversion in Cv.
  destruct (isHeic H f); run_app.
  - destruct (heic2any H f (world m)) as [[out | e] w]; [ | discriminate].
    injection Cv as <- <-. run_app. rewrite U. run_app. rewrite L. run_app.
    rewrite IC. run_app. rewrite C. run_app.
    destruct (categoryNames result) as [ | l ls]; [congruence | ]. run_app.
    first_local_call.
  - injection Cv as <- <-. run_app. rewrite U. run_app. rewrite L. run_app.
    rewrite IC. run_app. rewrite C. run_app.
    destruct (categoryNames result) as [ | l ls]; [congruence | ]. run_app.
    first_local_call.
Qed.

(** Seen from the handler: offline, when the classifier has no label,
    the request ends with the offline failure message, no plant record,
    and no call to the local language model. *)
Lemma handleFileSelect_no_labels (f pf : File) (m : Machine)
    (w1 w2 w3 w4 : World) (url : jsstring) (c : Classifier)
    (result : list (list Category)) :
  isOnline (app m) = false ->
  conversion H f (world m) = Some (pf, w1) ->
  URL_createObjectURL H pf w1 = (url, w2) ->
  imageClassifier m = Some c ->
  Image_onload H url w2 = (true, w3) ->
  classifier_classify H c url w3 = (Ok result, w4) ->
  categoryNames result = [] ->
  exists m',
    handleFileSelect H (Some f) m = (Return tt, m')
    /\ countEvents isLocalModel (skipn (List.length (trace m)) (trace m')) = 0%nat
    /\ plantData (app m') = None
    /\ error (app m') =
         Some (str "Offline identification failed. Try a clearer photo or reconnect to internet.")
    /\ isAnalyzing (app m') = false.
Proof.
  intros Off Cv U IC L C E.
  unfold handleFileSelect. rewrite Off.
  unfold analyzeOffline, awaitImageLoad, classifyImageOffline, convertHeic.
  unfold bind, tryFinally, tryCatch, call, call_total, read, console, ret, throw,
    setError, setPlantData, setSelectedImage, setIsAnalyzing,
    setIsOfflineAnalysis, modifyApp.
  run_app. unfold conversion in Cv.
  destruct (isHeic H f); run_app.
  - destruct (heic2any H f (world m)) as [[out | e] w]; [ | discriminate].
    injection Cv as <- <-. run_app. rewrite U. run_app. rewrite L. run_app.
    rewrite IC. run_app. rewrite C. run_app. rewrite E.
    eexists. split; [reflexivity | ]. run_app.
    rewrite <- ?app_assoc, skipn_app, skipn_all, Nat.sub_diag.
    repeat split; reflexivity.
  - injection Cv as <- <-. run_app. rewrite U. run_app. rewrite L. run_app.
    rewrite IC. run_app. rewrite C. run_app. rewrite E.
    eexists. split; [reflexivity | ]. run_app.
    rewrite <- ?app_assoc, skipn_app, skipn_all, Nat.sub_diag.
    repeat split; reflexivity.
Qed.

Lemma skipn_own_prefix (a b : list event) :
  skipn (List.length a) (a ++ b) = b.
Proof. now rewrite skipn_app, skipn_all, Nat.sub_diag. Qed.

(** C6. The backend of an identification request is chosen by the
    connectivity flag of the render the handler belongs to, and by
    nothing else.  Online, whatever the file and the host, no on-device
    backend (classifier or local language model) is called, and a request
    whose file was prepared and read reaches the cloud provider's
    [generateContent], once.  Offline, the cloud provider is never
    called, and a request whose file was prepared and whose image loads
    reaches the on-device classifier, once, and then, when the classifier
    has labels and [window.ai] exists, the local language model. *)
Theorem handleFileSelect_selects_by_connectivity (file : option File)
    (m : Machine) :
  exists added,
    trace (snd (handleFileSelect H file m)) = trace m ++ added
    /\ if isOnline (app m)
       then
         countEvents isOfflineBackend added = 0%nat
         /\ forall f pf w1 w2 w3 url dataUrl,
              file = Some f ->
              conversion H f (world m) = Some (pf, w1) ->
              URL_createObjectURL H pf w1 = (url, w2) ->
              FileReader_readAsDataURL H pf w2 = (Ok dataUrl, w3) ->
              hasApiKey H w3 = true ->
              filter isCloud added =
                [EGenerateContent
                   (identifyRequest (nth_error (split 44 dataUrl) 1)
                      (fileType pf))]
       else
         countEvents isCloud added = 0%nat
         /\ forall f pf w1 w2 w3 url c,
              file = Some f ->
              conversion H f (world m) = Some (pf, w1) ->
              URL_createObjectURL H pf w1 = (url, w2) ->
              imageClassifier m = Some c ->
              Image_onload H url w2 = (true, w3) ->
              filter isClassifier added = [EClassify c url]
              /\ forall result w4,
                   classifier_classify H c url w3 = (Ok result, w4) ->
                   categoryNames result <> [] ->
                   window_ai H w4 = HasAi ->
                   hd_error (filter isLocalModel added)
                   = Some (ECreate botanistPrompt).
Proof.
  destruct (isOnline (app m)) eqn:On.
  - destruct (handleFileSelect_online file m On) as (added & T & F).
    exists added. split; [exact T | ]. split.
    + apply countEvents_none. exact F.
    + intros f pf w1 w2 w3 url dataUrl -> Cv U R K.
      pose proof (handleFileSelect_online_cloud f pf m w1 w2 w3 url dataUrl
                    On Cv U R K) as Q.
      now rewrite T, skipn_own_prefix in Q.
  - destruct (handleFileSelect_offline file m On) as (added & T & F).
    exists added. split; [exact T | ]. split.
    + apply countEvents_none. exact F.
    + intros f pf w1 w2 w3 url c -> Cv U IC L. split.
      * pose proof (handleFileSelect_offline_classifier f pf m w1 w2 w3 url c
                      On Cv U IC L) as Q.
        now rewrite T, skipn_own_prefix in Q.
      * intros result w4 C E G.
        pose proof (handleFileSelect_offline_generates f pf m w1 w2 w3 w4 url c
                      result On Cv U IC L C E G) as Q.
        now rewrite T, skipn_own_prefix in Q.
Qed.

End Orchestrator.

(* ===================================================================== *)
(** * Identification: what a successful call returns *)
(* ===================================================================== *)

Section Identification.

Context {World : Type}.
Variable H : Host World.

(** C1, as amended.  A record returned by a successful identification
    is the value [JSON.parse] read from the provider's text: on the cloud
    path the non-empty response text, on the local path the model's
    answer with the fences deleted and trimmed; it has the fields only as
    far as that text has them.  On the cloud path the record has all six
    fields and all five care sub-fields, present and not null, whenever it
    satisfies the response schema that the request carries. *)
Theorem identification_returns_parsed_text :
  (forall data mime (m : Machine) v m',
      identifyPlant H data mime m = (Return v, m') ->
      exists text w,
        models_generateContent H (identifyRequest data mime) (world m)
          = (Ok (Some text), w)
        /\ text <> []
        /\ JSON_parse text = Some v
        /\ (conforms (reqResponseSchema (identifyRequest data mime)) v = true ->
            complete v = true))
  /\ (forall labels (m : Machine) v m',
        identifyPlantLocal H labels m = (Return v, m') ->
        exists s w1 raw w2,
          languageModel_create H botanistPrompt (world m) = (Ok s, w1)
          /\ session_prompt H s (localPrompt (join (str ", ") labels)) w1
             = (Ok raw, w2)
          /\ JSON_parse (cleanResponse raw) = Some v).
Proof.
  split.
  - intros data mime m v m'.
    unfold identifyPlant, getAiClient, JSON_parse_.
    unfold bind, tryCatch, call, read, console, ret, throw.
    cbn [world]. destruct (API_KEY H (world m)) as [[ | k ks] | ];
      try discriminate.
    destruct (models_generateContent H (identifyRequest data mime) (world m))
      as [[[[ | c t] | ] | e] w]; try discriminate.
    destruct (JSON_parse (c :: t)) as [u | ] eqn:P; try discriminate.
    intros [= -> _]. exists (c :: t), w.
    repeat split; auto; try discriminate.
    apply plantSchema_complete.
  - intros labels m v m'.
    unfold identifyPlantLocal, JSON_parse_.
    unfold bind, tryCatch, call, read, console, destroy, ret, throw.
    cbn [world emit setWorld].
    destruct (window_ai H (world m)); try discriminate.
    destruct (languageModel_create H botanistPrompt (world m))
      as [[s | e] w1]; try discriminate.
    cbn [world emit setWorld].
    destruct (session_prompt H s (localPrompt (join (str ", ") labels)) w1)
      as [[raw | e] w2] eqn:P; try discriminate.
    destruct (JSON_parse (cleanResponse raw)) as [u | ] eqn:J; try discriminate.
    intros [= -> _]. exists s, w1, raw, w2. auto.
Qed.

(** C7, as amended.  For the labels rose, flower, plant, when the local
    model wraps a JSON text in a Markdown fence and the text itself holds
    no run of three backticks, [identifyPlantLocal] deletes the fences
    and returns exactly the value [JSON.parse] gives for the bare text;
    the session is released on the way. *)
Theorem identifyPlantLocal_fenced (m : Machine) (s : Session)
    (w1 w2 : World) (j : jsstring) (v : json) :
  window_ai H (world m) = HasAi ->
  languageModel_create H botanistPrompt (world m) = (Ok s, w1) ->
  session_prompt H s (localPrompt (join (str ", ") roseLabels)) w1
    = (Ok (fenced j), w2) ->
  includes fence j = false ->
  JSON_parse j = Some v ->
  exists m',
    identifyPlantLocal H roseLabels m = (Return v, m')
    /\ cleanResponse (fenced j) = trim j
    /\ trace m' = trace m ++ localTrace roseLabels s.
Proof.
  intros G C P I J.
  destruct (identifyPlantLocal_run H roseLabels m s w1 G C) as (m' & R & T & _).
  rewrite P in R, T. cbn [fst] in R, T.
  rewrite (cleanResponse_fenced j I), (JSON_parse_trim j v J) in R, T.
  exists m'. rewrite app_nil_r in T. auto using cleanResponse_fenced.
Qed.

End Identification.

Example roseJson_parses : JSON_parse Demo.roseJson = Some Demo.roseRecord.
Proof. vm_compute. reflexivity. Qed.

Example roseRecord_complete : complete Demo.roseRecord = true.
Proof. vm_compute. reflexivity. Qed.

Example roseLabels_joined : join (str ", ") roseLabels = str "rose, flower, plant".
Proof. vm_compute. reflexivity. Qed.

Example fenceFactJson_parses :
  JSON_parse Demo.fenceFactJson = Some Demo.fenceFactRecord.
Proof. vm_compute. reflexivity. Qed.

(* ===================================================================== *)
(** * Runs on the concrete hosts *)
(* ===================================================================== *)

(** C1 fails as stated.  The local model answers an empty object: the
    offline identification succeeds, and the record it returns has none of
    the fields; nothing validated it. *)
Lemma identifyPlantLocal_unvalidated :
  fst (identifyPlantLocal Demo.emptyObjectHost roseLabels Demo.offlineIdle)
    = Return (JObject [])
  /\ complete (JObject []) = false
  /\ present (JObject []) (str "commonName") = false.
Proof. vm_compute. repeat split. Qed.

Lemma identification_returns_parsed_text_witness :
  (exists text w,
      models_generateContent Demo.readyHost
        (identifyRequest Demo.photoData (str "image/png")) (world Demo.onlineIdle)
        = (Ok (Some text), w)
      /\ text <> []
      /\ JSON_parse text = Some Demo.roseRecord
      /\ (conforms
            (reqResponseSchema (identifyRequest Demo.photoData (str "image/png")))
            Demo.roseRecord = true ->
          complete Demo.roseRecord = true))
  /\ (exists s w1 raw w2,
        languageModel_create Demo.plainJsonHost botanistPrompt
          (world Demo.offlineIdle) = (Ok s, w1)
        /\ session_prompt Demo.plainJsonHost s
             (localPrompt (join (str ", ") roseLabels)) w1 = (Ok raw, w2)
        /\ JSON_parse (cleanResponse raw) = Some Demo.roseRecord).
Proof.
  split.
  - apply (proj1 (identification_returns_parsed_text Demo.readyHost)
             Demo.photoData (str "image/png") Demo.onlineIdle Demo.roseRecord
             (snd (identifyPlant Demo.readyHost Demo.photoData (str "image/png")
                     Demo.onlineIdle))).
    vm_compute. reflexivity.
  - apply (proj2 (identification_returns_parsed_text Demo.plainJsonHost)
             roseLabels Demo.offlineIdle Demo.roseRecord
             (snd (identifyPlantLocal Demo.plainJsonHost roseLabels
                     Demo.offlineIdle))).
    vm_compute. reflexivity.
Defined.

Lemma analyzeOffline_no_labels_witness :
  exists m' added,
    analyzeOffline Demo.noLabelHost Demo.photoUrl Demo.offlineIdle
      = (Throw noObjectDetected, m')
    /\ trace m' = trace Demo.offlineIdle ++ added
    /\ added = [EImageLoad Demo.photoUrl; EClassify 2%nat Demo.photoUrl]
    /\ countEvents isLocalModel added = 0%nat
    /\ plantData (app m') = plantData (app Demo.offlineIdle).
Proof.
  apply (analyzeOffline_no_labels Demo.noLabelHost Demo.photoUrl
           Demo.offlineIdle 2%nat [] 100 100); reflexivity.
Defined.

(** C3 fails as stated.  Offline with the local-AI flag off, a send with
    a question typed in leaves the machine as it was: no turn is appended,
    so no reply carries the offline-unavailable message. *)
Lemma handleSend_offline_does_nothing :
  sendable (chat Demo.offlineNoLocal) = true
  /\ isLocalAI (chat Demo.offlineNoLocal) = false
  /\ handleSend Demo.readyHost None false Demo.offlineNoLocal
     = (Return tt, Demo.offlineNoLocal)
  /\ existsb (fun msg => JsString.eqb (text msg) cloudUnavailable)
       (history (chat (snd (handleSend Demo.readyHost None false
                              Demo.offlineNoLocal)))) = false.
Proof. vm_compute. repeat split. Qed.

Lemma handleSend_offline_witness :
  handleSend Demo.readyHost None false Demo.offlineNoLocal
    = (Return tt, Demo.offlineNoLocal)
  /\ exists m',
       handleSend Demo.readyHost None false Demo.offlineNoSession = (Return tt, m')
       /\ trace m' = trace Demo.offlineNoSession
       /\ chat m' =
            afterSend (chat Demo.offlineNoSession)
              (mkChatMessage user (input (chat Demo.offlineNoSession)) 100)
              (mkChatMessage model cloudUnavailable 101).
Proof.
  split.
  - apply (proj1 (handleSend_offline Demo.readyHost None Demo.offlineNoLocal
                    100 101 101 102 eq_refl eq_refl eq_refl)).
    reflexivity.
  - apply (proj2 (handleSend_offline Demo.readyHost None Demo.offlineNoSession
                    100 101 101 102 eq_refl eq_refl eq_refl));
      reflexivity.
Defined.

Lemma handleSend_cloud_fallback_witness :
  exists m' added t',
    handleSend Demo.failingLocalHost None true Demo.onlineLocal = (Return tt, m')
    /\ trace m' = trace Demo.onlineLocal ++ added
    /\ firstn 2 added =
         [ EPrompt 7%nat (input (chat Demo.onlineLocal));
           EConsole Warn (str "Local AI failed, falling back to cloud") ]
    /\ countEvents isSendMessage added = 1%nat
    /\ chat m' =
         afterSend (chat Demo.onlineLocal)
           (mkChatMessage user (input (chat Demo.onlineLocal)) 100)
           (mkChatMessage model (str "About once a week.") t').
Proof.
  destruct (handleSend_cloud_fallback Demo.failingLocalHost None Demo.onlineLocal
              7%nat (Rejected 1) 100 101 101
              eq_refl eq_refl eq_refl eq_refl eq_refl)
    as (m' & added & reply & t' & R & T & F & _ & C & P & _).
  destruct (P (mkChatRequest MODEL_NAME persona
                 (map (fun msg => (role msg, text msg))
                    (history (chat Demo.onlineLocal))))
              1%nat 101 (Ok (Some (str "About once a week."))) 101
              eq_refl eq_refl eq_refl eq_refl) as (_ & S & Q).
  exists m', added, t'.
  split; [exact R | ]. split; [exact T | ]. split; [exact F | ].
  split; [exact S | ]. rewrite C, Q. reflexivity.
Defined.

Lemma handleSend_local_first_witness :
  exists m' added,
    handleSend Demo.readyHost None true Demo.onlineLocal = (Return tt, m')
    /\ trace m' = trace Demo.onlineLocal ++ added
    /\ added = [EPrompt 7%nat (input (chat Demo.onlineLocal))]
    /\ countEvents isCloud added = 0%nat
    /\ chat m' =
         afterSend (chat Demo.onlineLocal)
           (mkChatMessage user (input (chat Demo.onlineLocal)) 100)
           (mkChatMessage model (str "Water it weekly.") 101).
Proof.
  apply (handleSend_local_first Demo.readyHost None Demo.onlineLocal
           7%nat 100 101 101 101 102 (str "Water it weekly."));
    reflexivity.
Defined.

Lemma handleFileSelect_selects_by_connectivity_witness :
  (exists added,
      trace (snd (handleFileSelect Demo.readyHost (Some Demo.photo) Demo.onlineIdle))
        = trace Demo.onlineIdle ++ added
      /\ countEvents isOfflineBackend added = 0%nat
      /\ filter isCloud added =
           [EGenerateContent (identifyRequest Demo.photoData (str "image/png"))])
  /\ (exists added,
        trace (snd (handleFileSelect Demo.readyHost (Some Demo.photo) Demo.offlineIdle))
          = trace Demo.offlineIdle ++ added
        /\ countEvents isCloud added = 0%nat
        /\ filter isClassifier added = [EClassify 2%nat Demo.photoUrl]
        /\ hd_error (filter isLocalModel added) = Some (ECreate botanistPrompt)).
Proof.
  split.
  - destruct (handleFileSelect_selects_by_connectivity Demo.readyHost
                (Some Demo.photo) Demo.onlineIdle) as (added & T & Q).
    exists added. split; [exact T | ].
    change (countEvents isOfflineBackend added = 0%nat
            /\ forall f pf w1 w2 w3 url dataUrl,
                 Some Demo.photo = Some f ->
                 conversion Demo.readyHost f (world Demo.onlineIdle) = Some (pf, w1) ->
                 URL_createObjectURL Demo.readyHost pf w1 = (url, w2) ->
                 FileReader_readAsDataURL Demo.readyHost pf w2 = (Ok dataUrl, w3) ->
                 hasApiKey Demo.readyHost w3 = true ->
                 filter isCloud added =
                   [EGenerateContent
                      (identifyRequest (nth_error (split 44 dataUrl) 1)
                         (fileType pf))]) in Q.
    destruct Q as [Q1 Q2]. split; [exact Q1 | ].
    apply (Q2 Demo.photo Demo.photo 100 100 100 Demo.photoUrl
             (str "data:image/png;base64,iVBORw0KGgo=")); reflexivity.
  - destruct (handleFileSelect_selects_by_connectivity Demo.readyHost
                (Some Demo.photo) Demo.offlineIdle) as (added & T & Q).
    exists added. split; [exact T | ].
    change (countEvents isCloud added = 0%nat
            /\ forall f pf w1 w2 w3 url c,
                 Some Demo.photo = Some f ->
                 conversion Demo.readyHost f (world Demo.offlineIdle) = Some (pf, w1) ->
                 URL_createObjectURL Demo.readyHost pf w1 = (url, w2) ->
                 imageClassifier Demo.offlineIdle = Some c ->
                 Image_onload Demo.readyHost url w2 = (true, w3) ->
                 filter isClassifier added = [EClassify c url]
                 /\ forall result w4,
                      classifier_classify Demo.readyHost c url w3 = (Ok result, w4) ->
                      categoryNames result <> [] ->
                      window_ai Demo.readyHost w4 = HasAi ->
                      hd_error (filter isLocalModel added)
                      = Some (ECreate botanistPrompt)) in Q.
    destruct Q as [Q1 Q2]. split; [exact Q1 | ].
    destruct (Q2 Demo.photo Demo.photo 100 100 100 Demo.photoUrl 2%nat
                eq_refl eq_refl eq_refl eq_refl eq_refl) as [Q3 Q4].
    split; [exact Q3 | ].
    apply (Q4 Demo.roseCategories 100); [reflexivity | discriminate | reflexivity].
Defined.

(** C7 fails as stated.  The local model wraps a complete record whose
    fun fact contains three backticks: the fences inside the text are
    deleted with the ones around it, and the record returned differs from
    the one the bare text parses to. *)
Lemma identifyPlantLocal_fenced_counterexample :
  JSON_parse Demo.fenceFactJson = Some Demo.fenceFactRecord
  /\ complete Demo.fenceFactRecord = true
  /\ session_prompt Demo.fenceFactHost 7%nat
       (localPrompt (join (str ", ") roseLabels)) 100
     = (Ok (fenced Demo.fenceFactJson), 100)
  /\ fst (identifyPlantLocal Demo.fenceFactHost roseLabels Demo.offlineIdle)
     = Return Demo.strippedRecord
  /\ Demo.strippedRecord <> Demo.fenceFactRecord.
Proof.
  repeat split; try (vm_compute; reflexivity).
  intros E. apply (f_equal (fun v => get v (str "funFact"))) in E.
  vm_compute in E. discriminate E.
Qed.

Lemma identifyPlantLocal_fenced_witness :
  exists m',
    identifyPlantLocal Demo.fencedHost roseLabels Demo.offlineIdle
      = (Return Demo.roseRecord, m')
    /\ cleanResponse (fenced Demo.roseJson) = trim Demo.roseJson
    /\ trace m' = trace Demo.offlineIdle ++ localTrace roseLabels 7%nat.
Proof.
  apply (identifyPlantLocal_fenced Demo.fencedHost Demo.offlineIdle 7%nat 100 100
           Demo.roseJson Demo.roseRecord);
    vm_compute; reflexivity.
Defined.

Lemma identifyPlantLocal_releases_session_witness :
  exists o m' after,
    identifyPlantLocal Demo.failingLocalHost roseLabels Demo.offlineIdle = (o, m')
    /\ o <> Pending
    /\ trace m' = trace Demo.offlineIdle ++ localTrace roseLabels 7%nat ++ after
    /\ countEvents (isDestroyOf 7%nat) (localTrace roseLabels 7%nat ++ after) = 1%nat
    /\ match o with
       | Return _ => after = []
       | Throw e =>
           e = offlineFailure
           /\ after = [EConsole Err (str "Local AI generation failed:")]
       | Pending => False
       end.
Proof.
  apply (identifyPlantLocal_releases_session Demo.failingLocalHost roseLabels
           Demo.offlineIdle 7%nat 100); reflexivity.
Defined.

(* ===================================================================== *)
(** * Further properties: tools *)
(* ===================================================================== *)

Section Frames.

Context {World : Type}.
Variable H : Host World.
Context {X : Type}.
Variable f : @Machine World -> X.
Hypothesis f_emit : forall e m, f (emit e m) = f m.
Hypothesis f_world : forall w m, f (setWorld w m) = f m.

Lemma keeps_ret {A} (a : A) : keeps f (@ret World A a).
Proof. intros m; reflexivity. Qed.

Lemma keeps_throw {A} (e : exn) : keeps f (@throw World A e).
Proof. intros m; reflexivity. Qed.

Lemma keeps_bind {A B} (c : @M World A) (k : A -> @M World B) :
  keeps f c -> (forall a, keeps f (k a)) -> keeps f (bind c k).
Proof.
  intros Kc Kk m. unfold bind. specialize (Kc m).
  destruct (c m) as [[a | e | ] m1]; simpl in *; auto.
  now rewrite Kk.
Qed.

Lemma keeps_tryCatch {A} (c : @M World A) (h : exn -> @M World A) :
  keeps f c -> (forall e, keeps f (h e)) -> keeps f (tryCatch c h).
Proof.
  intros Kc Kh m. unfold tryCatch. specialize (Kc m).
  destruct (c m) as [[a | e | ] m1]; simpl in *; auto.
  now rewrite Kh.
Qed.

Lemma keeps_call {A} (e : event) (op : World -> result A * World) :
  keeps f (call e op).
Proof.
  intros m. unfold call. destruct (op (world m)) as [[a | x] w]; simpl;
    now rewrite f_world, f_emit.
Qed.

Lemma keeps_call_total {A} (e : event) (op : World -> A * World) :
  keeps f (call_total e op).
Proof.
  intros m. unfold call_total. destruct (op (world m)) as [a w]; simpl.
  now rewrite f_world, f_emit.
Qed.

Lemma keeps_console (l : Level) (label : jsstring) :
  keeps f (@console World l label).
Proof. intros m. apply f_emit. Qed.

Lemma keeps_destroy (s : Session) : keeps f (destroy H s).
Proof. intros m. unfold destroy; simpl. now rewrite f_world, f_emit. Qed.

Lemma keeps_read {A} (g : World -> A) : keeps f (read g).
Proof. intros m; reflexivity. Qed.

Lemma keeps_JSON_parse (s : jsstring) : keeps f (@JSON_parse_ World s).
Proof.
  unfold JSON_parse_. destruct (JSON_parse s); [apply keeps_ret | apply keeps_throw].
Qed.

Lemma keeps_evalTemplate (t : option jsstring) : keeps f (@evalTemplate World t).
Proof. destruct t; [apply keeps_ret | apply keeps_throw]. Qed.

End Frames.

Ltac keeps_step :=
  match goal with
  | |- keeps _ (bind _ _) => apply keeps_bind; [ | intros ? ]
  | |- keeps _ (tryCatch _ _) => apply keeps_tryCatch; [ | intros ? ]
  | |- keeps _ (call _ _) => apply keeps_call
  | |- keeps _ (call_total _ _) => apply keeps_call_total
  | |- keeps _ (console _ _) => apply keeps_console
  | |- keeps _ (destroy _ _) => apply keeps_destroy
  | |- keeps _ (read _) => apply keeps_read
  | |- keeps _ (JSON_parse_ _) => apply keeps_JSON_parse
  | |- keeps _ (evalTemplate _) => apply keeps_evalTemplate
  | |- keeps _ (ret _) => apply keeps_ret
  | |- keeps _ (throw _) => apply keeps_throw
  | |- keeps _ (match ?x with _ => _ end) => destruct x
  | |- forall _, _ => solve [intros; reflexivity]
  end.

Ltac keeps_auto := repeat keeps_step.

Section ServiceFrames.

Context {World : Type}.
Variable H : Host World.

(** The services never touch the state of the components. *)
Lemma identifyPlant_keeps_app (data : option jsstring) (mime : jsstring) :
  keeps app (identifyPlant H data mime).
Proof. unfold identifyPlant, getAiClient. keeps_auto. Qed.

Lemma identifyPlantLocal_keeps_app (labels : list jsstring) :
  keeps app (identifyPlantLocal H labels).
Proof. unfold identifyPlantLocal. keeps_auto. Qed.

Lemma classifyImageOffline_keeps_app (img : jsstring) :
  keeps app (classifyImageOffline H img).
Proof.
  unfold classifyImageOffline.
  apply keeps_bind; [intros m; reflexivity | ].
  intros [c | ]; keeps_auto.
Qed.

Lemma sendChatMessage_keeps_chat (h : list ChatMessage) (msg : jsstring)
    (ctx : option PlantInfo) :
  keeps chat (sendChatMessage H h msg ctx).
Proof. unfold sendChatMessage, getAiClient. keeps_auto. Qed.

Lemma createLocalSession_keeps_chat (context : option PlantInfo) :
  keeps chat (createLocalSession H context).
Proof. unfold createLocalSession. keeps_auto. Qed.

End ServiceFrames.

(* ===================================================================== *)
(** * Further properties: the cloud services *)
(* ===================================================================== *)

Section CloudServices.

Context {World : Type}.
Variable H : Host World.

(** X1. Without an API key (the variable is unset or empty) both cloud
    services throw the API_KEY error at once: the provider is not called,
    nothing is logged, the machine is left as it was. *)
Theorem cloud_services_need_api_key (m : Machine) (data : option jsstring)
    (mime : jsstring) (h : list ChatMessage) (msg : jsstring)
    (ctx : option PlantInfo) :
  hasApiKey H (world m) = false ->
  identifyPlant H data mime m = (Throw missingApiKey, m)
  /\ sendChatMessage H h msg ctx m = (Throw missingApiKey, m).
Proof.
  unfold hasApiKey, identifyPlant, sendChatMessage, getAiClient, bind, read, throw.
  cbn [world]. destruct (API_KEY H (world m)) as [[ | k ks] | ];
    try discriminate; auto.
Qed.

(** X2. With an API key, [identifyPlant] calls [generateContent] exactly
    once, with the image, its MIME type and the response schema, and ends
    as that call settled: a rejection is logged and rethrown unchanged, a
    response without text (missing or empty) is the no-response error, a
    text is parsed, and a text that is not JSON is the parser's
    [SyntaxError]; every failure is logged once. *)
Theorem identifyPlant_outcome (m : Machine) (data : option jsstring)
    (mime : jsstring) (r : result (option jsstring)) (w : World) :
  hasApiKey H (world m) = true ->
  models_generateContent H (identifyRequest data mime) (world m) = (r, w) ->
  exists m',
    identifyPlant H data mime m = (cloudIdentification r, m')
    /\ trace m' =
         trace m ++ EGenerateContent (identifyRequest data mime)
                 :: failureLog (str "Error identifying plant:")
                      (cloudIdentification r)
    /\ world m' = w.
Proof.
  intros K G.
  unfold hasApiKey in K.
  unfold identifyPlant, getAiClient, JSON_parse_.
  unfold bind, tryCatch, call, read, console, ret, throw. cbn [world].
  destruct (API_KEY H (world m)) as [[ | k ks] | ]; try discriminate.
  rewrite G. unfold cloudIdentification.
  destruct r as [[[ | c t] | ] | e]; cbn [world trace emit setWorld];
    try destruct (JSON_parse (c :: t));
    eexists; (split; [reflexivity | ]); cbn [world trace emit setWorld failureLog];
    rewrite <- ?app_assoc; auto.
Qed.

(** X3. With an API key, [sendChatMessage] first builds the system
    instruction; when the context block cannot be built (a substitution
    of its template has no string) it throws that [TypeError] at once:
    the provider is not called and nothing is logged.  Otherwise it opens
    one chat session, seeded with the prior turns in their order (role and
    text of each), and sends the new message once.  A resolved send never
    yields an empty reply: a missing or empty text becomes the fixed
    fallback sentence.  A rejection is logged once and rethrown
    unchanged. *)
Theorem sendChatMessage_outcome (m : Machine) (h : list ChatMessage)
    (msg : jsstring) (ctx : option PlantInfo) :
  hasApiKey H (world m) = true ->
  (cloudChatRequest H h ctx = None ->
     sendChatMessage H h msg ctx m = (Throw TypeError, m))
  /\ (forall req c r w1 w2,
        cloudChatRequest H h ctx = Some req ->
        chats_create H req (world m) = (c, w1) ->
        chat_sendMessage H c msg w1 = (r, w2) ->
        exists m',
          sendChatMessage H h msg ctx m = (cloudChat r, m')
          /\ trace m' =
               trace m ++ EChatsCreate req
                       :: ESendMessage c msg
                       :: failureLog (str "Chat error:") (cloudChat r)
          /\ chatHistory req = map (fun t => (role t, text t)) h
          /\ (forall reply, cloudChat r = Return reply -> reply <> [])).
Proof.
  intros K.
  unfold hasApiKey in K.
  unfold sendChatMessage, getAiClient, cloudChatRequest.
  unfold bind, tryCatch, call, call_total, read, console, ret, throw. cbn [world].
  destruct (API_KEY H (world m)) as [[ | k ks] | ]; try discriminate.
  match goal with
  | |- context [evalTemplate ?o] => destruct o as [block | ]
  end; unfold evalTemplate, ret, throw.
  - split; [discriminate | ].
    intros req c r w1 w2 E CC SM. apply some_eq in E. subst req.
    rewrite CC. cbn [world trace emit setWorld]. rewrite SM.
    unfold cloudChat.
    destruct r as [[[ | x t] | ] | e]; cbn [world trace emit setWorld];
      eexists; (split; [reflexivity | ]); cbn [world trace emit setWorld failureLog];
      rewrite <- ?app_assoc; (split; [reflexivity | ]); (split; [reflexivity | ]);
      intros reply E; inversion E; subst; discriminate.
  - split; [reflexivity | discriminate].
Qed.

End CloudServices.

(* ===================================================================== *)
(** * Further properties: the local services *)
(* ===================================================================== *)

Section FenceFacts.

Lemma removeAll_from_fence (s : jsstring) :
  removeAll_from fence (backtick :: backtick :: backtick :: s) O =
  removeAll_from fence s O.
Proof. reflexivity. Qed.

Lemma removeAll_from_other (c : char) (s : jsstring) :
  startsWith fence (c :: s) = false ->
  removeAll_from fence (c :: s) O = c :: removeAll_from fence s O.
Proof. intros E. cbn [removeAll_from]. now rewrite E. Qed.

Lemma startsWith_fence_inv (s : jsstring) :
  startsWith fence s = true ->
  exists s', s = backtick :: backtick :: backtick :: s'.
Proof.
  unfold fence, backtick.
  destruct s as [ | a [ | b [ | c s]]]; cbn [startsWith]; intros E.
  - discriminate.
  - destruct (96 =? a); discriminate.
  - destruct (96 =? a), (96 =? b); discriminate.
  - destruct (96 =? a) eqn:A; [ | discriminate].
    destruct (96 =? b) eqn:B; [ | discriminate].
    destruct (96 =? c) eqn:C; [ | discriminate].
    apply N.eqb_eq in A, B, C. subst. eauto.
Qed.

(** The head of the output is the head of the input when the input does
    not open with a backtick. *)
Lemma removeAll_from_head (s : jsstring) :
  startsWith [backtick] s = false ->
  startsWith [backtick] (removeAll_from fence s O) = false.
Proof.
  destruct s as [ | x s]; [reflexivity | ].
  intros E. rewrite (removeAll_from_other x s).
  - exact E.
  - unfold fence, backtick in *. cbn [startsWith] in *.
    destruct (96 =? x); [discriminate | reflexivity].
Qed.

Lemma removeAll_from_head2 (s : jsstring) :
  startsWith [backtick; backtick] s = false ->
  startsWith [backtick; backtick] (removeAll_from fence s O) = false.
Proof.
  destruct s as [ | x s]; [reflexivity | ].
  intros E.
  assert (NF : startsWith fence (x :: s) = false).
  { unfold fence, backtick in *. cbn [startsWith] in *.
    destruct (96 =? x); [ | reflexivity].
    destruct s as [ | y s]; [reflexivity | ].
    destruct (96 =? y); [discriminate | reflexivity]. }
  rewrite (removeAll_from_other x s NF).
  pose proof (removeAll_from_head s) as Hd.
  unfold backtick in *. cbn [startsWith] in *.
  destruct (96 =? x); [ | reflexivity].
  destruct (removeAll_from fence s 0) as [ | z out]; [reflexivity | ].
  cbn [andb] in *. apply Hd.
  destruct s as [ | y s]; [reflexivity | ].
  destruct (96 =? y); [discriminate | reflexivity].
Qed.

Lemma removeAll_fence_bounded (n : nat) :
  forall s, (List.length s <= n)%nat ->
  includes fence (removeAll_from fence s O) = false.
Proof.
  induction n as [ | n IH]; intros s L.
  - destruct s; [reflexivity | simpl in L; lia].
  - destruct s as [ | c s]; [reflexivity | ].
    destruct (startsWith fence (c :: s)) eqn:E.
    + destruct (startsWith_fence_inv _ E) as (s' & Es).
      rewrite Es, removeAll_from_fence. apply IH.
      injection Es as -> ->. simpl in L. lia.
    + rewrite (removeAll_from_other c s E). cbn [includes].
      rewrite (IH s) by (simpl in L; lia). rewrite orb_false_r.
      pose proof (removeAll_from_head2 s) as H2.
      unfold fence, backtick in *. cbn [startsWith] in *.
      destruct (96 =? c); [ | reflexivity]. cbn [andb] in *.
      exact (H2 E).
Qed.

(** Deleting the fences leaves no fence behind. *)
Lemma removeAll_fence_clean (s : jsstring) :
  includes fence (removeAll fence s) = false.
Proof. exact (removeAll_fence_bounded (List.length s) s (le_n _)). Qed.

Lemma includes_trimStart (pat s : jsstring) :
  includes pat s = false -> includes pat (trimStart s) = false.
Proof.
  induction s as [ | c s IH]; intros I; [exact I | ].
  cbn [trimStart]. destruct (isWhiteSpace c); [ | exact I].
  apply IH. cbn [includes] in I. apply orb_false_iff in I. tauto.
Qed.

Lemma startsWith_prefix (pat a w : jsstring) :
  startsWith pat a = true -> startsWith pat (a ++ w) = true.
Proof.
  revert a; induction pat as [ | p pat IH]; intros [ | x a]; simpl; auto;
    try discriminate.
  rewrite !andb_true_iff. intros [E S]; auto.
Qed.

Lemma includes_prefix (pat a w : jsstring) :
  includes pat (a ++ w) = false -> includes pat a = false.
Proof.
  induction a as [ | x a IH]; intros I.
  - destruct pat; [ | reflexivity].
    destruct w; simpl in I; discriminate.
  - change ((x :: a) ++ w) with (x :: (a ++ w)) in I.
    cbn [includes] in *. apply orb_false_iff in I. destruct I as [S I].
    rewrite (IH I), orb_false_r.
    destruct (startsWith pat (x :: a)) eqn:E; [ | reflexivity].
    apply (startsWith_prefix _ _ w) in E.
    change ((x :: a) ++ w) with (x :: (a ++ w)) in E. congruence.
Qed.

Lemma includes_trim (pat s : jsstring) :
  includes pat s = false -> includes pat (trim s) = false.
Proof.
  intros I. unfold trim.
  destruct (trimEnd_split (trimStart s)) as (w & E & _).
  apply (includes_prefix pat _ w). rewrite <- E.
  now apply includes_trimStart.
Qed.

Lemma removeAll_from_absent (pat' s : jsstring) :
  includes fence s = false ->
  removeAll_from (fence ++ pat') s O = s.
Proof.
  induction s as [ | c s IH]; intros I; [reflexivity | ].
  cbn [includes] in I. apply orb_false_iff in I. destruct I as [S I].
  cbn [removeAll_from].
  destruct (startsWith (fence ++ pat') (c :: s)) eqn:E.
  - apply startsWith_app in E. congruence.
  - now rewrite (IH I).
Qed.

End FenceFacts.

Section LocalServices.

Context {World : Type}.
Variable H : Host World.

Lemma startsWith_self_app (p s : jsstring) : startsWith p (p ++ s) = true.
Proof. induction p as [ | c p IH]; simpl; [ | rewrite N.eqb_refl]; auto. Qed.

(** Without [careInstructions] the context block cannot be built,
    whatever the other fields are. *)
Lemma localContextBlock_lacksCare (ctx : PlantInfo) :
  lacksCare ctx = true -> localContextBlock H ctx = None.
Proof.
  intros L. unfold localContextBlock, andThen. unfold lacksCare in L.
  destruct (interpolate H (get ctx (str "commonName"))); [ | reflexivity].
  destruct (interpolate H (get ctx (str "scientificName"))); [ | reflexivity].
  destruct (interpolate H (get ctx (str "description"))); [ | reflexivity].
  destruct (get ctx (str "careInstructions")) as [[ | | | | | ] | ];
    try discriminate; reflexivity.
Qed.

(** X4. [createLocalSession] fails before it reaches the local model in
    two cases: [window.ai] is missing (the not-supported error), and the
    plant context is a record without [careInstructions] (a [TypeError]
    from reading [careInstructions.water]).  In both the machine is left
    as it was: no session is created. *)
Theorem createLocalSession_fails_early (m : Machine) (ctx : PlantInfo) :
  (window_ai H (world m) = NoAi ->
     forall context,
       createLocalSession H context m = (Throw localAiUnsupported, m))
  /\ (window_ai H (world m) = HasAi ->
      truthy H ctx = true ->
      lacksCare ctx = true ->
      createLocalSession H (Some ctx) m = (Throw TypeError, m)).
Proof.
  split.
  - intros G context. unfold createLocalSession, bind, read. cbn [world].
    rewrite G. reflexivity.
  - intros G T L. unfold createLocalSession, bind, read. cbn [world].
    rewrite G, T, (localContextBlock_lacksCare ctx L). reflexivity.
Qed.

(** X5. When [window.ai] exists and the context block can be built
    (every substitution of its template has a string and
    [careInstructions] is there), [createLocalSession] makes exactly one
    call, [create], and ends as it settled.  The system prompt of that
    call always opens with the FloraLens persona, and without a plant
    context it is the persona alone. *)
Theorem createLocalSession_prompt (m : Machine) (context : option PlantInfo) :
  window_ai H (world m) = HasAi ->
  (forall ctx, context = Some ctx -> truthy H ctx = true ->
     localContextBlock H ctx <> None) ->
  exists prompt m',
    trace m' = trace m ++ [ECreate prompt]
    /\ startsWith persona prompt = true
    /\ (context = None -> prompt = persona)
    /\ createLocalSession H context m =
         (match fst (languageModel_create H prompt (world m)) with
          | Ok s => Return s
          | Fail e => Throw e
          end, m').
Proof.
  intros G C. unfold createLocalSession, bind, read. cbn [world]. rewrite G.
  assert (B : exists block,
            match context with
            | Some ctx => if truthy H ctx then localContextBlock H ctx else Some []
            | None => Some []
            end = Some block
            /\ (context = None -> block = [])).
  { destruct context as [ctx | ]; [ | exists []; auto].
    destruct (truthy H ctx) eqn:T; [ | exists []; split; [auto | discriminate]].
    specialize (C ctx eq_refl T).
    destruct (localContextBlock H ctx) as [block | ]; [ | congruence].
    exists block. split; [reflexivity | discriminate]. }
  destruct B as (block & -> & N).
  unfold evalTemplate, ret, call. cbn [world].
  destruct (languageModel_create H (persona ++ block) (world m)) as [[s | e] w] eqn:E;
    exists (persona ++ block), (setWorld w (emit (ECreate (persona ++ block)) m));
    (split; [reflexivity | ]);
    (split; [apply startsWith_self_app | ]);
    (split; [intros Hc; rewrite (N Hc); apply app_nil_r | ]);
    rewrite E; reflexivity.
Qed.

(** X6. [identifyPlantLocal] acquires nothing when it cannot get a
    session: without [window.ai] it throws the local-AI-required error and
    touches nothing; when [create] rejects, the rejection reaches the
    caller unchanged (it is not wrapped), and no prompt is sent and nothing
    is destroyed. *)
Theorem identifyPlantLocal_without_session (m : Machine)
    (labels : list jsstring) :
  (window_ai H (world m) = NoAi ->
     identifyPlantLocal H labels m = (Throw localAiRequired, m))
  /\ (forall e w,
        window_ai H (world m) = HasAi ->
        languageModel_create H botanistPrompt (world m) = (Fail e, w) ->
        exists m',
          identifyPlantLocal H labels m = (Throw e, m')
          /\ trace m' =
               trace m ++ [ EConsole Log (str "Offline identified labels:");
                            ECreate botanistPrompt ]).
Proof.
  split.
  - intros G. unfold identifyPlantLocal, bind, read. cbn [world].
    rewrite G. reflexivity.
  - intros e w G C. unfold identifyPlantLocal, bind, read, console, call.
    cbn [world emit setWorld]. rewrite G. cbn [world emit setWorld]. rewrite C.
    eexists. split; [reflexivity | ]. cbn [trace emit setWorld].
    now rewrite <- app_assoc.
Qed.

(** X7. Whatever the local model answers, the text handed to
    [JSON.parse] holds no run of three backticks: the cleanup leaves no
    fence behind. *)
Theorem cleanResponse_leaves_no_fence (raw : jsstring) :
  includes fence (cleanResponse raw) = false.
Proof.
  unfold cleanResponse. apply includes_trim. apply removeAll_fence_clean.
Qed.

(** X8. When the local model follows the instruction and answers a bare
    JSON text (no fence, white space around it allowed), the cleanup only
    trims it and [identifyPlantLocal] returns the value the text parses
    to. *)
Theorem identifyPlantLocal_plain (m : Machine) (labels : list jsstring)
    (s : Session) (w1 w2 : World) (raw : jsstring) (v : json) :
  window_ai H (world m) = HasAi ->
  languageModel_create H botanistPrompt (world m) = (Ok s, w1) ->
  session_prompt H s (localPrompt (join (str ", ") labels)) w1 = (Ok raw, w2) ->
  includes fence raw = false ->
  JSON_parse raw = Some v ->
  cleanResponse raw = trim raw
  /\ exists m',
       identifyPlantLocal H labels m = (Return v, m')
       /\ trace m' = trace m ++ localTrace labels s.
Proof.
  intros G C P I J.
  assert (E : cleanResponse raw = trim raw).
  { unfold cleanResponse.
    change (removeAll (fence ++ str "json") raw)
      with (removeAll_from (fence ++ str "json") raw O).
    rewrite (removeAll_from_absent (str "json") raw I).
    change (removeAll fence raw) with (removeAll_from (fence ++ []) raw O).
    now rewrite (removeAll_from_absent [] raw I). }
  split; [exact E | ].
  destruct (identifyPlantLocal_run H labels m s w1 G C) as (m' & R & T & _).
  rewrite P in R, T. cbn [fst] in R, T.
  rewrite E, (JSON_parse_trim raw v J) in R, T.
  exists m'. rewrite app_nil_r in T. auto.
Qed.

End LocalServices.

(* ===================================================================== *)
(** * Further properties: the image classifier *)
(* ===================================================================== *)

Section MediaPipe.

Context {World : Type}.
Variable H : Host World.

(** X9. [initMediaPipe] never throws.  With a classifier already loaded
    it does nothing at all.  Otherwise it stores the classifier when both
    loading calls resolve, and when either rejects it logs the failure and
    leaves the classifier unset.  So the rejection handler that [App]
    attaches on mount never runs. *)
Theorem initMediaPipe_settles (m : Machine) :
  exists m',
    initMediaPipe H m = (Return tt, m')
    /\ mountEffect H m = (Return tt, m')
    /\ (imageClassifier m <> None -> m' = m)
    /\ (imageClassifier m = None ->
        imageClassifier m' = loadClassifier H (world m)
        /\ (loadClassifier H (world m) = None ->
            last (trace m') loadFailureLog = loadFailureLog
            /\ trace m' <> trace m)).
Proof.
  unfold mountEffect, initMediaPipe, loadClassifier.
  unfold tryCatch, bind, call, setImageClassifier, console, ret.
  destruct (imageClassifier m) as [c | ] eqn:IC.
  - exists m. split; [reflexivity | ]. split; [reflexivity | ].
    split; [reflexivity | discriminate].
  - cbn [world emit setWorld].
    assert (Tail : forall pre : list event,
              last (trace m ++ pre ++ [loadFailureLog]) loadFailureLog = loadFailureLog
              /\ trace m ++ pre ++ [loadFailureLog] <> trace m).
    { intros pre. split; [rewrite app_assoc; apply last_last | ].
      intros E.
      apply (f_equal (@List.length event)) in E.
      rewrite !length_app in E. simpl in E. lia. }
    destruct (FilesetResolver_forVisionTasks H wasmUrl (world m))
      as [[v | e] w]; cbn [world emit setWorld trace imageClassifier].
    + destruct (ImageClassifier_createFromOptions H v modelAssetPath 3 w)
        as [[c | e] w']; cbn [world emit setWorld trace imageClassifier];
        eexists; (split; [reflexivity | ]); (split; [reflexivity | ]);
        (split; [congruence | ]); intros _;
        cbn [world emit setWorld trace imageClassifier]; rewrite ?IC;
        (split; [reflexivity | ]); try discriminate.
      intros _. rewrite <- ?app_assoc.
      apply (Tail [EForVisionTasks wasmUrl; ECreateFromOptions modelAssetPath 3]).
    + eexists; (split; [reflexivity | ]); (split; [reflexivity | ]);
        (split; [congruence | ]); intros _;
        cbn [world emit setWorld trace imageClassifier]; rewrite ?IC;
        (split; [reflexivity | ]).
      intros _. rewrite <- ?app_assoc. apply (Tail [EForVisionTasks wasmUrl]).
Qed.

(** X10. [classifyImageOffline] refuses to run before the classifier is
    loaded: it throws the not-loaded error without calling anything.  With
    a classifier it makes one [classify] call and returns the category
    names of the first classification, in the classifier's order; further
    classifications are ignored, and no classification at all gives the
    empty list rather than an error.  A rejection of [classify] is passed
    on unchanged. *)
Theorem classifyImageOffline_outcome (m : Machine) (img : jsstring) :
  (imageClassifier m = None ->
     classifyImageOffline H img m = (Throw modelNotLoaded, m))
  /\ (forall c r w,
        imageClassifier m = Some c ->
        classifier_classify H c img (world m) = (r, w) ->
        exists m',
          classifyImageOffline H img m =
            (match r with
             | Ok (first :: _) => Return (map categoryName first)
             | Ok [] => Return []
             | Fail e => Throw e
             end, m')
          /\ trace m' = trace m ++ [EClassify c img]).
Proof.
  unfold classifyImageOffline, bind, call, ret, throw. split.
  - intros ->. reflexivity.
  - intros c r w -> C. rewrite C.
    destruct r as [[ | [ | cat cats] rest] | e]; eexists; split; reflexivity.
Qed.

End MediaPipe.

(* ===================================================================== *)
(** * Further properties: the chat component *)
(* ===================================================================== *)

Section Settles.

Context {World : Type}.
Variable H : Host World.

Lemma settles_ret {A} (a : A) : settles (@ret World A a).
Proof. intros m; discriminate. Qed.

Lemma settles_throw {A} (e : exn) : settles (@throw World A e).
Proof. intros m; discriminate. Qed.

Lemma settles_bind {A B} (c : @M World A) (k : A -> @M World B) :
  settles c -> (forall a, settles (k a)) -> settles (bind c k).
Proof.
  intros Sc Sk m. unfold bind. specialize (Sc m).
  destruct (c m) as [[a | e | ] m1]; simpl in *;
    [apply Sk | discriminate | congruence].
Qed.

Lemma settles_tryCatch {A} (c : @M World A) (h : exn -> @M World A) :
  settles c -> (forall e, settles (h e)) -> settles (tryCatch c h).
Proof.
  intros Sc Sh m. unfold tryCatch. specialize (Sc m).
  destruct (c m) as [[a | e | ] m1]; simpl in *;
    [discriminate | apply Sh | congruence].
Qed.

Lemma settles_call {A} (e : event) (op : World -> result A * World) :
  settles (call e op).
Proof.
  intros m. unfold call. destruct (op (world m)) as [[a | x] w]; discriminate.
Qed.

Lemma settles_call_total {A} (e : event) (op : World -> A * World) :
  settles (call_total e op).
Proof.
  intros m. unfold call_total. destruct (op (world m)) as [a w]; discriminate.
Qed.

Lemma settles_console (l : Level) (label : jsstring) :
  settles (@console World l label).
Proof. intros m; discriminate. Qed.

Lemma settles_destroy (s : Session) : settles (destroy H s).
Proof. intros m; discriminate. Qed.

Lemma settles_read {A} (g : World -> A) : settles (read g).
Proof. intros m; discriminate. Qed.

Lemma settles_JSON_parse (s : jsstring) : settles (@JSON_parse_ World s).
Proof.
  unfold JSON_parse_.
  destruct (JSON_parse s); [apply settles_ret | apply settles_throw].
Qed.

Lemma settles_evalTemplate (t : option jsstring) : settles (@evalTemplate World t).
Proof. destruct t; [apply settles_ret | apply settles_throw]. Qed.

End Settles.

Ltac settles_step :=
  match goal with
  | |- settles (bind _ _) => apply settles_bind; [ | intros ? ]
  | |- settles (tryCatch _ _) => apply settles_tryCatch; [ | intros ? ]
  | |- settles (call _ _) => apply settles_call
  | |- settles (call_total _ _) => apply settles_call_total
  | |- settles (console _ _) => apply settles_console
  | |- settles (destroy _ _) => apply settles_destroy
  | |- settles (read _) => apply settles_read
  | |- settles (JSON_parse_ _) => apply settles_JSON_parse
  | |- settles (evalTemplate _) => apply settles_evalTemplate
  | |- settles (ret _) => apply settles_ret
  | |- settles (throw _) => apply settles_throw
  | |- settles (match ?x with _ => _ end) => destruct x
  end.

Ltac settles_auto := repeat settles_step.

Ltac run_chat :=
  cbn [world trace imageClassifier app chat emit setWorld fst snd
       history input isLoading isLocalAI localSession].

Section ChatComponent.

Context {World : Type}.
Variable H : Host World.

Lemma includes_startsWith (pat s : jsstring) :
  startsWith pat s = true -> includes pat s = true.
Proof. intros E. destruct s; cbn [includes]; now rewrite E. Qed.

Lemma includes_middle (a n b : jsstring) : includes n (a ++ n ++ b) = true.
Proof.
  induction a as [ | c a IH].
  - apply includes_startsWith. exact (startsWith_self_app n b).
  - change ((c :: a) ++ n ++ b) with (c :: (a ++ n ++ b)).
    change (startsWith n (c :: (a ++ n ++ b)) || includes n (a ++ n ++ b) = true).
    rewrite IH. apply orb_true_r.
Qed.

Lemma settles_createLocalSession (context : option PlantInfo) :
  settles (createLocalSession H context).
Proof. unfold createLocalSession. settles_auto. Qed.

(** Runs [initChat] up to its outcome, whatever [createLocalSession]
    and the greeting do. *)
Ltac run_initChat m plantContext :=
  unfold initChat, checkLocalAICapability;
  unfold evalTemplate, bind, tryCatch, call, read, console, Date_now_, ret,
    throw, setIsLocalAI, setLocalSession, setHistory, modifyChat;
  run_chat;
  repeat match goal with
         | |- context [match window_ai H ?w with _ => _ end] =>
             destruct (window_ai H w); run_chat
         | |- context [languageModel_capabilities H ?w] =>
             destruct (languageModel_capabilities H w) as [[[ | | ] | ?] ?]; run_chat
         | |- context [match localSession (chat m) with _ => _ end] =>
             destruct (localSession (chat m)); run_chat
         | |- context [createLocalSession H plantContext ?mm] =>
             let K := fresh "K" in
             let S := fresh "S" in
             pose proof (createLocalSession_keeps_chat H plantContext mm) as K;
             pose proof (settles_createLocalSession plantContext mm) as S;
             destruct (createLocalSession H plantContext mm) as [[? | ? | ] ?];
             cbn [fst snd chat emit setWorld] in K, S;
             [ | | now contradiction S]; run_chat; rewrite ?K; run_chat
         | |- context [match history (chat m) with _ => _ end] =>
             destruct (history (chat m)); run_chat
         | |- context [match greeting H plantContext with _ => _ end] =>
             destruct (greeting H plantContext); run_chat
         | |- context [Date_now H ?w] =>
             destruct (Date_now H w); run_chat
         end.

Lemma initChat_greeting (plantContext : option PlantInfo) (m : Machine) :
  exists o m',
    initChat H plantContext m = (o, m')
    /\ (history (chat m) <> [] ->
        o = Return tt /\ history (chat m') = history (chat m))
    /\ (forall text,
          history (chat m) = [] ->
          greeting H plantContext = Some text ->
          o = Return tt
          /\ exists t, history (chat m') = [mkChatMessage model text t])
    /\ (history (chat m) = [] ->
        greeting H plantContext = None ->
        o = Throw TypeError /\ history (chat m') = []).
Proof.
  run_initChat m plantContext;
    eexists; eexists; (split; [reflexivity | ]); run_chat; rewrite ?K; run_chat;
    (split;
     [intros E; first [now contradiction E | split; reflexivity] | ]);
    (split;
     [ intros text E G;
       first [ discriminate E | discriminate G
             | apply some_eq in G; subst;
               split; [reflexivity | eexists; reflexivity] ]
     | intros E G;
       first [discriminate E | discriminate G | split; reflexivity] ]).
Qed.

(** X11. [initChat] greets once.  A history that already has turns is
    left as it is and the effect returns.  An empty history becomes
    exactly one assistant turn, the greeting, when the greeting can be
    built; when it cannot (the plant's [commonName] has no string) the
    effect throws that [TypeError] and the history stays empty.  For a
    plant whose common name is a string the greeting is built and quotes
    that name. *)
Theorem initChat_greets_once (plantContext : option PlantInfo) (m : Machine) :
  exists o m',
    initChat H plantContext m = (o, m')
    /\ (history (chat m) <> [] ->
        o = Return tt /\ history (chat m') = history (chat m))
    /\ (forall text,
          history (chat m) = [] ->
          greeting H plantContext = Some text ->
          o = Return tt
          /\ exists t, history (chat m') = [mkChatMessage model text t])
    /\ (history (chat m) = [] ->
        greeting H plantContext = None ->
        o = Throw TypeError /\ history (chat m') = [])
    /\ (forall ctx name,
          plantContext = Some ctx ->
          truthy H ctx = true ->
          get ctx (str "commonName") = Some (JString name) ->
          greeting H plantContext = Some (plantGreeting name)
          /\ includes name (plantGreeting name) = true).
Proof.
  destruct (initChat_greeting plantContext m) as (o & m' & I & A & B & C).
  exists o, m'. split; [exact I | ]. split; [exact A | ].
  split; [exact B | ]. split; [exact C | ].
  intros ctx name -> T N. unfold greeting. rewrite T, N.
  cbn [interpolate ToString andThen].
  split; [reflexivity | apply includes_middle].
Qed.

(** X12. A plant record without [careInstructions] switches the local
    chat off: with the local model ready and no session held, [initChat]
    fails to build the session prompt, logs it, and ends with the local-AI
    flag off and no session; [create] is never called.  The effect
    returns normally unless it has to greet (the history is empty) with a
    greeting that cannot be built. *)
Theorem initChat_incomplete_record (ctx : PlantInfo) (m : Machine) (w : World) :
  window_ai H (world m) = HasAi ->
  languageModel_capabilities H (world m) = (Ok readily, w) ->
  window_ai H w = HasAi ->
  localSession (chat m) = None ->
  truthy H ctx = true ->
  lacksCare ctx = true ->
  exists o m',
    initChat H (Some ctx) m = (o, m')
    /\ isLocalAI (chat m') = false
    /\ localSession (chat m') = None
    /\ trace m' =
         trace m ++ [ECapabilities; EConsole Err (str "Failed to init local session")]
    /\ (history (chat m) <> [] \/ greeting H (Some ctx) <> None -> o = Return tt).
Proof.
  intros G C G' S T L.
  unfold initChat, checkLocalAICapability, createLocalSession.
  unfold bind, tryCatch, call, read, console, Date_now_, ret, throw,
    setIsLocalAI, setLocalSession, setHistory, modifyChat.
  run_chat. rewrite G. run_chat. rewrite C. run_chat. rewrite S. run_chat.
  rewrite G'. run_chat.
  rewrite T, (localContextBlock_lacksCare H ctx L).
  unfold evalTemplate, throw, ret. run_chat.
  destruct (history (chat m)); run_chat;
    [destruct (greeting H (Some ctx)); run_chat;
     [destruct (Date_now H w); run_chat | ] | ];
    eexists; eexists; (split; [reflexivity | ]); run_chat;
    rewrite <- ?app_assoc;
    (split; [reflexivity | ]); (split; [reflexivity | ]);
    (split; [reflexivity | ]);
    intros [E | E]; first [reflexivity | now contradiction E].
Qed.

(** X13. [initChat] never replaces a session it holds: when the render
    already has a local session, no session is created, whatever the
    probe answers and whatever the new plant context is, and the session
    stays in the state.  The effect returns normally unless it has to
    greet (the history is empty) with a greeting that cannot be built. *)
Theorem initChat_keeps_session (plantContext : option PlantInfo) (m : Machine)
    (s : Session) :
  localSession (chat m) = Some s ->
  exists o m',
    initChat H plantContext m = (o, m')
    /\ localSession (chat m') = Some s
    /\ trace m' =
         trace m ++ match window_ai H (world m) with
                    | HasAi => [ECapabilities]
                    | _ => []
                    end
    /\ (history (chat m) <> [] \/ greeting H plantContext <> None -> o = Return tt).
Proof.
  intros S.
  unfold initChat, checkLocalAICapability.
  unfold evalTemplate, bind, tryCatch, call, read, console, Date_now_, ret,
    throw, setIsLocalAI, setLocalSession, setHistory, modifyChat.
  run_chat. rewrite S.
  destruct (window_ai H (world m)); run_chat;
    try (destruct (languageModel_capabilities H (world m)) as [[[ | | ] | ?] ?];
         run_chat);
    destruct (history (chat m)); run_chat;
    try (destruct (greeting H plantContext); run_chat);
    repeat match goal with
           | |- context [Date_now H ?w] => destruct (Date_now H w); run_chat
           end;
    eexists; eexists; (split; [reflexivity | ]); run_chat;
    rewrite ?app_nil_r;
    (split; [exact S | ]); (split; [reflexivity | ]);
    intros [E | E]; first [reflexivity | now contradiction E].
Qed.

Lemma sendChatMessage_settles (h : list ChatMessage) (msg : jsstring)
    (ctx : option PlantInfo) (m : Machine) :
  fst (sendChatMessage H h msg ctx m) <> Pending.
Proof.
  revert m. change (settles (sendChatMessage H h msg ctx)).
  unfold sendChatMessage, getAiClient. settles_auto.
Qed.

Lemma sendButtonDisabled_guards (online : bool) (s : ChatState) :
  sendButtonDisabled online s =
  (JsString.eqb (trim (input s)) [] || isLoading s)
  || (negb online && negb (isLocalAI s)).
Proof.
  unfold sendButtonDisabled, isInputDisabled.
  destruct (JsString.eqb (trim (input s)) []), (isLoading s), online,
    (isLocalAI s); reflexivity.
Qed.

Lemma settles_sendChatMessage (h : list ChatMessage) (msg : jsstring)
    (ctx : option PlantInfo) :
  settles (sendChatMessage H h msg ctx).
Proof. intros m. apply sendChatMessage_settles. Qed.

Lemma replyStrategy_settles (ctx : option PlantInfo) (online : bool) (s : ChatState) :
  settles (replyStrategy H ctx online s).
Proof.
  unfold replyStrategy.
  destruct (isLocalAI s); [destruct (localSession s) as [session | ] | ];
    try (destruct online; [apply settles_sendChatMessage | intros m; discriminate]).
  intros m. unfold tryCatch, call.
  destruct (session_prompt H session (input s) (world m)) as [[a | e] w];
    [discriminate | ].
  destruct online; [ | discriminate].
  unfold bind, console. apply sendChatMessage_settles.
Qed.

Lemma replyStrategy_keeps_chat (ctx : option PlantInfo) (online : bool)
    (s : ChatState) :
  keeps chat (replyStrategy H ctx online s).
Proof.
  unfold replyStrategy.
  destruct (isLocalAI s); [destruct (localSession s) as [session | ] | ];
    try (destruct online; [apply sendChatMessage_keeps_chat | apply keeps_ret]).
  apply keeps_tryCatch; [keeps_auto | ].
  intros e. destruct online; [ | apply keeps_ret].
  apply keeps_bind; [keeps_auto | intros; apply sendChatMessage_keeps_chat].
Qed.

(** Past its guards, [handleSend] is the strategy wrapped by
    [completeSend], run once the user turn is in place. *)
Lemma handleSend_accepted (ctx : option PlantInfo) (online : bool) (m : Machine)
    (t : N) (w0 : World) :
  JsString.eqb (trim (input (chat m))) [] || isLoading (chat m) = false ->
  negb online && negb (isLocalAI (chat m)) = false ->
  Date_now H (world m) = (t, w0) ->
  handleSend H ctx online m =
  completeSend H (replyStrategy H ctx online (chat m))
    (mkMachine w0 (trace m) (imageClassifier m) (app m)
       (mkChatState (history (chat m) ++ [mkChatMessage user (input (chat m)) t])
          [] true (isLocalAI (chat m)) (localSession (chat m)))).
Proof.
  intros D1 D2 D. unfold handleSend. rewrite D1, D2.
  unfold bind at 1. unfold Date_now_ at 1. rewrite D.
  reflexivity.
Qed.

(** Whatever strategy is wrapped, as long as it settles and leaves the
    chat state alone, [completeSend] returns normally with exactly one
    assistant turn appended and the loading flag off. *)
Lemma completeSend_appends_one (strategy : @M World jsstring) (m1 : Machine) :
  settles strategy ->
  keeps chat strategy ->
  exists m' t' reply,
    completeSend H strategy m1 = (Return tt, m')
    /\ chat m' =
         mkChatState (history (chat m1) ++ [mkChatMessage model reply t'])
           (input (chat m1)) false (isLocalAI (chat m1)) (localSession (chat m1)).
Proof.
  intros S K. specialize (S m1). specialize (K m1).
  unfold completeSend, tryFinally, tryCatch, bind, Date_now_, appendHistory,
    setIsLoading, modifyChat.
  destruct (strategy m1) as [[r | e | ] m2]; cbn [fst snd] in *;
    [ | | contradiction];
    destruct (Date_now H (world m2)) as [t' w']; run_chat; rewrite K;
    eexists; exists t'; eexists; (split; reflexivity).
Qed.

(** X14. [handleSend] accepts a send exactly when the send button is
    enabled.  With the button disabled (a send in flight, a blank input,
    or offline without local AI) it leaves the machine untouched.  With
    the button enabled, whatever the providers do, it returns normally and
    the chat state ends as the old one plus exactly two turns (the user's
    text, then one assistant turn), with the input cleared and the loading
    flag off. *)
Theorem handleSend_iff_button_enabled (plantContext : option PlantInfo)
    (online : bool) (m : Machine) :
  (sendButtonDisabled online (chat m) = true ->
     handleSend H plantContext online m = (Return tt, m))
  /\ (sendButtonDisabled online (chat m) = false ->
      exists m' t t' reply,
        handleSend H plantContext online m = (Return tt, m')
        /\ chat m' =
             afterSend (chat m) (mkChatMessage user (input (chat m)) t)
               (mkChatMessage model reply t')).
Proof.
  rewrite sendButtonDisabled_guards. split.
  - intros D. unfold handleSend.
    destruct (JsString.eqb (trim (input (chat m))) [] || isLoading (chat m));
      [reflexivity | ].
    cbn [orb] in D. now rewrite D.
  - intros D. apply orb_false_iff in D. destruct D as [D1 D2].
    destruct (Date_now H (world m)) as [t w0] eqn:D.
    rewrite (handleSend_accepted plantContext online m t w0 D1 D2 D).
    destruct (completeSend_appends_one
                (replyStrategy H plantContext online (chat m))
                (mkMachine w0 (trace m) (imageClassifier m) (app m)
                   (mkChatState
                      (history (chat m) ++ [mkChatMessage user (input (chat m)) t])
                      [] true (isLocalAI (chat m)) (localSession (chat m))))
                (replyStrategy_settles _ _ _) (replyStrategy_keeps_chat _ _ _))
      as (m' & t' & reply & E & C).
    exists m', t, t', reply. split; [exact E | ].
    rewrite C. run_chat. unfold afterSend. now rewrite <- app_assoc.
Qed.

Lemma sendChatMessage_emits (ok : event -> bool) (h : list ChatMessage)
    (msg : jsstring) (ctx : option PlantInfo) :
  (forall e, isCloud e = true -> ok e = true) ->
  (forall l s, ok (EConsole l s) = true) ->
  emits ok (sendChatMessage H h msg ctx).
Proof.
  intros OC OL. unfold sendChatMessage, getAiClient.
  apply emits_bind.
  - apply emits_bind; [apply emits_read | ].
    intros [[ | k ks] | ]; [apply emits_throw | apply emits_ret | apply emits_throw].
  - intros _. apply emits_bind; [apply emits_evalTemplate | ].
    intros block. apply emits_tryCatch.
    + apply emits_bind; [apply emits_call_total; apply OC; reflexivity | ].
      intros c. apply emits_bind; [apply emits_call; apply OC; reflexivity | ].
      intros r. apply emits_ret.
    + intros e. apply emits_bind; [apply emits_console; apply OL | ].
      intros _. apply emits_throw.
Qed.

(** X15. Sending never manages sessions: whatever the state and the
    providers, [handleSend] does not probe the local model, create a
    session or destroy one.  And while the device is offline it never
    calls the cloud provider. *)
Theorem handleSend_boundary (plantContext : option PlantInfo) (online : bool)
    (m : Machine) :
  exists added,
    trace (snd (handleSend H plantContext online m)) = trace m ++ added
    /\ countEvents isSessionLifecycle added = 0%nat
    /\ (online = false -> countEvents isCloud added = 0%nat).
Proof.
  set (ok := fun e => notSessionLifecycle e && (online || notCloud e)).
  assert (E : exists added,
            trace (snd (handleSend H plantContext online m)) = trace m ++ added
            /\ forallb ok added = true).
  { destruct (JsString.eqb (trim (input (chat m))) [] || isLoading (chat m)) eqn:D1;
      [exists []; unfold handleSend; rewrite D1, app_nil_r; auto | ].
    destruct (negb online && negb (isLocalAI (chat m))) eqn:D2;
      [exists []; unfold handleSend; rewrite D1, D2, app_nil_r; auto | ].
    destruct (Date_now H (world m)) as [t w0] eqn:D.
    rewrite (handleSend_accepted plantContext online m t w0 D1 D2 D).
    assert (Em : emits ok (completeSend H (replyStrategy H plantContext online (chat m)))).
    { unfold completeSend, replyStrategy, appendHistory, setIsLoading.
      assert (Quiet : forall e, notSessionLifecycle e = true ->
                notCloud e = true -> ok e = true).
      { intros e A B. unfold ok. rewrite A, B. apply orb_true_r. }
      assert (Cloud : emits ok
                (sendChatMessage H (history (chat m)) (input (chat m)) plantContext)
              \/ online = false).
      { destruct online eqn:On; [left | now right].
        apply sendChatMessage_emits; [ | reflexivity].
        intros e C. unfold ok, notSessionLifecycle. rewrite andb_true_r.
        destruct e; try discriminate C; reflexivity. }
      apply emits_tryFinally; [ | auto with emits].
      apply emits_tryCatch; [ | intros e; emits_auto].
      apply emits_bind; [ | intros r; emits_auto].
      destruct (isLocalAI (chat m)); [destruct (localSession (chat m)) | ].
      - apply emits_tryCatch; [apply emits_call; apply Quiet; reflexivity | ].
        intros e. destruct Cloud as [Ec | ->]; [ | apply emits_ret].
        destruct online; [ | apply emits_ret].
        apply emits_bind;
          [apply emits_console; apply Quiet; reflexivity | intros _; exact Ec].
      - destruct Cloud as [Ec | ->]; [ | apply emits_ret].
        destruct online; [exact Ec | apply emits_ret].
      - destruct Cloud as [Ec | ->]; [ | apply emits_ret].
        destruct online; [exact Ec | apply emits_ret]. }
    destruct (Em (mkMachine w0 (trace m) (imageClassifier m) (app m)
                    (mkChatState
                       (history (chat m) ++ [mkChatMessage user (input (chat m)) t])
                       [] true (isLocalAI (chat m)) (localSession (chat m)))))
      as (added & T & F).
    exists added. auto. }
  destruct E as (added & T & F). exists added. split; [exact T | ].
  rewrite forallb_forall in F. split.
  - apply countEvents_none. apply forallb_forall. intros e I.
    specialize (F e I). unfold ok in F. apply andb_true_iff in F. tauto.
  - intros ->. apply countEvents_none. apply forallb_forall. intros e I.
    specialize (F e I). unfold ok in F. apply andb_true_iff in F. tauto.
Qed.

(** X16. Offline, when the live local session's [prompt] rejects, the
    user is told to reconnect: the assistant turn is the fixed offline
    apology, the handler returns normally, and nothing but that one
    [prompt] crossed the boundary. *)
Theorem handleSend_local_failure_offline (plantContext : option PlantInfo)
    (m : Machine) (session : Session) (e : exn) (t t' : N) (w0 w1 w2 : World) :
  sendable (chat m) = true ->
  isLocalAI (chat m) = true ->
  localSession (chat m) = Some session ->
  Date_now H (world m) = (t, w0) ->
  session_prompt H session (input (chat m)) w0 = (Fail e, w1) ->
  Date_now H w1 = (t', w2) ->
  exists m',
    handleSend H plantContext false m = (Return tt, m')
    /\ trace m' = trace m ++ [EPrompt session (input (chat m))]
    /\ chat m' =
         afterSend (chat m) (mkChatMessage user (input (chat m)) t)
           (mkChatMessage model localFailedOffline t').
Proof.
  intros Hs Hl Hsess D0 P D1.
  unfold handleSend. rewrite (sendable_guard _ Hs), Hl, Hsess. run_handler.
  unfold bind, Date_now_, tryFinally, tryCatch, call, appendHistory, setInput,
    setIsLoading, modifyChat, ret.
  rewrite D0. run_handler. rewrite P. run_handler. rewrite D1. run_handler.
  eexists. split; [reflexivity | ]. run_handler. split; [reflexivity | ].
  unfold afterSend. rewrite Hl, Hsess, <- app_assoc. reflexivity.
Qed.

(** X17. Online and without a live local session (the local-AI flag is
    off, or no session is held), [handleSend] is step for step the
    [handleSend] of the cloud-only revision: same result, same final
    machine. *)
Theorem handleSend_extends_cloud_only (plantContext : option PlantInfo)
    (m : Machine) :
  isLocalAI (chat m) = false \/ localSession (chat m) = None ->
  handleSend H plantContext true m = handleSendCloudOnly H plantContext m.
Proof.
  intros N. unfold handleSend, handleSendCloudOnly.
  destruct (JsString.eqb (trim (input (chat m))) [] || isLoading (chat m));
    [reflexivity | ].
  cbn [negb andb].
  destruct N as [-> | ->]; [reflexivity | ].
  destruct (isLocalAI (chat m)); reflexivity.
Qed.

End ChatComponent.

(* ===================================================================== *)
(** * Further properties: the identification handler *)
(* ===================================================================== *)

Section AppComponent.

Context {World : Type}.
Variable H : Host World.

Lemma settles_identifyPlant (data : option jsstring) (mime : jsstring) :
  settles (identifyPlant H data mime).
Proof. unfold identifyPlant, getAiClient. settles_auto. Qed.

Lemma settles_identifyPlantLocal (labels : list jsstring) :
  settles (identifyPlantLocal H labels).
Proof. unfold identifyPlantLocal. settles_auto. Qed.

Lemma settles_classifyImageOffline (img : jsstring) :
  settles (classifyImageOffline H img).
Proof.
  unfold classifyImageOffline.
  apply settles_bind; [intros m; discriminate | ].
  intros [c | ]; settles_auto.
Qed.

(** How the online branch leaves the state of [App]. *)
Lemma analyzeOnline_ends (pf : File) (m : Machine) :
  match analyzeOnline H pf m with
  | (Return _, m') =>
      exists d, app m' =
        mkAppState (view (app m)) (nullable d) (selectedImage (app m))
          (isAnalyzing (app m)) (error (app m)) (isOnline (app m))
          (isOfflineAnalysis (app m))
  | (Throw _, m') => app m' = app m
  | (Pending, _) => False
  end.
Proof.
  unfold analyzeOnline. unfold bind at 1. unfold call.
  destruct (FileReader_readAsDataURL H pf (world m)) as [[dataUrl | e] w1];
    [ | reflexivity].
  unfold bind.
  match goal with
  | |- context [identifyPlant H ?b ?t ?mm] =>
      pose proof (identifyPlant_keeps_app H b t mm) as K;
      pose proof (settles_identifyPlant b t mm) as S;
      destruct (identifyPlant H b t mm) as [[d | e | ] m2]
  end; cbn [fst snd app emit setWorld] in *.
  - unfold setPlantData, modifyApp. run_app. rewrite K. exists d. reflexivity.
  - exact K.
  - now apply S.
Qed.

(** How the offline branch leaves the state of [App]: it can be left
    waiting only for the image to load. *)
Lemma analyzeOffline_ends (url : jsstring) (m : Machine) :
  match analyzeOffline H url m with
  | (Return _, m') =>
      exists d, app m' =
        mkAppState (view (app m)) (nullable d) (selectedImage (app m))
          (isAnalyzing (app m)) (error (app m)) (isOnline (app m)) true
  | (Throw _, m') | (Pending, m') =>
      app m' =
        mkAppState (view (app m)) (plantData (app m)) (selectedImage (app m))
          (isAnalyzing (app m)) (error (app m)) (isOnline (app m)) true
  end.
Proof.
  unfold analyzeOffline, awaitImageLoad.
  unfold bind at 1 2 3. unfold setIsOfflineAnalysis, modifyApp, call_total, ret.
  run_app.
  destruct (Image_onload H url (world m)) as [[ | ] w1]; run_app;
    [ | reflexivity].
  unfold bind at 1.
  match goal with
  | |- context [classifyImageOffline H ?i ?mm] =>
      pose proof (classifyImageOffline_keeps_app H i mm) as K;
      pose proof (settles_classifyImageOffline i mm) as S;
      destruct (classifyImageOffline H i mm) as [[labels | e | ] m2]
  end; cbn [fst snd app emit setWorld] in *; [ | exact K | now destruct S].
  destruct labels as [ | l ls]; [exact K | ].
  unfold bind.
  match goal with
  | |- context [identifyPlantLocal H ?i ?mm] =>
      pose proof (identifyPlantLocal_keeps_app H i mm) as K';
      pose proof (settles_identifyPlantLocal i mm) as S';
      destruct (identifyPlantLocal H i mm) as [[d | e | ] m3]
  end; cbn [fst snd app emit setWorld] in *.
  - unfold setPlantData, modifyApp. run_app. rewrite K', K. run_app.
    exists d. reflexivity.
  - now rewrite K', K.
  - now destruct S'.
Qed.

Ltac ends_simpl E :=
  run_app;
  cbn [world trace imageClassifier app chat emit setWorld fst snd
       view plantData selectedImage isAnalyzing error isOnline
       isOfflineAnalysis] in E.

Ltac analysis_ends :=
  let E := fresh "E" in
  match goal with
  | |- context [analyzeOnline H ?pf ?mm] =>
      pose proof (analyzeOnline_ends pf mm) as E;
      destruct (analyzeOnline H pf mm) as [[[] | ? | ] ?]
  | |- context [analyzeOffline H ?url ?mm] =>
      pose proof (analyzeOffline_ends url mm) as E;
      destruct (analyzeOffline H url mm) as [[[] | ? | ] ?]
  end;
  ends_simpl E;
  [destruct E as (? & E) | | ]; try contradiction; rewrite ?E; run_app;
  repeat split; try reflexivity; try discriminate; try congruence.

(** X18. An identification request never throws.  When it returns,
    the analysing flag is cleared and the plant record and the error
    message are never both set.  While it is left waiting, the analysing
    flag stays set. *)
Theorem handleFileSelect_completes (file : File) (m : Machine) :
  match handleFileSelect H (Some file) m with
  | (Return _, m') =>
      isAnalyzing (app m') = false
      /\ (plantData (app m') <> None -> error (app m') = None)
      /\ (error (app m') <> None -> plantData (app m') = None)
  | (Throw _, _) => False
  | (Pending, m') => isAnalyzing (app m') = true
  end.
Proof.
  unfold handleFileSelect, convertHeic.
  unfold bind, tryFinally, tryCatch, call, call_total, console, ret,
    setError, setPlantData, setSelectedImage, setIsAnalyzing,
    setIsOfflineAnalysis, modifyApp.
  run_app.
  destruct (isHeic H file); run_app.
  - destruct (heic2any H file (world m)) as [[out | e] w]; run_app.
    + destruct (URL_createObjectURL H _ w) as [url w2]. run_app.
      destruct (isOnline (app m)); analysis_ends.
    + repeat split; try reflexivity; try discriminate; try congruence.
  - destruct (URL_createObjectURL H file (world m)) as [url w2]. run_app.
    destruct (isOnline (app m)); analysis_ends.
Qed.

(** X19. When the HEIC conversion fails the request ends there: the
    handler returns with the conversion message as the error, the
    analysing flag cleared, and no image, no record selected; the file is
    never given an object URL and no backend is called. *)
Theorem handleFileSelect_heic_failure (file : File) (m : Machine) (e : exn)
    (w : World) :
  isHeic H file = true ->
  heic2any H file (world m) = (Fail e, w) ->
  exists m',
    handleFileSelect H (Some file) m = (Return tt, m')
    /\ trace m' =
         trace m ++ [EHeic2any file; EConsole Err (str "HEIC conversion error:")]
    /\ app m' =
         mkAppState (view (app m)) None None false
           (Some (str "Could not process HEIC image. Please try a JPEG or PNG."))
           (isOnline (app m)) false.
Proof.
  intros Heic Cv.
  unfold handleFileSelect, convertHeic.
  unfold bind, tryFinally, tryCatch, call, call_total, console, ret,
    setError, setPlantData, setSelectedImage, setIsAnalyzing,
    setIsOfflineAnalysis, modifyApp.
  run_app. rewrite Heic. run_app. rewrite Cv. run_app.
  eexists. split; [reflexivity | ]. run_app.
  rewrite <- ?app_assoc. split; reflexivity.
Qed.

(** X20. Offline, an image that never fires its load event leaves the
    request waiting for ever: the handler neither returns nor throws,
    the analysing flag stays set with no record and no error, and no
    on-device backend is called. *)
Theorem handleFileSelect_image_never_loads (file pf : File) (m : Machine)
    (w1 w2 w3 : World) (url : jsstring) :
  isOnline (app m) = false ->
  conversion H file (world m) = Some (pf, w1) ->
  URL_createObjectURL H pf w1 = (url, w2) ->
  Image_onload H url w2 = (false, w3) ->
  exists m' added,
    handleFileSelect H (Some file) m = (Pending, m')
    /\ trace m' = trace m ++ added
    /\ countEvents isOfflineBackend added = 0%nat
    /\ app m' =
         mkAppState (view (app m)) None (Some url) true None false true.
Proof.
  intros Off Cv U L.
  unfold handleFileSelect. rewrite Off.
  unfold analyzeOffline, awaitImageLoad, classifyImageOffline, convertHeic.
  unfold bind, tryFinally, tryCatch, call, call_total, read, console, ret, throw,
    setError, setPlantData, setSelectedImage, setIsAnalyzing,
    setIsOfflineAnalysis, modifyApp.
  run_app. unfold conversion in Cv.
  destruct (isHeic H file); run_app.
  - destruct (heic2any H file (world m)) as [[out | e] w]; [ | discriminate].
    injection Cv as <- <-. run_app. rewrite U. run_app. rewrite L. run_app.
    eexists; eexists. split; [reflexivity | ]. run_app. rewrite Off.
    rewrite <- ?app_assoc. repeat split; reflexivity.
  - injection Cv as <- <-. run_app. rewrite U. run_app. rewrite L. run_app.
    eexists; eexists. split; [reflexivity | ]. run_app. rewrite Off.
    rewrite <- ?app_assoc. repeat split; reflexivity.
Qed.

(** X21. Offline, before the classifier is loaded, a request whose image
    loads ends with the offline failure message: nothing is classified,
    the local language model is not called, and no record is stored. *)
Theorem handleFileSelect_classifier_not_loaded (file pf : File) (m : Machine)
    (w1 w2 w3 : World) (url : jsstring) :
  isOnline (app m) = false ->
  conversion H file (world m) = Some (pf, w1) ->
  URL_createObjectURL H pf w1 = (url, w2) ->
  Image_onload H url w2 = (true, w3) ->
  imageClassifier m = None ->
  exists m' added,
    handleFileSelect H (Some file) m = (Return tt, m')
    /\ trace m' = trace m ++ added
    /\ countEvents isOfflineBackend added = 0%nat
    /\ app m' =
         mkAppState (view (app m)) None (Some url) false
           (Some (str "Offline identification failed. Try a clearer photo or reconnect to internet."))
           false true.
Proof.
  intros Off Cv U L IC.
  unfold handleFileSelect. rewrite Off.
  unfold analyzeOffline, awaitImageLoad, classifyImageOffline, convertHeic.
  unfold bind, tryFinally, tryCatch, call, call_total, read, console, ret, throw,
    setError, setPlantData, setSelectedImage, setIsAnalyzing,
    setIsOfflineAnalysis, modifyApp.
  run_app. unfold conversion in Cv.
  destruct (isHeic H file); run_app.
  - destruct (heic2any H file (world m)) as [[out | e] w]; [ | discriminate].
    injection Cv as <- <-. run_app. rewrite U. run_app. rewrite L. run_app.
    rewrite IC. run_app.
    eexists; eexists. split; [reflexivity | ]. run_app. rewrite Off.
    rewrite <- ?app_assoc. repeat split; reflexivity.
  - injection Cv as <- <-. run_app. rewrite U. run_app. rewrite L. run_app.
    rewrite IC. run_app.
    eexists; eexists. split; [reflexivity | ]. run_app. rewrite Off.
    rewrite <- ?app_assoc. repeat split; reflexivity.
Qed.

(** X22. While the device is online and the offline-analysis flag is
    clear, [handleFileSelect] is step for step the [handleFileSelect] of
    the cloud-only revision: same result, same final machine. *)
Theorem handleFileSelect_extends_cloud_only (file : option File) (m : Machine) :
  isOnline (app m) = true ->
  isOfflineAnalysis (app m) = false ->
  handleFileSelect H file m = handleFileSelectCloudOnly H file m.
Proof.
  intros On Flag. unfold handleFileSelect, handleFileSelectCloudOnly.
  rewrite On. destruct file as [file | ]; [ | reflexivity].
  destruct m as [w tr ic a ch]. destruct a as [v pd si an er on oa].
  cbn in On, Flag. subst on oa.
  reflexivity.
Qed.

(** X24. A provider that answers the JSON text [null] leaves the
    request with nothing to show: online, with the file prepared and read
    and the API key set, the handler returns with the analysing flag
    cleared, no plant record and no error message. *)
Theorem handleFileSelect_null_answer (file pf : File) (m : Machine)
    (w1 w2 w3 w4 : World) (url dataUrl answer : jsstring) :
  isOnline (app m) = true ->
  conversion H file (world m) = Some (pf, w1) ->
  URL_createObjectURL H pf w1 = (url, w2) ->
  FileReader_readAsDataURL H pf w2 = (Ok dataUrl, w3) ->
  hasApiKey H w3 = true ->
  models_generateContent H
    (identifyRequest (nth_error (split 44 dataUrl) 1) (fileType pf)) w3
    = (Ok (Some answer), w4) ->
  JSON_parse answer = Some JNull ->
  exists m',
    handleFileSelect H (Some file) m = (Return tt, m')
    /\ app m' = mkAppState (view (app m)) None (Some url) false None true false.
Proof.
  intros On Cv U R K G P.
  assert (A : answer <> []) by (intros ->; discriminate P).
  unfold handleFileSelect. rewrite On.
  unfold analyzeOnline, identifyPlant, getAiClient, convertHeic, JSON_parse_.
  unfold bind, tryFinally, tryCatch, call, call_total, read, console, ret, throw,
    setError, setPlantData, setSelectedImage, setIsAnalyzing,
    setIsOfflineAnalysis, modifyApp, JSON_parse_.
  run_app. unfold conversion in Cv. unfold hasApiKey in K.
  destruct (isHeic H file); run_app.
  - destruct (heic2any H file (world m)) as [[out | e] w]; [ | discriminate].
    injection Cv as <- <-. run_app. rewrite U. run_app. rewrite R. run_app.
    destruct (API_KEY H w3) as [[ | k ks] | ]; try discriminate. run_app.
    rewrite G. run_app. destruct answer as [ | c0 t0]; [congruence | ].
    rewrite P. run_app. eexists. split; [reflexivity | ].
    run_app. rewrite On. reflexivity.
  - injection Cv as <- <-. run_app. rewrite U. run_app. rewrite R. run_app.
    destruct (API_KEY H w3) as [[ | k ks] | ]; try discriminate. run_app.
    rewrite G. run_app. destruct answer as [ | c0 t0]; [congruence | ].
    rewrite P. run_app. eexists. split; [reflexivity | ].
    run_app. rewrite On. reflexivity.
Qed.

Lemma eqb_same (a : jsstring) : JsString.eqb a a = true.
Proof.
  induction a as [ | c a IH]; [reflexivity | ].
  cbn [JsString.eqb]. now rewrite N.eqb_refl, IH.
Qed.

(** X23. Renaming a converted file: a name that ends in [.heic], in
    any mix of upper and lower case, has exactly that suffix replaced by
    [.jpg]; what precedes the suffix is kept as it is. *)
Theorem replaceHeicSuffix_suffix (stem ext : jsstring) :
  map asciiLower ext = str ".heic" ->
  replaceHeicSuffix (stem ++ ext) = stem ++ str ".jpg".
Proof.
  intros E. unfold replaceHeicSuffix.
  assert (L : List.length ext = 5%nat).
  { apply (f_equal (@List.length N)) in E. now rewrite length_map in E. }
  rewrite length_app, L, Nat.add_sub.
  rewrite skipn_app, firstn_app, Nat.sub_diag, skipn_all, firstn_all.
  cbn [skipn firstn]. rewrite app_nil_l, app_nil_r, E.
  now rewrite eqb_same.
Qed.

End AppComponent.

(* ===================================================================== *)
(** * Runs of the further properties *)
(* ===================================================================== *)

Lemma cloud_services_need_api_key_witness :
  identifyPlant Scenario.noKeyHost Demo.photoData (str "image/png") Demo.onlineIdle
    = (Throw missingApiKey, Demo.onlineIdle)
  /\ sendChatMessage Scenario.noKeyHost [] Demo.question None Demo.onlineIdle
     = (Throw missingApiKey, Demo.onlineIdle).
Proof.
  apply (cloud_services_need_api_key Scenario.noKeyHost). reflexivity.
Defined.

Lemma identifyPlant_outcome_witness :
  exists m',
    identifyPlant Demo.readyHost Demo.photoData (str "image/png") Demo.onlineIdle
      = (Return Demo.roseRecord, m')
    /\ trace m' =
         [EGenerateContent (identifyRequest Demo.photoData (str "image/png"))]
    /\ world m' = 100.
Proof.
  destruct (identifyPlant_outcome Demo.readyHost Demo.onlineIdle Demo.photoData
              (str "image/png") (Ok (Some Demo.roseJson)) 100 eq_refl eq_refl)
    as (m' & I & T & W).
  exists m'. split; [ | split; [exact T | exact W]].
  rewrite I. vm_compute. reflexivity.
Defined.

Lemma sendChatMessage_outcome_witness :
  sendChatMessage Demo.readyHost [] Demo.question (Some Scenario.shadowedRecord)
    Demo.onlineIdle = (Throw TypeError, Demo.onlineIdle)
  /\ exists m',
       sendChatMessage Demo.readyHost (history (chat Demo.onlineIdle))
         Demo.question None Demo.onlineIdle
         = (Return (str "About once a week."), m')
       /\ trace m' =
            [ EChatsCreate
                (mkChatRequest MODEL_NAME persona
                   (map (fun msg => (role msg, text msg))
                      (history (chat Demo.onlineIdle))));
              ESendMessage 1%nat Demo.question ].
Proof.
  split.
  - apply (proj1 (sendChatMessage_outcome Demo.readyHost Demo.onlineIdle []
                    Demo.question (Some Scenario.shadowedRecord) eq_refl)).
    reflexivity.
  - destruct (proj2 (sendChatMessage_outcome Demo.readyHost Demo.onlineIdle
                       (history (chat Demo.onlineIdle)) Demo.question None eq_refl)
                (mkChatRequest MODEL_NAME persona
                   (map (fun msg => (role msg, text msg))
                      (history (chat Demo.onlineIdle))))
                1%nat (Ok (Some (str "About once a week."))) 100 100
                eq_refl eq_refl eq_refl)
      as (m' & I & T & _).
    exists m'. split; [exact I | exact T].
Defined.

Lemma createLocalSession_fails_early_witness :
  (forall context,
     createLocalSession Scenario.noAiHost context Demo.onlineIdle
       = (Throw localAiUnsupported, Demo.onlineIdle))
  /\ createLocalSession Demo.readyHost (Some Scenario.bareRecord) Demo.onlineIdle
     = (Throw TypeError, Demo.onlineIdle).
Proof.
  split.
  - apply (proj1 (createLocalSession_fails_early Scenario.noAiHost Demo.onlineIdle
                    Scenario.bareRecord)).
    reflexivity.
  - apply (proj2 (createLocalSession_fails_early Demo.readyHost Demo.onlineIdle
                    Scenario.bareRecord)); reflexivity.
Defined.

Lemma createLocalSession_prompt_witness :
  exists prompt m',
    trace m' = [ECreate prompt]
    /\ startsWith persona prompt = true
    /\ createLocalSession Demo.readyHost (Some Demo.roseRecord) Demo.onlineIdle
         = (Return 7%nat, m').
Proof.
  destruct (createLocalSession_prompt Demo.readyHost Demo.onlineIdle
              (Some Demo.roseRecord) eq_refl) as (prompt & m' & T & P & _ & C).
  - intros ctx E _. apply some_eq in E. subst ctx. vm_compute. discriminate.
  - exists prompt, m'. split; [exact T | ]. split; [exact P | exact C].
Defined.

Lemma identifyPlantLocal_without_session_witness :
  identifyPlantLocal Scenario.noAiHost roseLabels Demo.offlineIdle
    = (Throw localAiRequired, Demo.offlineIdle)
  /\ exists m',
       identifyPlantLocal Scenario.createFailsHost roseLabels Demo.offlineIdle
         = (Throw (Rejected 2), m')
       /\ trace m' = [ EConsole Log (str "Offline identified labels:");
                       ECreate botanistPrompt ].
Proof.
  split.
  - apply (proj1 (identifyPlantLocal_without_session Scenario.noAiHost
                    Demo.offlineIdle roseLabels)).
    reflexivity.
  - apply (proj2 (identifyPlantLocal_without_session Scenario.createFailsHost
                    Demo.offlineIdle roseLabels) (Rejected 2) 100);
      reflexivity.
Defined.

Lemma identifyPlantLocal_plain_witness :
  cleanResponse Demo.roseJson = trim Demo.roseJson
  /\ exists m',
       identifyPlantLocal Demo.plainJsonHost roseLabels Demo.offlineIdle
         = (Return Demo.roseRecord, m')
       /\ trace m' = localTrace roseLabels 7%nat.
Proof.
  apply (identifyPlantLocal_plain Demo.plainJsonHost Demo.offlineIdle roseLabels
           7%nat 100 100 Demo.roseJson Demo.roseRecord);
    vm_compute; reflexivity.
Defined.

Lemma initMediaPipe_settles_witness :
  exists m',
    initMediaPipe Demo.readyHost Scenario.coldStart = (Return tt, m')
    /\ mountEffect Demo.readyHost Scenario.coldStart = (Return tt, m')
    /\ imageClassifier m' = Some 2%nat.
Proof.
  destruct (initMediaPipe_settles Demo.readyHost Scenario.coldStart)
    as (m' & I & E & _ & L).
  exists m'. split; [exact I | ]. split; [exact E | ].
  exact (proj1 (L eq_refl)).
Defined.

Lemma classifyImageOffline_outcome_witness :
  classifyImageOffline Demo.readyHost Demo.photoUrl Scenario.coldStart
    = (Throw modelNotLoaded, Scenario.coldStart)
  /\ exists m',
       classifyImageOffline Demo.readyHost Demo.photoUrl Demo.offlineIdle
         = (Return roseLabels, m')
       /\ trace m' = [EClassify 2%nat Demo.photoUrl].
Proof.
  split.
  - apply (proj1 (classifyImageOffline_outcome Demo.readyHost Scenario.coldStart
                    Demo.photoUrl)).
    reflexivity.
  - apply (proj2 (classifyImageOffline_outcome Demo.readyHost Demo.offlineIdle
                    Demo.photoUrl) 2%nat (Ok Demo.roseCategories) 100);
      reflexivity.
Defined.

Lemma initChat_greets_once_witness :
  (exists m' t,
     initChat Demo.readyHost (Some Demo.roseRecord) Scenario.freshChat
       = (Return tt, m')
     /\ history (chat m') =
          [mkChatMessage model (plantGreeting (str "Rose")) t])
  /\ (exists m',
        initChat Demo.readyHost (Some Scenario.shadowedRecord) Scenario.freshChat
          = (Throw TypeError, m')
        /\ history (chat m') = []).
Proof.
  split.
  - destruct (initChat_greets_once Demo.readyHost (Some Demo.roseRecord)
                Scenario.freshChat) as (o & m' & I & _ & B & _ & G).
    destruct (G Demo.roseRecord (str "Rose") eq_refl eq_refl eq_refl) as [G1 _].
    destruct (B (plantGreeting (str "Rose")) eq_refl G1) as (O & t & Ht).
    exists m', t. rewrite I, O, Ht. split; reflexivity.
  - destruct (initChat_greets_once Demo.readyHost (Some Scenario.shadowedRecord)
                Scenario.freshChat) as (o & m' & I & _ & _ & C & _).
    destruct (C eq_refl eq_refl) as (O & Hh).
    exists m'. rewrite I, O, Hh. split; reflexivity.
Defined.

Lemma initChat_incomplete_record_witness :
  exists m',
    initChat Demo.readyHost (Some Scenario.bareRecord) Demo.onlineIdle
      = (Return tt, m')
    /\ isLocalAI (chat m') = false
    /\ localSession (chat m') = None
    /\ trace m' =
         [ECapabilities; EConsole Err (str "Failed to init local session")].
Proof.
  destruct (initChat_incomplete_record Demo.readyHost Scenario.bareRecord
              Demo.onlineIdle 100 eq_refl eq_refl eq_refl eq_refl eq_refl eq_refl)
    as (o & m' & I & A & B & T & O).
  exists m'. rewrite I, O; [ | left; discriminate].
  split; [reflexivity | ]. split; [exact A | ]. split; [exact B | exact T].
Defined.

Lemma initChat_keeps_session_witness :
  exists m',
    initChat Demo.readyHost None Demo.onlineLocal = (Return tt, m')
    /\ localSession (chat m') = Some 7%nat
    /\ trace m' = [ECapabilities].
Proof.
  destruct (initChat_keeps_session Demo.readyHost None Demo.onlineLocal 7%nat
              eq_refl) as (o & m' & I & A & T & O).
  exists m'. rewrite I, O; [ | left; discriminate].
  split; [reflexivity | ]. split; [exact A | exact T].
Defined.

Lemma handleSend_iff_button_enabled_witness :
  handleSend Demo.readyHost None false Demo.offlineNoLocal
    = (Return tt, Demo.offlineNoLocal)
  /\ exists m' t t' reply,
       handleSend Demo.readyHost None true Demo.onlineIdle = (Return tt, m')
       /\ chat m' =
            afterSend (chat Demo.onlineIdle)
              (mkChatMessage user Demo.question t)
              (mkChatMessage model reply t').
Proof.
  split.
  - apply (proj1 (handleSend_iff_button_enabled Demo.readyHost None false
                    Demo.offlineNoLocal)).
    reflexivity.
  - apply (proj2 (handleSend_iff_button_enabled Demo.readyHost None true
                    Demo.onlineIdle)).
    reflexivity.
Defined.

Lemma handleSend_boundary_witness :
  exists added,
    trace (snd (handleSend Demo.failingLocalHost None false Scenario.offlineLocal))
      = added
    /\ countEvents isSessionLifecycle added = 0%nat
    /\ countEvents isCloud added = 0%nat.
Proof.
  destruct (handleSend_boundary Demo.failingLocalHost None false
              Scenario.offlineLocal) as (added & T & S & C).
  exists added. split; [exact T | ]. split; [exact S | exact (C eq_refl)].
Defined.

Lemma handleSend_local_failure_offline_witness :
  exists m',
    handleSend Demo.failingLocalHost None false Scenario.offlineLocal
      = (Return tt, m')
    /\ trace m' = [EPrompt 7%nat Demo.question]
    /\ chat m' =
         afterSend (chat Scenario.offlineLocal)
           (mkChatMessage user Demo.question 100)
           (mkChatMessage model localFailedOffline 101).
Proof.
  apply (handleSend_local_failure_offline Demo.failingLocalHost None
           Scenario.offlineLocal 7%nat (Rejected 1) 100 101 101 101 102);
    reflexivity.
Defined.

Lemma handleSend_extends_cloud_only_witness :
  handleSend Demo.readyHost None true Demo.onlineIdle
  = handleSendCloudOnly Demo.readyHost None Demo.onlineIdle.
Proof.
  apply (handleSend_extends_cloud_only Demo.readyHost None Demo.onlineIdle).
  left. reflexivity.
Defined.

Lemma handleFileSelect_heic_failure_witness :
  exists m',
    handleFileSelect Scenario.brokenConverterHost (Some Scenario.heicPhoto)
      Demo.onlineIdle = (Return tt, m')
    /\ trace m' =
         [EHeic2any Scenario.heicPhoto; EConsole Err (str "HEIC conversion error:")]
    /\ app m' =
         mkAppState ANALYZE None None false
           (Some (str "Could not process HEIC image. Please try a JPEG or PNG."))
           true false.
Proof.
  apply (handleFileSelect_heic_failure Scenario.brokenConverterHost
           Scenario.heicPhoto Demo.onlineIdle (Rejected 3) 100);
    vm_compute; reflexivity.
Defined.

Lemma handleFileSelect_image_never_loads_witness :
  exists m' added,
    handleFileSelect Scenario.neverLoadsHost (Some Demo.photo) Demo.offlineIdle
      = (Pending, m')
    /\ trace m' = added
    /\ countEvents isOfflineBackend added = 0%nat
    /\ app m' = mkAppState ANALYZE None (Some Demo.photoUrl) true None false true.
Proof.
  apply (handleFileSelect_image_never_loads Scenario.neverLoadsHost Demo.photo
           Demo.photo Demo.offlineIdle 100 100 100 Demo.photoUrl);
    vm_compute; reflexivity.
Defined.

Lemma handleFileSelect_classifier_not_loaded_witness :
  exists m' added,
    handleFileSelect Demo.readyHost (Some Demo.photo) Scenario.coldStart
      = (Return tt, m')
    /\ trace m' = added
    /\ countEvents isOfflineBackend added = 0%nat
    /\ app m' =
         mkAppState ANALYZE None (Some Demo.photoUrl) false
           (Some (str "Offline identification failed. Try a clearer photo or reconnect to internet."))
           false true.
Proof.
  apply (handleFileSelect_classifier_not_loaded Demo.readyHost Demo.photo
           Demo.photo Scenario.coldStart 100 100 100 Demo.photoUrl);
    vm_compute; reflexivity.
Defined.

Lemma handleFileSelect_extends_cloud_only_witness :
  handleFileSelect Demo.readyHost (Some Demo.photo) Demo.onlineIdle
  = handleFileSelectCloudOnly Demo.readyHost (Some Demo.photo) Demo.onlineIdle.
Proof.
  apply (handleFileSelect_extends_cloud_only Demo.readyHost (Some Demo.photo)
           Demo.onlineIdle); reflexivity.
Defined.

Lemma replaceHeicSuffix_suffix_witness :
  replaceHeicSuffix (str "IMG_0042" ++ str ".HEIC") = str "IMG_0042" ++ str ".jpg".
Proof.
  apply (replaceHeicSuffix_suffix (str "IMG_0042") (str ".HEIC")).
  vm_compute. reflexivity.
Defined.

Lemma handleFileSelect_null_answer_witness :
  exists m',
    handleFileSelect Scenario.nullAnswerHost (Some Demo.photo) Demo.onlineIdle
      = (Return tt, m')
    /\ app m' = mkAppState ANALYZE None (Some Demo.photoUrl) false None true false.
Proof.
  apply (handleFileSelect_null_answer Scenario.nullAnswerHost Demo.photo
           Demo.photo Demo.onlineIdle 100 100 100 100 Demo.photoUrl
           (str "data:image/png;base64,iVBORw0KGgo=") (str "null"));
    vm_compute; reflexivity.
Defined.
